(** * pkgmanager: manifest resolution and reconciliation

    A shallow embedding of [src/pkgmanager/cli.py]: the manifest model
    ([_load_manifest], [_update_raw_manifest], [_save_manifest]), the resolver
    ([_resolve_package_manager], [_resolve_all_packages]), the shared execution
    primitive ([PackageManager._run_command]) with the managers built on it,
    and the commands [init] and [install].

    Conventions.
    - The nested manifest ([raw_data]) is only ever accessed by key, so it is a
      record of finite maps; the flattened and resolved dictionaries are
      iterated ([data.items()], [data.keys()]), so they are insertion-ordered
      association lists ([pydict]).
    - Everything the program asks of its surroundings (platform, environment,
      tools on PATH, subprocesses, installed-package queries, the bundled
      specs) is a field of the class [Host]; the program threads a [machine]
      (operating-system world, manifest files, console and process trace)
      through a small state-and-exit monad [M]. *)

From Stdlib Require Import Ascii String ZArith.
From stdpp Require Import gmap strings list fin_maps pretty.

Open Scope string_scope.
Open Scope list_scope.
Open Scope nat_scope.

(** ** Python strings *)

Definition nl : string := String (Ascii.ascii_of_nat 10) "".

(** [sep.join(l)] *)
Fixpoint str_join (sep : string) (l : list string) : string :=
  match l with
  | [] => ""
  | [x] => x
  | x :: rest => x +:+ sep +:+ str_join sep rest
  end.

(** [s.split(c, 1)] when [c in s]: the text before and after the first [c]. *)
Fixpoint split_first (c : ascii) (s : string) : option (string * string) :=
  match s with
  | EmptyString => None
  | String a rest =>
      if decide (a = c) then Some ("", rest)
      else match split_first c rest with
           | Some (x, y) => Some (String a x, y)
           | None => None
           end
  end.

(** [s.split(c)] *)
Fixpoint str_split (c : ascii) (s : string) : list string :=
  match s with
  | EmptyString => [""]
  | String a rest =>
      if decide (a = c) then "" :: str_split c rest
      else match str_split c rest with
           | [] => [String a ""]
           | x :: xs => String a x :: xs
           end
  end.

(** A string is the UTF-8 text of a Python [str]. The characters
    [str.strip()] removes are those of [str.isspace]. In ASCII: tab, line
    feed, vertical tab, form feed, carriage return, the separators 28-31
    and space. *)
Definition is_space (a : ascii) : bool :=
  let n := Ascii.nat_of_ascii a in
  (Nat.leb 9 n && Nat.leb n 13) || (Nat.leb 28 n && Nat.leb n 32).

(** In two bytes: U+0085 and U+00A0. *)
Definition is_space2 (a b : ascii) : bool :=
  let n := Ascii.nat_of_ascii a in
  let m := Ascii.nat_of_ascii b in
  Nat.eqb n 194 && (Nat.eqb m 133 || Nat.eqb m 160).

(** In three bytes: U+1680, U+2000 to U+200A, U+2028, U+2029, U+202F,
    U+205F and U+3000. *)
Definition is_space3 (a b c : ascii) : bool :=
  let n := Ascii.nat_of_ascii a in
  let m := Ascii.nat_of_ascii b in
  let k := Ascii.nat_of_ascii c in
  (Nat.eqb n 225 && Nat.eqb m 154 && Nat.eqb k 128)
  || (Nat.eqb n 226 && Nat.eqb m 128
      && ((Nat.leb 128 k && Nat.leb k 138) || Nat.eqb k 168 || Nat.eqb k 169
          || Nat.eqb k 175))
  || (Nat.eqb n 226 && Nat.eqb m 129 && Nat.eqb k 159)
  || (Nat.eqb n 227 && Nat.eqb m 128 && Nat.eqb k 128).

Fixpoint lstrip (s : string) : string :=
  match s with
  | EmptyString => ""
  | String a rest =>
      if is_space a then lstrip rest
      else match rest with
           | String b rest2 =>
               if is_space2 a b then lstrip rest2
               else match rest2 with
                    | String c rest3 => if is_space3 a b c then lstrip rest3 else s
                    | EmptyString => s
                    end
           | EmptyString => s
           end
  end.

(** The same from the end, on the bytes in reverse order; a lead byte of
    UTF-8 is never a continuation byte, so the characters are found the
    same from either end. *)
Fixpoint lstrip_reversed (s : string) : string :=
  match s with
  | EmptyString => ""
  | String a rest =>
      if is_space a then lstrip_reversed rest
      else match rest with
           | String b rest2 =>
               if is_space2 b a then lstrip_reversed rest2
               else match rest2 with
                    | String c rest3 =>
                        if is_space3 c b a then lstrip_reversed rest3 else s
                    | EmptyString => s
                    end
           | EmptyString => s
           end
  end.

Definition str_reverse (s : string) : string :=
  string_of_list_ascii (List.rev (list_ascii_of_string s)).

Definition rstrip (s : string) : string :=
  str_reverse (lstrip_reversed (str_reverse s)).

Definition str_strip (s : string) : string := rstrip (lstrip s).

(** [needle in hay] *)
Fixpoint str_contains (needle hay : string) : bool :=
  if String.prefix needle hay then true
  else match hay with
       | EmptyString => false
       | String _ rest => str_contains needle rest
       end.

(** Truthiness of a string and of an optional string ([None] and [""] are
    falsy). *)
Definition truthy (s : string) : bool := negb (bool_decide (s = "")).
Definition truthy_opt (o : option string) : bool :=
  match o with Some s => truthy s | None => false end.

(** ** Insertion-ordered dictionaries *)

Definition pydict (V : Type) : Type := list (string * V).

Fixpoint dict_get {V} (k : string) (d : pydict V) : option V :=
  match d with
  | [] => None
  | (k', v) :: rest => if decide (k' = k) then Some v else dict_get k rest
  end.

(** [d[k] = v]: an existing key keeps its position, a new key goes last. *)
Fixpoint dict_set {V} (k : string) (v : V) (d : pydict V) : pydict V :=
  match d with
  | [] => [(k, v)]
  | (k', v') :: rest =>
      if decide (k' = k) then (k, v) :: rest else (k', v') :: dict_set k v rest
  end.

Definition dict_keys {V} (d : pydict V) : list string := d.*1.

Definition dict_mem {V} (k : string) (d : pydict V) : bool :=
  bool_decide (is_Some (dict_get k d)).

(** ** Data classes *)

Record PackageInfo := {
  pi_name : string;
  pi_version : string;
  pi_display_name : string;
}.

Record CommandResult := {
  success : bool;
  message : string;
}.

Record CustomPackageConfig := {
  cfg_name : string;
  cfg_install : string;
  cfg_check : string;
  cfg_remove : string;
  cfg_shell : string;
  cfg_depends : list string;
  cfg_description : string;
}.

(** An entry of the bundled [specs.yaml]: a bare install command, or a
    mapping with optional fields. *)
Inductive spec_config :=
| SpecStr (install : string)
| SpecDict (install check remove shell : option string)
           (depends : option (list string)) (description : option string).

(** ** Manifest document *)

(** The value under an entry's ["platforms"] or ["platform"] key. *)
Inductive platform_spec :=
| PlatStr (s : string)
| PlatList (l : list string).

(** One encoded entry of a manifest list: a string (possibly
    ["name:backend"]), a mapping with [name] and platform fields, or any
    other YAML scalar (for instance an integer). *)
Inductive entry :=
| EStr (s : string)
| EDict (name : option string) (platforms platform : option platform_spec)
| EOther (z : Z).

Global Instance platform_spec_eq_dec : EqDecision platform_spec.
Proof. solve_decision. Defined.
Global Instance entry_eq_dec : EqDecision entry.
Proof. solve_decision. Defined.

(** [raw_data]: category title to backend identifier to entry list, plus the
    top-level custom list. *)
Record raw_manifest := {
  categories : gmap string (gmap string (list entry));
  custom : option (list entry);
}.

Definition empty_manifest : raw_manifest :=
  {| categories := ∅; custom := None |}.

(** ** The host: everything outside the program

    The fields of [Host] are what the program observes of its surroundings
    and the one way it acts on them, [subprocess_run]. The trace of a run
    records the subprocesses that install, remove, update or check
    something ([_run_command], [_run_script], [is_installed]). A query
    ([which], [_detect_shell], listing installed packages) is an answer
    of the host: the listing commands of the backends and the [ps] of
    [_detect_shell], which the program runs to get the answer, are not
    in the trace, change nothing in the world, and are taken to answer
    (a listing fails soft on a non-zero exit code; that its subprocess
    cannot be started is not modelled). So a statement that a run adds
    no subprocess to the trace says that it installs, removes, updates
    and checks nothing. *)

Inductive PackageManager :=
| CondaManager | PythonManager | RustManager | BrewManager
| CaskManager | MasManager | WingetManager | BunManager.

Global Instance PackageManager_eq_dec : EqDecision PackageManager.
Proof. solve_decision. Defined.

Class Host := {
  World : Type;
  (** [sys.platform] *)
  sys_platform : string;
  (** [os.environ.get("WSL_DISTRO_NAME")] *)
  WSL_DISTRO_NAME : option string;
  (** the text of [/proc/version]; [None] when opening it raises [OSError] *)
  proc_version : option string;
  (** [os.environ.get("PACKAGE_CONFIG")] *)
  PACKAGE_CONFIG : option string;
  DEFAULT_MANIFEST : string;
  (** [str(Path(env))]: the path in the normal form of the platform *)
  path_str : string → string;
  (** [_load_specs()] *)
  specs : pydict spec_config;
  (** [shutil.which(tool) is not None] *)
  which : string → World → bool;
  (** [_detect_shell()] *)
  _detect_shell : World → string;
  (** [subprocess.run(argv)]: the return code, or the text of the exception
      the call itself raises; and the world afterwards. *)
  subprocess_run : list string → World → (string + Z) * World;
  (** [manager.get_installed_packages()], which fails soft *)
  get_installed_packages : PackageManager → World → list PackageInfo;
  (** [str.lower], [str.capitalize], [shlex.quote] and
      [str(CalledProcessError(code, argv))] *)
  str_lower : string → string;
  str_capitalize : string → string;
  shlex_quote : string → string;
  called_process_error : list string → Z → string;
}.

(** ** Backend registry *)

Definition mgr_name (m : PackageManager) : string :=
  match m with
  | CondaManager => "conda" | PythonManager => "python"
  | RustManager => "rust" | BrewManager => "brew"
  | CaskManager => "cask" | MasManager => "mas"
  | WingetManager => "winget" | BunManager => "bun"
  end.

Definition mgr_color (m : PackageManager) : string :=
  match m with
  | CondaManager => "green" | PythonManager => "yellow"
  | RustManager => "red" | BrewManager => "bright_yellow"
  | CaskManager => "bright_blue" | MasManager => "bright_cyan"
  | WingetManager => "cyan" | BunManager => "bright_magenta"
  end.

Definition mgr_tool (m : PackageManager) : string :=
  match m with
  | CondaManager => "micromamba" | PythonManager => "uv"
  | RustManager => "cargo" | BrewManager => "brew"
  | CaskManager => "brew" | MasManager => "mas"
  | WingetManager => "winget.exe" | BunManager => "bun"
  end.

Definition MANAGERS : pydict PackageManager :=
  [("conda", CondaManager); ("python", PythonManager); ("rust", RustManager);
   ("brew", BrewManager); ("cask", CaskManager); ("mas", MasManager);
   ("winget", WingetManager); ("bun", BunManager)].

Definition MANAGER_ORDER : list string :=
  ["brew"; "cask"; "mas"; "winget"; "conda"; "python"; "rust"; "bun"; "custom"].

Record Category := {
  title : string;
  types : list string;
  cat_platform : option string;
}.

Definition CATEGORIES : pydict Category :=
  [("mac", {| title := "macOS"; types := ["brew"; "cask"; "mas"];
              cat_platform := Some "darwin" |});
   ("wsl", {| title := "WSL"; types := ["winget"];
              cat_platform := Some "wsl" |});
   ("general", {| title := "General";
                  types := ["conda"; "python"; "rust"; "bun"];
                  cat_platform := None |});
   ("custom", {| title := "Custom"; types := ["custom"];
                 cat_platform := None |})].

Definition CATEGORY_ORDER : list string := ["mac"; "wsl"; "general"; "custom"].

(** [CATEGORIES[cat_name]["types"]]; every name looked up is a key. *)
Definition category_types (cat_name : string) : list string :=
  match dict_get cat_name CATEGORIES with
  | Some cat => types cat
  | None => []
  end.

(** [PackageManager.is_available] *)
Definition is_available `{Host} (m : PackageManager) (w : World) : bool :=
  which (mgr_tool m) w.

(** ** Platform classifier *)

Section platform.
Context `{Host}.

Definition _is_macos : bool := bool_decide (sys_platform = "darwin").

Definition _is_wsl : bool :=
  if negb (bool_decide (sys_platform = "linux")) then false
  else if truthy_opt WSL_DISTRO_NAME then true
  else match proc_version with
       | Some text => str_contains "microsoft" (str_lower text)
       | None => false
       end.

Definition category_active (cat : Category) : bool :=
  match cat_platform cat with
  | None => true
  | Some p =>
      if bool_decide (p = "wsl") && _is_wsl then true
      else bool_decide (p = sys_platform)
  end.

Definition _get_active_categories : list string :=
  List.filter (λ cat_name,
                 match dict_get cat_name CATEGORIES with
                 | Some cat => category_active cat
                 | None => false
                 end) CATEGORY_ORDER.

(** The loop body of [_platform_matches] for one tag. *)
Definition platform_tag_matches (platform : string) : bool :=
  (bool_decide (platform = "wsl") && _is_wsl)
  || (bool_decide (platform = "darwin") && _is_macos)
  || (bool_decide (platform = "linux") && bool_decide (sys_platform = "linux"))
  || (bool_decide (platform ∈ ["windows"; "win32"])
      && bool_decide (sys_platform = "win32"))
  || bool_decide (platform = sys_platform).

Definition _platform_matches (platforms : option platform_spec) : bool :=
  match platforms with
  | None => true
  | Some (PlatStr s) =>
      if truthy s then existsb platform_tag_matches [s] else true
  | Some (PlatList l) =>
      match l with [] => true | _ => existsb platform_tag_matches l end
  end.
End platform.

(** [_get_category_for_type] *)
Fixpoint category_scan (cats : pydict Category) (pkg_type : string) : option string :=
  match cats with
  | [] => None
  | (cat_name, cat) :: rest =>
      if bool_decide (pkg_type ∈ types cat) then Some cat_name
      else category_scan rest pkg_type
  end.

Definition _get_category_for_type (pkg_type : string) : option string :=
  category_scan CATEGORIES pkg_type.

(** ** Entry parsing *)

Definition platform_truthy (p : option platform_spec) : bool :=
  match p with
  | None => false
  | Some (PlatStr s) => truthy s
  | Some (PlatList l) => match l with [] => false | _ => true end
  end.

(** [_parse_custom_entry]; [a or b] is [a] when [a] is truthy, else [b]. *)
Definition _parse_custom_entry (e : entry) : option string * option platform_spec :=
  match e with
  | EDict name platforms platform =>
      (name, if platform_truthy platforms then platforms else platform)
  | EStr s => (Some s, None)
  | EOther _ => (None, None)
  end.

(** [_parse_package_entry] on a string. *)
Definition _parse_package_entry (e : string) : string * option string :=
  match split_first ":" e with
  | Some (name, preferred) => (name, Some preferred)
  | None => (e, None)
  end.

(** ** Resolver *)

Section resolver.
Context `{Host}.

(** The [for cat_name in _get_active_categories()] loop of
    [_resolve_package_manager], which returns at the first hit. *)
Fixpoint resolve_scan (active : list string) (default_type preferred_type : string)
  : string :=
  match active with
  | [] => default_type
  | cat_name :: rest =>
      if bool_decide (preferred_type ∈ category_types cat_name)
      then preferred_type
      else resolve_scan rest default_type preferred_type
  end.

Definition _resolve_package_manager (w : World) (pkg_name default_type : string)
    (preferred_type : option string) : string :=
  match preferred_type with
  | Some preferred =>
      if truthy preferred then
        match dict_get preferred MANAGERS with
        | Some manager =>
            if is_available manager w
            then resolve_scan _get_active_categories default_type preferred
            else default_type
        | None => default_type
        end
      else default_type
  | None => default_type
  end.

(** One iteration of the inner loop of [_resolve_all_packages]. *)
Definition resolve_entry (w : World) (default_type : string)
    (resolved : pydict (list string)) (e : string) : pydict (list string) :=
  let '(name, preferred) := _parse_package_entry e in
  let actual_type := _resolve_package_manager w name default_type preferred in
  let resolved :=
    if dict_mem actual_type resolved then resolved
    else dict_set actual_type [] resolved in
  dict_set actual_type (default [] (dict_get actual_type resolved) ++ [name])
           resolved.

Definition resolve_section (w : World) (resolved : pydict (list string))
    (item : string * list string) : pydict (list string) :=
  let '(default_type, packages) := item in
  if decide (default_type = "custom") then dict_set "custom" packages resolved
  else match packages with
       | [] => resolved
       | _ => foldl (resolve_entry w default_type) resolved packages
       end.

Definition _resolve_all_packages (w : World) (data : pydict (list string))
  : pydict (list string) :=
  foldl (resolve_section w) [] data.
End resolver.

(** ** The machine and its monad *)

Declare Scope prog_scope.
Delimit Scope prog_scope with prog.

Inductive event :=
| Print (text : string)             (** [console.print(text)] *)
| PrintPanel (text style : string)  (** [console.print(Panel(text, style=style))] *)
| Spawn (argv : list string)        (** [subprocess.run(argv, ...)] *)
| WriteFile (path : string) (raw_data : raw_manifest).
                                    (** [yaml.dump(raw_data, f)] on [open(path, "w")] *)

(** How a computation ends: it returns, or [SystemExit(code)] is raised, or
    another exception reaches the top. *)
Inductive outcome (A : Type) :=
| Ret (a : A)
| SystemExit (code : Z)
| Uncaught (exn : string).
Arguments Ret {A} a.
Arguments SystemExit {A} code.
Arguments Uncaught {A} exn.

Section machine.
Context `{Host}.

(** A manifest file holds a parsed YAML document: [None] for an empty or
    null document, otherwise the nested structure. Subprocesses act on
    [os] and leave the manifest files alone. *)
Record machine := {
  os : World;
  files : gmap string (option raw_manifest);
  trace : list event;
}.

Definition M (A : Type) : Type := machine → outcome A * machine.

Definition ret {A} (a : A) : M A := λ s, (Ret a, s).

Definition bind {A B} (m : M A) (f : A → M B) : M B :=
  λ s, match m s with
       | (Ret a, s') => f a s'
       | (SystemExit code, s') => (SystemExit code, s')
       | (Uncaught exn, s') => (Uncaught exn, s')
       end.

Definition emit (e : event) : M unit :=
  λ s, (Ret tt, {| os := os s; files := files s; trace := trace s ++ [e] |}).

Definition print (text : string) : M unit := emit (Print text).
Definition print_panel (text style : string) : M unit := emit (PrintPanel text style).

Definition exit {A} (code : Z) : M A := λ s, (SystemExit code, s).

(** Observe the world without changing it. *)
Definition ask {A} (f : World → A) : M A := λ s, (Ret (f (os s)), s).

(** [subprocess.run(argv)]: recorded in the trace, then left to the host. *)
Definition spawn (argv : list string) : M (string + Z) :=
  λ s, let '(r, w) := subprocess_run argv (os s) in
       (Ret r, {| os := w; files := files s; trace := trace s ++ [Spawn argv] |}).

Definition read_file (path : string) : M (option (option raw_manifest)) :=
  λ s, (Ret (files s !! path), s).

Definition write_file (path : string) (raw_data : raw_manifest) : M unit :=
  λ s, (Ret tt, {| os := os s; files := <[path := Some raw_data]> (files s);
                   trace := trace s ++ [WriteFile path raw_data] |}).

End machine.

(** The sequencing notations of the library, read in [M]. *)
Notation "x ← y ; z" := (bind y (λ x, z))
  (at level 20, y at level 100, z at level 200, only parsing) : prog_scope.
Notation "' x ← y ; z" := (bind y (λ x, z))
  (at level 20, x pattern, y at level 100, z at level 200, only parsing) : prog_scope.
Notation "x ;; z" := (bind x (λ _, z))
  (at level 100, z at level 200, only parsing, right associativity) : prog_scope.
Open Scope prog_scope.

(** ** The shared execution primitive *)

Section backends.
Context `{Host}.

Definition ok_result : CommandResult := {| success := true; message := "" |}.

(** [PackageManager._run_command] *)
Definition _run_command (cmd : list string) (dry_run check : bool) : M CommandResult :=
  let cmd_str := str_join " " cmd in
  if dry_run then
    print ("  [dim]Would run:[/] " +:+ cmd_str);;
    ret ok_result
  else
    print ("  [dim]$[/] " +:+ cmd_str);;
    shell ← ask _detect_shell;
    r ← spawn [shell; "-l"; "-c"; cmd_str];
    match r with
    | inl exn => λ s, (Uncaught exn, s)
    | inr returncode =>
        if check && negb (bool_decide (returncode = 0%Z)) then
          ret {| success := false;
                  message := called_process_error [shell; "-l"; "-c"; cmd_str] returncode |}
        else ret {| success := bool_decide (returncode = 0%Z); message := "" |}
    end.

(** ** The backends' [install] *)

(** One [_run_command] per package, stopping at the first failure. *)
Fixpoint install_until_failure (command : string → list string)
    (packages : list string) (dry_run : bool) : M CommandResult :=
  match packages with
  | [] => ret ok_result
  | pkg :: rest =>
      result ← _run_command (command pkg) dry_run true;
      if success result then install_until_failure command rest dry_run
      else ret result
  end.

(** One [_run_command] per package, all of them attempted. *)
Fixpoint install_collect (command : string → list string)
    (packages : list string) (dry_run : bool) : M (list CommandResult) :=
  match packages with
  | [] => ret []
  | pkg :: rest =>
      result ← _run_command (command pkg) dry_run true;
      results ← install_collect command rest dry_run;
      ret (result :: results)
  end.

Definition manager_install (m : PackageManager) (packages : list string)
    (dry_run : bool) : M CommandResult :=
  match m with
  | CondaManager =>
      _run_command (["micromamba"; "install"; "-n"; "base"; "-y"] ++ packages) dry_run true
  | PythonManager =>
      install_until_failure (λ pkg, ["uv"; "tool"; "install"; pkg; "--force"])
                            packages dry_run
  | RustManager =>
      _run_command (["cargo"; "install"; "--locked"] ++ packages) dry_run true
  | BrewManager =>
      _run_command (["brew"; "install"] ++ packages) dry_run true
  | CaskManager =>
      _run_command (["brew"; "install"; "--cask"] ++ packages) dry_run true
  | MasManager =>
      install_until_failure (λ app_id, ["mas"; "install"; app_id]) packages dry_run
  | WingetManager =>
      results ← install_collect
                  (λ pkg, ["winget.exe"; "install"; shlex_quote pkg; "--silent";
                           "--accept-package-agreements";
                           "--accept-source-agreements"])
                  packages dry_run;
      ret {| success := forallb success results; message := "" |}
  | BunManager =>
      install_until_failure (λ pkg, ["bun"; "add"; "-g"; pkg]) packages dry_run
  end.

(** ** The custom manager *)

(** [CustomManager._parse_config] *)
Definition _parse_config (name : string) (config : spec_config) : CustomPackageConfig :=
  match config with
  | SpecStr install =>
      {| cfg_name := name; cfg_install := install; cfg_check := "";
         cfg_remove := ""; cfg_shell := ""; cfg_depends := [];
         cfg_description := "" |}
  | SpecDict install check remove shell depends description =>
      {| cfg_name := name; cfg_install := default "" install;
         cfg_check := default "" check; cfg_remove := default "" remove;
         cfg_shell := default "" shell; cfg_depends := default [] depends;
         cfg_description := default "" description |}
  end.

(** [CustomManager._get_shell] *)
Definition _get_shell (pkg_config : CustomPackageConfig) : M string :=
  if truthy (cfg_shell pkg_config) then ret (cfg_shell pkg_config)
  else ask _detect_shell.

(** [CustomManager._run_script] *)
Definition _run_script (script shell : string) (dry_run : bool) : M CommandResult :=
  if dry_run then
    print ("  [dim]Would run in " +:+ shell +:+ ":[/]");;
    foldr (λ line k, print ("    " +:+ line);; k) (ret tt)
          (str_split (Ascii.ascii_of_nat 10) (str_strip script));;
    ret ok_result
  else
    print ("  [dim]Running in " +:+ shell +:+ "...[/]");;
    r ← spawn [shell; "-l"; "-c"; script];
    match r with
    | inl exn => ret {| success := false; message := exn |}
    | inr returncode =>
        ret {| success := bool_decide (returncode = 0%Z); message := "" |}
    end.

(** [CustomManager.is_installed] *)
Definition CustomManager_is_installed (pkg_config : CustomPackageConfig) : M bool :=
  if negb (truthy (cfg_check pkg_config)) then ret false
  else
    shell ← _get_shell pkg_config;
    r ← spawn [shell; "-l"; "-c"; cfg_check pkg_config];
    match r with
    | inl _ => ret false
    | inr returncode => ret (bool_decide (returncode = 0%Z))
    end.

(** [CustomManager.install] *)
Definition CustomManager_install (pkg_config : CustomPackageConfig) (dry_run : bool)
  : M CommandResult :=
  shell ← _get_shell pkg_config;
  print ("  [dim]Shell:[/] " +:+ shell);;
  _run_script (cfg_install pkg_config) shell dry_run.
End backends.

(** ** Manifest model *)

(** [list.remove(x)]: drop the first element equal to [x]. *)
Fixpoint list_remove_first {A} `{EqDecision A} (x : A) (l : list A) : list A :=
  match l with
  | [] => []
  | y :: rest => if decide (y = x) then rest else y :: list_remove_first x rest
  end.

(** The first raw entry of a standard list whose parsed name is [name]: the
    [for entry in pkg_list] loop of the remove branch. [_parse_package_entry]
    hands back anything that is not a string unchanged, and only a string
    is equal to [name], so the entry found is a string. *)
Fixpoint find_to_remove (name : string) (pkg_list : list entry) : option string :=
  match pkg_list with
  | [] => None
  | EStr s :: rest =>
      if decide ((_parse_package_entry s).1 = name) then Some s
      else find_to_remove name rest
  | _ :: rest => find_to_remove name rest
  end.

(** [_update_raw_manifest], as a function from the old [raw_data] to the new
    one. *)
Definition _update_raw_manifest (raw_data : raw_manifest) (pkg_type name action : string)
  : raw_manifest :=
  match _get_category_for_type pkg_type with
  | None => raw_data
  | Some cat_name =>
      if decide (cat_name = "custom") then
        let custom_list := default [] (custom raw_data) in
        if decide (action = "remove") then
          match custom raw_data with
          | Some _ =>
              let kept :=
                List.filter (λ e, negb (bool_decide ((_parse_custom_entry e).1 = Some name)))
                            custom_list in
              {| categories := categories raw_data;
                 custom := match kept with [] => None | _ => Some kept end |}
          | None => raw_data
          end
        else if existsb (λ e, bool_decide ((_parse_custom_entry e).1 = Some name)) custom_list
        then raw_data
        else {| categories := categories raw_data;
                custom := Some (default [] (custom raw_data) ++ [EStr name]) |}
      else
        (* if cat_name not in raw_data: raw_data[cat_name] = {} *)
        let cat_data := default ∅ (categories raw_data !! cat_name) in
        (* if pkg_type not in raw_data[cat_name]: raw_data[cat_name][pkg_type] = [] *)
        let pkg_list := default [] (cat_data !! pkg_type) in
        let pkg_list' :=
          if bool_decide (action = "add") && negb (bool_decide (EStr name ∈ pkg_list))
          then pkg_list ++ [EStr name]
          else if decide (action = "remove") then
            match find_to_remove name pkg_list with
            | Some to_remove =>
                (* if to_remove: pkg_list.remove(to_remove) *)
                if truthy to_remove then list_remove_first (EStr to_remove) pkg_list
                else pkg_list
            | None => pkg_list
            end
          else pkg_list in
        {| categories := <[cat_name := <[pkg_type := pkg_list']> cat_data]> (categories raw_data);
           custom := custom raw_data |}
  end.

Section manifest.
Context `{Host}.

(** The entry loop of [_load_manifest]: the names of the entries that have
    a name and whose platform restriction matches, in order. *)
Fixpoint collect_names (entries : list entry) : list string :=
  match entries with
  | [] => []
  | e :: rest =>
      let '(name, platforms) := _parse_custom_entry e in
      if truthy_opt name && _platform_matches platforms
      then default "" name :: collect_names rest
      else collect_names rest
  end.

(** [flattened[key] = names], only when [names] is not empty. *)
Definition set_nonempty (key : string) (names : list string)
    (flattened : pydict (list string)) : pydict (list string) :=
  match names with
  | [] => flattened
  | _ => dict_set key names flattened
  end.

(** One backend of a category. *)
Definition flatten_type (cat_data : gmap string (list entry))
    (flattened : pydict (list string)) (pkg_type : string) : pydict (list string) :=
  match cat_data !! pkg_type with
  | Some entries => set_nonempty pkg_type (collect_names entries) flattened
  | None => flattened
  end.

(** One active category. *)
Definition flatten_category (raw_data : raw_manifest)
    (flattened : pydict (list string)) (cat_name : string) : pydict (list string) :=
  if decide (cat_name = "custom") then
    match custom raw_data with
    | Some entries => set_nonempty "custom" (collect_names entries) flattened
    | None => flattened
    end
  else
    let cat_data := default ∅ (categories raw_data !! cat_name) in
    foldl (flatten_type cat_data) flattened (category_types cat_name).

Definition flatten (raw_data : raw_manifest) : pydict (list string) :=
  foldl (flatten_category raw_data) [] _get_active_categories.

(** The path [_load_manifest] reads. *)
Definition manifest_path (env : option string) : string :=
  let env := if truthy_opt env then env else PACKAGE_CONFIG in
  if truthy_opt env then path_str (default "" env) else DEFAULT_MANIFEST.

(** [_load_manifest]: [(flattened, raw_data, path)] *)
Definition _load_manifest (env : option string)
  : M (pydict (list string) * raw_manifest * string) :=
  let env_path := manifest_path env in
  content ← read_file env_path;
  match content with
  | None =>
      print ("[red]Error:[/] Manifest file not found: [dim]" +:+ env_path +:+ "[/]");;
      exit 1
  | Some document =>
      (* yaml.safe_load(f) or {} *)
      let raw_data := default empty_manifest document in
      ret (flatten raw_data, raw_data, env_path)
  end.

(** [_save_manifest] *)
Definition _save_manifest (raw_data : raw_manifest) (path : string) : M unit :=
  write_file path raw_data.
End manifest.

(** ** The manifest file as text

    The machine above keeps what [yaml.safe_load] made of a manifest
    file, and only documents every section of which is a mapping and
    every list a sequence. Here the file is text, the parser and the
    serializer are the library's, and a section or a list may be null, as
    that of [general:] with nothing under it is. *)

(** What [yaml.safe_load] gives for a manifest: category to backend to
    entry list, plus the custom list, where the value under a key present
    in the file may be [None]. *)
Record document := {
  doc_categories : gmap string (option (gmap string (option (list entry))));
  doc_custom : option (option (list entry));
}.


(** A manifest of the machine, as a document. *)
Definition document_of (raw_data : raw_manifest) : document :=
  {| doc_categories :=
       (λ cat_data : gmap string (list entry),
          Some ((Some <$> cat_data) : gmap string (option (list entry))))
       <$> categories raw_data;
     doc_custom := Some <$> custom raw_data |}.

(** A document as a manifest of the machine: a key bound to null counts
    as absent. *)
Definition manifest_of (raw_data : document) : raw_manifest :=
  {| categories :=
       omap (M := gmap string)
            (λ cat_data : option (gmap string (option (list entry))),
               match cat_data with
               | Some cat_data =>
                   Some (omap (M := gmap string) (λ l : option (list entry), l) cat_data)
               | None => None
               end)
            (doc_categories raw_data);
     custom := match doc_custom raw_data with
               | Some entries => entries
               | None => None
               end |}.

(** A loop whose body may raise: the name of the exception, or the value
    at the end. *)
Fixpoint fold_raising {A B} (f : A → B → string + A) (acc : A) (l : list B)
  : string + A :=
  match l with
  | [] => inr acc
  | x :: rest =>
      match f acc x with
      | inl exn => inl exn
      | inr acc => fold_raising f acc rest
      end
  end.

Section manifest_text.
Context `{Host}.

(** One backend of a category; [cat_data] is [None] for a null section,
    on which [pkg_type in cat_data] raises, and [for entry in None]
    raises on a null list. *)
Definition flatten_type_checked (cat_data : option (gmap string (option (list entry))))
    (flattened : pydict (list string)) (pkg_type : string)
  : string + pydict (list string) :=
  match cat_data with
  | None => inl "TypeError"
  | Some cat_data =>
      match cat_data !! pkg_type with
      | None => inr flattened
      | Some None => inl "TypeError"
      | Some (Some entries) =>
          inr (set_nonempty pkg_type (collect_names entries) flattened)
      end
  end.

(** One active category. *)
Definition flatten_category_checked (raw_data : document)
    (flattened : pydict (list string)) (cat_name : string)
  : string + pydict (list string) :=
  if decide (cat_name = "custom") then
    match doc_custom raw_data with
    | None => inr flattened
    | Some None => inl "TypeError"
    | Some (Some entries) =>
        inr (set_nonempty "custom" (collect_names entries) flattened)
    end
  else
    (* cat_data = raw_data.get(cat_name, {}) *)
    let cat_data := default (Some ∅) (doc_categories raw_data !! cat_name) in
    fold_raising (flatten_type_checked cat_data) flattened (category_types cat_name).

(** The flattening loop of [_load_manifest]. *)
Definition flatten_document (raw_data : document) : string + pydict (list string) :=
  fold_raising (flatten_category_checked raw_data) [] _get_active_categories.

Section codec.
Variable Text : Type.
(** [yaml.safe_load]: the document, [None] for an empty one, or the name
    of the exception it raises. *)
Variable yaml_safe_load : Text → string + option document.
(** [yaml.dump(raw_data, default_flow_style=False, sort_keys=False)] *)
Variable yaml_dump : document → Text.


End codec.
End manifest_text.

(** ** Helpers of the commands *)

(** [_reorder_types]; the generator handed to [extend] tests membership in
    the list as it grows. *)
Definition _reorder_types (types : list string) : list string :=
  let ordered := List.filter (λ t, bool_decide (t ∈ types)) MANAGER_ORDER in
  foldl (λ ordered t, if bool_decide (t ∈ ordered) then ordered else ordered ++ [t])
        ordered types.

Section helpers.
Context `{Host}.

(** [_get_manager] *)
Definition _get_manager (pkg_type : string) : M PackageManager :=
  match dict_get pkg_type MANAGERS with
  | None =>
      print ("[red]Error:[/] Unknown package type '[bold]" +:+ pkg_type +:+ "[/]'"
             +:+ nl +:+ "Valid types: " +:+ str_join ", " (dict_keys MANAGERS));;
      exit 1
  | Some manager =>
      available ← ask (is_available manager);
      if available then ret manager
      else
        print ("[red]Error:[/] Required tool '[bold]" +:+ mgr_tool manager
               +:+ "[/]' not found in PATH");;
        exit 1
  end.

(** [_print_header] *)
Definition _print_header (action pkg_type : string) (packages : list string) : M unit :=
  let color := match dict_get pkg_type MANAGERS with
               | Some manager => mgr_color manager
               | None => "white"
               end in
  let head := nl +:+ "[bold " +:+ color +:+ "]▶ " +:+ str_capitalize action
              +:+ "[/] [" +:+ color +:+ "]" +:+ pkg_type +:+ "[/]" in
  match packages with
  | [] => print head
  | _ =>
      let pkg_list := if decide (length packages ≤ 3)%nat then str_join ", " packages
                      else pretty (length packages) +:+ " packages" in
      print (head +:+ ": " +:+ pkg_list)
  end.

Definition _print_success (message : string) : M unit :=
  print ("[green]✓[/] " +:+ message).

Definition _print_error (message : string) : M unit :=
  print ("[red]✗[/] " +:+ message).

(** [result.message or fallback] *)
Definition message_or (result : CommandResult) (fallback : string) : string :=
  if truthy (message result) then message result else fallback.

(** [_get_installed_names] on the records a backend reports. *)
Definition installed_names (manager : PackageManager) (installed_packages : list PackageInfo)
  : gset string :=
  let names : gset string := list_to_set (pi_name <$> installed_packages) in
  if decide (mgr_name manager = "winget") then
    let names :=
      names ∪ list_to_set (pi_display_name <$>
                             List.filter (λ p, truthy (pi_display_name p)) installed_packages) in
    names ∪ set_map str_lower names
  else names.

Definition _get_installed_names (manager : PackageManager) : M (gset string) :=
  ask (λ w, installed_names manager (get_installed_packages manager w)).

(** The [missing] list of [init] for a standard backend. *)
Definition missing_packages (manager : PackageManager) (installed : gset string)
    (packages : list string) : list string :=
  if decide (mgr_name manager = "winget") then
    List.filter (λ p, negb (bool_decide (p ∈ installed))
                      && negb (bool_decide (str_lower p ∈ installed))) packages
  else List.filter (λ p, negb (bool_decide (p ∈ installed))) packages.
End helpers.

(** ** The commands *)

Section commands.
Context `{Host}.

(** The two lines [init] prints before it installs the [missing] packages
    of a backend that declares [total] of them. *)
Definition announce (pkg_type : string) (missing : list string) (total : nat) : M unit :=
  _print_header "Installing" pkg_type missing;;
  print ("  [dim]Skipping "
         +:+ pretty (Z.of_nat total - Z.of_nat (length missing))%Z
         +:+ " already installed[/]").

(** *** [init]: custom packages *)

(** The first loop of the custom branch: names without a spec are reported
    and counted, the others are kept when [is_installed] says no. The
    result is [(missing, error_count)]. *)
Fixpoint custom_missing (pkg_names : list string) (missing : list string)
    (error_count : nat) : M (list string * nat) :=
  match pkg_names with
  | [] => ret (missing, error_count)
  | name :: rest =>
      match dict_get name specs with
      | None =>
          print ("  [red]Error:[/] No spec found for '" +:+ name +:+ "'");;
          custom_missing rest missing (error_count + 1)
      | Some config =>
          let pkg_config := _parse_config name config in
          installed ← CustomManager_is_installed pkg_config;
          if installed then custom_missing rest missing error_count
          else custom_missing rest (missing ++ [name]) error_count
      end
  end.

(** The body of the second loop for one missing name; every such name has
    a spec. *)
Definition custom_install_one (dry_run : bool) (name : string) (error_count : nat)
  : M nat :=
  match dict_get name specs with
  | None => λ s, (Uncaught "KeyError", s)
  | Some config =>
      let pkg_config := _parse_config name config in
      print (nl +:+ "  [magenta]" +:+ name +:+ "[/]");;
      match cfg_depends pkg_config with
      | [] => ret tt
      | depends => print ("  [dim]Depends:[/] " +:+ str_join ", " depends)
      end;;
      result ← CustomManager_install pkg_config dry_run;
      if success result then
        _print_success (name +:+ " installed");;
        ret error_count
      else
        _print_error (message_or result (name +:+ " installation failed"));;
        ret (error_count + 1)
  end.

Fixpoint custom_install_all (dry_run : bool) (missing : list string) (error_count : nat)
  : M nat :=
  match missing with
  | [] => ret error_count
  | name :: rest =>
      error_count ← custom_install_one dry_run name error_count;
      custom_install_all dry_run rest error_count
  end.

Definition init_custom (pkg_type : string) (pkg_names : list string) (dry_run : bool)
    (counts : nat * nat) : M (nat * nat) :=
  let '(success_count, error_count) := counts in
  '(missing, error_count) ← custom_missing pkg_names [] error_count;
  match missing with
  | [] =>
      print (nl +:+ "[magenta]" +:+ pkg_type +:+ "[/]: all "
             +:+ pretty (length pkg_names) +:+ " packages installed");;
      ret (success_count, error_count)
  | _ =>
      announce pkg_type missing (length pkg_names);;
      error_count ← custom_install_all dry_run missing error_count;
      ret (success_count, error_count)
  end.

(** *** [init]: standard backends *)

Definition init_standard (pkg_type : string) (packages : list string) (dry_run : bool)
    (counts : nat * nat) : M (nat * nat) :=
  let '(success_count, error_count) := counts in
  manager ← _get_manager pkg_type;
  installed ← _get_installed_names manager;
  let missing := missing_packages manager installed packages in
  match missing with
  | [] =>
      print (nl +:+ "[" +:+ mgr_color manager +:+ "]" +:+ pkg_type +:+ "[/]: all "
             +:+ pretty (length packages) +:+ " packages installed");;
      ret (success_count, error_count)
  | _ =>
      announce pkg_type missing (length packages);;
      result ← manager_install manager missing dry_run;
      if success result then
        _print_success "Done";;
        ret (success_count + 1, error_count)
      else
        _print_error (message_or result "Installation failed");;
        ret (success_count, error_count + 1)
  end.

(** The body of [for pkg_type in all_types]. *)
Definition init_step (data : pydict (list string)) (dry_run : bool)
    (counts : nat * nat) (pkg_type : string) : M (nat * nat) :=
  match default [] (dict_get pkg_type data) with
  | [] => ret counts
  | packages =>
      if decide (pkg_type = "custom") then init_custom pkg_type packages dry_run counts
      else init_standard pkg_type packages dry_run counts
  end.

Fixpoint init_loop (data : pydict (list string)) (dry_run : bool)
    (all_types : list string) (counts : nat * nat) : M (nat * nat) :=
  match all_types with
  | [] => ret counts
  | pkg_type :: rest =>
      counts ← init_step data dry_run counts pkg_type;
      init_loop data dry_run rest counts
  end.

Definition dry_run_banner (dry_run : bool) : M unit :=
  if dry_run then print_panel "[yellow]DRY RUN[/] - No changes will be made" "yellow"
  else ret tt.

(** The [all_types] of [init]: the types asked for with [--types], else
    the keys of the resolved set; in preferred order. *)
Definition requested_types (types : option string) (data : pydict (list string))
  : list string :=
  let all_types :=
    if truthy_opt types then str_strip <$> str_split "," (default "" types)
    else dict_keys data in
  _reorder_types all_types.

(** [init]; it returns the two counters it prints from. *)
Definition init (env types : option string) (dry_run : bool) : M (nat * nat) :=
  '(data, raw_data, path) ← _load_manifest env;
  data ← ask (λ w, _resolve_all_packages w data);
  dry_run_banner dry_run;;
  let all_types := requested_types types data in
  print ("[dim]Manifest:[/] " +:+ path);;
  print ("[dim]Package types:[/] " +:+ str_join ", " all_types);;
  '(success_count, error_count) ← init_loop data dry_run all_types (0, 0);
  print "";;
  (if decide (error_count = 0) then
     print_panel "[green]All packages installed successfully![/]" "green"
   else
     print_panel ("[yellow]Completed with " +:+ pretty error_count +:+ " error(s)[/]")
                 "yellow");;
  ret (success_count, error_count).

(** *** [install] *)

(** [_find_custom_entry] *)
Fixpoint _find_custom_entry_in (entries : list entry) (name : string)
  : option platform_spec :=
  match entries with
  | [] => None
  | e :: rest =>
      let '(entry_name, platforms) := _parse_custom_entry e in
      if decide (entry_name = Some name) then platforms
      else _find_custom_entry_in rest name
  end.

Definition _find_custom_entry (raw_data : raw_manifest) (name : string)
  : option platform_spec :=
  _find_custom_entry_in (default [] (custom raw_data)) name.

Definition install_custom (name : string) (dry_run : bool)
    (data : pydict (list string)) (raw_data : raw_manifest) (path : string) : M unit :=
  match dict_get name specs with
  | None =>
      print ("[red]Error:[/] No spec found for custom package '" +:+ name +:+ "'."
             +:+ nl +:+ "Available specs: " +:+ str_join ", " (dict_keys specs));;
      exit 1
  | Some config =>
      let platforms := _find_custom_entry raw_data name in
      if platform_truthy platforms && negb (_platform_matches platforms) then
        print ("[red]Error:[/] Custom package '" +:+ name
               +:+ "' is not supported on this platform.");;
        exit 1
      else
        let pkg_config := _parse_config name config in
        _print_header "Installing" "custom" [name];;
        match cfg_depends pkg_config with
        | [] => ret tt
        | depends => print ("  [dim]Depends:[/] " +:+ str_join ", " depends)
        end;;
        result ← CustomManager_install pkg_config dry_run;
        if success result then
          _print_success "Done";;
          if negb dry_run then
            let custom_list := default [] (dict_get "custom" data) in
            if bool_decide (name ∈ custom_list) then ret tt
            else
              let raw_data :=
                {| categories := categories raw_data;
                   custom := Some (default [] (custom raw_data) ++ [EStr name]) |} in
              _save_manifest raw_data path;;
              print ("[dim]Added to manifest:[/] " +:+ path)
          else ret tt
        else
          _print_error (message_or result "Installation failed");;
          exit 1
  end.

Definition install_standard (pkg_type name : string) (dry_run : bool)
    (data : pydict (list string)) (raw_data : raw_manifest) (path : string) : M unit :=
  _print_header "Installing" pkg_type [name];;
  manager ← _get_manager pkg_type;
  result ← manager_install manager [name] dry_run;
  if success result then
    _print_success "Done";;
    if negb dry_run then
      if bool_decide (name ∈ default [] (dict_get pkg_type data)) then ret tt
      else
        let raw_data := _update_raw_manifest raw_data pkg_type name "add" in
        _save_manifest raw_data path;;
        print ("[dim]Added to manifest:[/] " +:+ path)
    else ret tt
  else
    _print_error (message_or result "Installation failed");;
    exit 1.

Definition install (pkg_type name : string) (env : option string) (dry_run : bool)
  : M unit :=
  '(data, raw_data, path) ← _load_manifest env;
  dry_run_banner dry_run;;
  if decide (pkg_type = "custom") then install_custom name dry_run data raw_data path
  else install_standard pkg_type name dry_run data raw_data path.
End commands.

(** ** The backends' [remove] and [update] *)

Section more_backends.
Context `{Host}.

(** [remove] of each backend. The uv, winget and bun backends go through
    one command per package, with the loops [install] uses. *)
Definition manager_remove (m : PackageManager) (packages : list string)
    (dry_run : bool) : M CommandResult :=
  match m with
  | CondaManager =>
      _run_command (["micromamba"; "remove"; "-n"; "base"; "-y"] ++ packages) dry_run true
  | PythonManager =>
      install_until_failure (λ pkg, ["uv"; "tool"; "uninstall"; pkg]) packages dry_run
  | RustManager =>
      _run_command (["cargo"; "uninstall"] ++ packages) dry_run true
  | BrewManager =>
      _run_command (["brew"; "uninstall"] ++ packages) dry_run true
  | CaskManager =>
      _run_command (["brew"; "uninstall"; "--cask"] ++ packages) dry_run true
  | MasManager =>
      print "  [yellow]Warning:[/] mas cannot uninstall apps. Remove via Finder or Launchpad.";;
      ret {| success := true; message := "Manual removal required" |}
  | WingetManager =>
      results ← install_collect (λ pkg, ["winget.exe"; "uninstall"; shlex_quote pkg])
                                packages dry_run;
      ret {| success := forallb success results; message := "" |}
  | BunManager =>
      install_until_failure (λ pkg, ["bun"; "remove"; "-g"; pkg]) packages dry_run
  end.

(** [RustManager._is_cargo_update_installed] *)
Definition _is_cargo_update_installed (w : World) : bool :=
  existsb (λ p, bool_decide (pi_name p = "cargo-update"))
          (get_installed_packages RustManager w).

(** [if packages:] on an optional list. *)
Definition some_packages (packages : option (list string)) : option (list string) :=
  match packages with
  | Some (pkg :: rest) => Some (pkg :: rest)
  | _ => None
  end.

(** [update] of each backend; [packages] is [None] for [update()]. *)
Definition manager_update (m : PackageManager) (packages : option (list string))
    (dry_run : bool) : M CommandResult :=
  match m with
  | CondaManager =>
      match some_packages packages with
      | Some packages =>
          _run_command (["conda"; "update"; "-n"; "base"; "-y"] ++ packages) dry_run true
      | None => _run_command ["conda"; "update"; "-n"; "base"; "--all"; "-y"] dry_run true
      end
  | PythonManager =>
      match some_packages packages with
      | Some packages =>
          install_until_failure (λ pkg, ["uv"; "tool"; "upgrade"; pkg]) packages dry_run
      | None => _run_command ["uv"; "tool"; "upgrade"; "--all"] dry_run true
      end
  | RustManager =>
      has_cargo_update ← ask _is_cargo_update_installed;
      if negb has_cargo_update then
        print "  [yellow]![/] cargo-update not installed. Run: [dim]cargo install cargo-update --locked[/]";;
        ret {| success := false; message := "cargo-update not installed" |}
      else
        match some_packages packages with
        | Some packages => _run_command (["cargo"; "install-update"] ++ packages) dry_run true
        | None => _run_command ["cargo"; "install-update"; "-a"] dry_run true
        end
  | BrewManager =>
      result ← _run_command ["brew"; "update"] dry_run true;
      if negb (success result) then ret result
      else
        match some_packages packages with
        | Some packages => _run_command (["brew"; "upgrade"] ++ packages) dry_run true
        | None => _run_command ["brew"; "upgrade"] dry_run true
        end
  | CaskManager =>
      match some_packages packages with
      | Some packages => _run_command (["brew"; "upgrade"; "--cask"] ++ packages) dry_run true
      | None => _run_command ["brew"; "upgrade"; "--cask"] dry_run true
      end
  | MasManager =>
      match some_packages packages with
      | Some packages => _run_command (["mas"; "upgrade"] ++ packages) dry_run true
      | None => _run_command ["mas"; "upgrade"] dry_run true
      end
  | WingetManager =>
      match some_packages packages with
      | Some packages =>
          results ← install_collect (λ pkg, ["winget.exe"; "upgrade"; shlex_quote pkg])
                                    packages dry_run;
          ret {| success := forallb success results; message := "" |}
      | None => _run_command ["winget.exe"; "upgrade"; "--all"] dry_run true
      end
  | BunManager =>
      match some_packages packages with
      | Some packages =>
          install_until_failure (λ pkg, ["bun"; "update"; "-g"; pkg]) packages dry_run
      | None => _run_command ["bun"; "update"; "-g"] dry_run true
      end
  end.

(** ** Installing a backend itself *)

(** The class attribute [install_cmds]: platform to command. *)
Definition install_cmds (m : PackageManager) : pydict (list string) :=
  match m with
  | CondaManager =>
      [("darwin", ["brew"; "install"; "micromamba"]);
       ("linux", ["sh"; "-c";
                  "curl -Ls https://micro.mamba.pm/api/micromamba/linux-64/latest | tar -xvj bin/micromamba && mv bin/micromamba ~/.local/bin/"])]
  | PythonManager =>
      [("darwin", ["brew"; "install"; "uv"]);
       ("linux", ["micromamba"; "install"; "-n"; "base"; "-y"; "uv"])]
  | RustManager =>
      [("all", ["sh"; "-c";
                "curl --proto '=https' --tlsv1.2 -sSf https://sh.rustup.rs | sh -s -- -y"])]
  | MasManager => [("darwin", ["brew"; "install"; "mas"])]
  | BunManager =>
      [("darwin", ["brew"; "install"; "oven-sh/bun/bun"]);
       ("linux", ["sh"; "-c"; "curl -fsSL https://bun.sh/install | bash"])]
  | BrewManager | CaskManager | WingetManager => []
  end.

(** [a or b] on optional command lines: [None] and [[]] are falsy. *)
Definition cmd_or (a b : option (list string)) : option (list string) :=
  match a with
  | Some (x :: rest) => a
  | _ => b
  end.

(** [PackageManager.install_self] *)
Definition install_self (m : PackageManager) (dry_run : bool) : M CommandResult :=
  match install_cmds m with
  | [] =>
      ret {| success := false;
             message := "No install command defined for " +:+ mgr_name m |}
  | cmds =>
      let platform := if decide (sys_platform = "darwin") then "darwin" else "linux" in
      match cmd_or (dict_get platform cmds) (dict_get "all" cmds) with
      | Some (x :: rest) => _run_command (x :: rest) dry_run true
      | _ =>
          ret {| success := false;
                 message := "No install command for " +:+ mgr_name m +:+ " on " +:+ platform |}
      end
  end.

(** [CustomManager.remove] *)
Definition CustomManager_remove (pkg_config : CustomPackageConfig) (dry_run : bool)
  : M CommandResult :=
  if negb (truthy (cfg_remove pkg_config)) then
    ret {| success := false; message := "No remove command specified for this package" |}
  else
    shell ← _get_shell pkg_config;
    _run_script (cfg_remove pkg_config) shell dry_run.

End more_backends.

(** ** Finding a package in the manifest *)

(** [_package_in_list] *)
Definition _package_in_list (name : string) (pkg_list : list string) : bool :=
  existsb (λ e, bool_decide ((_parse_package_entry e).1 = name)) pkg_list.

(** The [for manifest_type in MANAGERS.keys()] loop of
    [_find_package_manifest_type]. *)
Fixpoint manifest_type_scan (name : string) (data : pydict (list string))
    (manifest_types : list string) : option string :=
  match manifest_types with
  | [] => None
  | manifest_type :: rest =>
      if _package_in_list name (default [] (dict_get manifest_type data))
      then Some manifest_type
      else manifest_type_scan name data rest
  end.

(** [_find_package_manifest_type] *)
Definition _find_package_manifest_type (name : string) (data : pydict (list string))
  : option string :=
  if bool_decide (name ∈ default [] (dict_get "custom" data)) then Some "custom"
  else manifest_type_scan name data (dict_keys MANAGERS).

Section finding.
Context `{Host}.

(** The [for entry in packages] loop of [_find_package_type]: the first
    entry named [name], resolved. *)
Fixpoint package_type_entries (w : World) (name default_type : string)
    (packages : list string) : option string :=
  match packages with
  | [] => None
  | e :: rest =>
      let '(pkg_name, preferred) := _parse_package_entry e in
      if decide (pkg_name = name)
      then Some (_resolve_package_manager w name default_type preferred)
      else package_type_entries w name default_type rest
  end.

Fixpoint package_type_scan (w : World) (name : string) (data : pydict (list string))
    (default_types : list string) : option string :=
  match default_types with
  | [] => None
  | default_type :: rest =>
      match package_type_entries w name default_type
                                 (default [] (dict_get default_type data)) with
      | Some actual_type => Some actual_type
      | None => package_type_scan w name data rest
      end
  end.

(** [_find_package_type] *)
Definition _find_package_type (w : World) (name : string) (data : pydict (list string))
  : option string :=
  if bool_decide (name ∈ default [] (dict_get "custom" data)) then Some "custom"
  else package_type_scan w name data (dict_keys MANAGERS).

(** The search of [update] among the installed packages of the available
    backends, for a name the manifest does not hold. *)
Fixpoint installed_type_scan (w : World) (name : string)
    (managers : pydict PackageManager) : option string :=
  match managers with
  | [] => None
  | (ptype, manager) :: rest =>
      if is_available manager w then
        let installed := installed_names manager (get_installed_packages manager w) in
        if bool_decide (name ∈ installed)
           || (bool_decide (mgr_name manager = "winget")
               && bool_decide (str_lower name ∈ installed))
        then Some ptype
        else installed_type_scan w name rest
      else installed_type_scan w name rest
  end.
End finding.

(** ** More commands *)

Section more_commands.
Context `{Host}.

(** [sync] *)
Definition sync (env types : option string) (dry_run : bool) : M (nat * nat) :=
  init env types dry_run.

(** *** [remove] *)

Definition remove_custom (name : string) (dry_run keep_in_manifest : bool)
    (raw_data : raw_manifest) (path : string) : M unit :=
  match dict_get name specs with
  | None =>
      print ("[red]Error:[/] No spec found for custom package '" +:+ name +:+ "'.");;
      exit 1
  | Some config =>
      let pkg_config := _parse_config name config in
      _print_header "Removing" "custom" [name];;
      result ← (if negb (truthy (cfg_remove pkg_config)) then
                  print ("[yellow]Warning:[/] No remove command defined for '" +:+ name
                         +:+ "'." +:+ nl +:+ "The package may need to be removed manually.");;
                  ret ok_result
                else CustomManager_remove pkg_config dry_run);
      if success result then
        _print_success "Done";;
        if negb dry_run && negb keep_in_manifest then
          (* custom_list = raw_data.get("custom", []) is the list of raw_data
             itself, so custom_list.remove(name) changes raw_data *)
          let custom_list := default [] (custom raw_data) in
          if bool_decide (EStr name ∈ custom_list) then
            let raw_data :=
              {| categories := categories raw_data;
                 custom := Some (list_remove_first (EStr name) custom_list) |} in
            _save_manifest raw_data path;;
            print ("[dim]Removed from manifest:[/] " +:+ path)
          else ret tt
        else if keep_in_manifest then print "[dim]Kept in manifest (--keep)[/]"
        else ret tt
      else
        _print_error (message_or result "Removal failed");;
        exit 1
  end.

Definition remove_standard (pkg_type name : string) (dry_run : bool)
    (data : pydict (list string)) (raw_data : raw_manifest) (path : string) : M unit :=
  _print_header "Removing" pkg_type [name];;
  manager ← _get_manager pkg_type;
  result ← manager_remove manager [name] dry_run;
  if success result then
    _print_success "Done";;
    if negb dry_run then
      match _find_package_manifest_type name data with
      | Some manifest_type =>
          if truthy manifest_type then
            let raw_data := _update_raw_manifest raw_data manifest_type name "remove" in
            _save_manifest raw_data path;;
            print ("[dim]Removed from manifest:[/] " +:+ path)
          else ret tt
      | None => ret tt
      end
    else ret tt
  else
    _print_error (message_or result "Removal failed");;
    exit 1.

(** [remove]; [pkg_type] is [None] without [--type]. *)
Definition remove (name : string) (pkg_type env : option string)
    (dry_run keep_in_manifest : bool) : M unit :=
  '(data, raw_data, path) ← _load_manifest env;
  pkg_type ← match pkg_type with
             | Some pkg_type => ret pkg_type
             | None =>
                 found ← ask (λ w, _find_package_type w name data);
                 match found with
                 | None =>
                     print ("[red]Error:[/] Package '" +:+ name
                            +:+ "' not found in manifest." +:+ nl
                            +:+ "Use [dim]--type[/] to specify the package type.");;
                     exit 1
                 | Some pkg_type =>
                     print ("[dim]Detected type:[/] " +:+ pkg_type);;
                     ret pkg_type
                 end
             end;
  dry_run_banner dry_run;;
  if decide (pkg_type = "custom") then remove_custom name dry_run keep_in_manifest raw_data path
  else remove_standard pkg_type name dry_run data raw_data path.

(** *** [update] *)

(** The tail of the single-package branch and the loop body of the other
    branch: run the backend's [update] and print its verdict. A failure is
    reported, not raised. *)
Definition update_with (pkg_type : string) (packages : option (list string))
    (dry_run : bool) : M unit :=
  _print_header "Updating" pkg_type (default [] packages);;
  manager ← _get_manager pkg_type;
  result ← manager_update manager packages dry_run;
  if success result then _print_success "Done"
  else _print_error (message_or result "Update failed").

Fixpoint update_loop (dry_run : bool) (all_types : list string) : M unit :=
  match all_types with
  | [] => ret tt
  | pkg_type :: rest =>
      update_with pkg_type None dry_run;;
      update_loop dry_run rest
  end.

(** [update]; [name] is [None] for [pkgmanager update]. *)
Definition update (name pkg_type env : option string) (dry_run : bool) : M unit :=
  '(data, raw_data, path) ← _load_manifest env;
  dry_run_banner dry_run;;
  if truthy_opt name then
    let name := default "" name in
    pkg_type ← match pkg_type with
               | Some pkg_type => ret pkg_type
               | None =>
                   found ← ask (λ w, match _find_package_type w name data with
                                     | Some pkg_type => Some pkg_type
                                     | None => installed_type_scan w name MANAGERS
                                     end);
                   match found with
                   | None =>
                       print ("[red]Error:[/] Package '" +:+ name +:+ "' not found." +:+ nl
                              +:+ "Use [dim]--type[/] to specify the package type.");;
                       exit 1
                   | Some pkg_type =>
                       print ("[dim]Detected type:[/] " +:+ pkg_type);;
                       ret pkg_type
                   end
               end;
    update_with pkg_type (Some [name]) dry_run
  else
    let all_types := _reorder_types (dict_keys data) in
    print ("[dim]Updating:[/] " +:+ str_join ", " all_types +:+ nl);;
    update_loop dry_run all_types.

(** *** [bootstrap] *)

(** [{k: v for k, v in MANAGERS.items() if v.install_cmds}] *)
Definition bootable : pydict PackageManager :=
  List.filter (λ item, match install_cmds item.2 with [] => false | _ => true end)
              MANAGERS.

Definition bootstrap_one (name : string) (dry_run : bool) : M unit :=
  match dict_get name MANAGERS with
  | None =>
      print ("[red]Error:[/] Unknown manager: " +:+ name);;
      print ("[dim]Available:[/] " +:+ str_join ", " (dict_keys MANAGERS));;
      exit 1
  | Some manager =>
      match install_cmds manager with
      | [] =>
          print ("[yellow]Warning:[/] No install command defined for " +:+ name);;
          exit 1
      | _ =>
          available ← ask (is_available manager);
          if available then
            print ("[green]✓[/] " +:+ name +:+ " is already installed ("
                   +:+ mgr_tool manager +:+ ")")
          else
            print ("[bold]Installing " +:+ name +:+ "...[/]");;
            result ← install_self manager dry_run;
            if success result then
              print ("[green]✓[/] " +:+ name +:+ " installed successfully")
            else
              print ("[red]✗[/] Failed to install " +:+ name +:+ ": " +:+ message result);;
              exit 1
      end
  end.

(** The loop of [bootstrap] over the bootable managers. *)
Fixpoint bootstrap_all (dry_run : bool) (managers : pydict PackageManager) : M unit :=
  match managers with
  | [] => ret tt
  | (mgr_name, manager) :: rest =>
      available ← ask (is_available manager);
      (if available then
         print ("[green]✓[/] " +:+ mgr_name +:+ " (" +:+ mgr_tool manager +:+ ")")
       else
         print ("[yellow]○[/] " +:+ mgr_name +:+ " - installing...");;
         result ← install_self manager dry_run;
         if success result then print ("  [green]✓[/] Installed " +:+ mgr_name)
         else print ("  [red]✗[/] Failed: " +:+ message result));;
      bootstrap_all dry_run rest
  end.

(** [bootstrap]; [name] is [None] for [pkgmanager bootstrap]. *)
Definition bootstrap (name : option string) (dry_run : bool) : M unit :=
  (if dry_run then print ("[dim]Dry run mode - no changes will be made[/]" +:+ nl)
   else ret tt);;
  if truthy_opt name then bootstrap_one (default "" name) dry_run
  else
    print ("[bold]Bootstrapping package managers...[/]" +:+ nl);;
    bootstrap_all dry_run bootable.
End more_commands.

(** ** The properties, stated apart from the code *)

Section vocabulary.
Context `{Host}.

(** [B] is a key of the manager registry. *)
Definition registered (B : string) : bool := bool_decide (B ∈ dict_keys MANAGERS).

(** [B] is registered and [MANAGERS[B].is_available()] holds. *)
Definition backend_available (w : World) (B : string) : bool :=
  match dict_get B MANAGERS with
  | Some manager => is_available manager w
  | None => false
  end.

(** [B] belongs to a category that is active on this platform. *)
Definition in_active_category (B : string) : bool :=
  existsb (λ cat_name, bool_decide (B ∈ category_types cat_name)) _get_active_categories.

Definition override_usable (w : World) (B : string) : bool :=
  registered B && backend_available w B && in_active_category B.

(** The machine [s] after the events [evs]. *)
Definition log (s : machine) (evs : list event) : machine :=
  {| os := os s; files := files s; trace := trace s ++ evs |}.

(** Console output, as against a subprocess or a file write. *)
Definition is_output (e : event) : Prop :=
  match e with
  | Print _ | PrintPanel _ _ => True
  | Spawn _ | WriteFile _ _ => False
  end.



(** The line [_get_manager] prints before it raises [SystemExit(1)]. *)
Definition get_manager_error (pkg_type : string) : event :=
  match dict_get pkg_type MANAGERS with
  | None =>
      Print ("[red]Error:[/] Unknown package type '[bold]" +:+ pkg_type +:+ "[/]'"
             +:+ nl +:+ "Valid types: " +:+ str_join ", " (dict_keys MANAGERS))
  | Some manager =>
      Print ("[red]Error:[/] Required tool '[bold]" +:+ mgr_tool manager
             +:+ "[/]' not found in PATH")
  end.

(** What [init] prints before its loop, and the panel it ends with. *)
Definition init_prologue (dry_run : bool) (path : string) (all_types : list string)
  : list event :=
  (if dry_run then [PrintPanel "[yellow]DRY RUN[/] - No changes will be made" "yellow"]
   else [])
  ++ [Print ("[dim]Manifest:[/] " +:+ path);
      Print ("[dim]Package types:[/] " +:+ str_join ", " all_types)].

Definition init_epilogue (error_count : nat) : list event :=
  [Print "";
   if decide (error_count = 0)
   then PrintPanel "[green]All packages installed successfully![/]" "green"
   else PrintPanel ("[yellow]Completed with " +:+ pretty error_count +:+ " error(s)[/]")
                   "yellow"].



(** Run a computation and keep the final machine, or the outcome. *)
Definition final {A} (m : M A) (s : machine) : machine := (m s).2.
Definition result {A} (m : M A) (s : machine) : outcome A := (m s).1.

(** The events a computation adds to the trace of [s]. *)
Definition emitted {A} (m : M A) (s : machine) : list event :=
  drop (length (trace s)) (trace (final m s)).

(** A computation that only writes to the console: whatever its outcome,
    the world and the files are as before and every event it adds is
    console output. *)
Definition only_prints {A} (m : M A) : Prop :=
  ∀ s, ∃ evs, final m s = log s evs ∧ Forall is_output evs.

(** A computation that always returns (no exit, no exception), leaves the
    files alone and only adds to the trace. *)
Definition returns {A} (m : M A) : Prop :=
  ∀ s, ∃ a w evs,
    m s = (Ret a, {| os := w; files := files s; trace := trace s ++ evs |}).

(** A section or a list the loader looks at on this platform is null:
    the custom list; the section of an active category; a backend list of
    such a section, for a backend of the category. What an inactive
    category holds is never looked at. *)
Definition null_in_category (raw_data : document) (cat_name : string) : bool :=
  if decide (cat_name = "custom") then bool_decide (doc_custom raw_data = Some None)
  else
    match doc_categories raw_data !! cat_name with
    | None => false
    | Some None => negb (bool_decide (category_types cat_name = []))
    | Some (Some cat_data) =>
        existsb (λ pkg_type, bool_decide (cat_data !! pkg_type = Some None))
                (category_types cat_name)
    end.

Definition null_in_view (raw_data : document) : bool :=
  existsb (null_in_category raw_data) _get_active_categories.

(** The names a category section declares for a backend that survive on
    this platform; [None] when the backend has no key or no name
    survives. *)
Definition declared_names (cat_data : gmap string (list entry)) (pkg_type : string)
  : option (list string) :=
  match cat_data !! pkg_type with
  | Some entries =>
      match collect_names entries with
      | [] => None
      | names => Some names
      end
  | None => None
  end.

(** The raw entry list a manifest holds for a backend of a category: the
    top-level list for the custom category, the backend's list in the
    category's mapping otherwise. *)
Definition raw_entries (raw_data : raw_manifest) (cat_name pkg_type : string)
  : option (list entry) :=
  if decide (cat_name = "custom") then custom raw_data
  else categories raw_data !! cat_name ≫= (.!! pkg_type).

(** The names of those entries that survive on this platform, in order and
    with repetitions; [None] when there is no list or no name survives. *)
Definition section_names (raw_data : raw_manifest) (cat_name pkg_type : string)
  : option (list string) :=
  match raw_entries raw_data cat_name pkg_type with
  | Some entries =>
      match collect_names entries with
      | [] => None
      | names => Some names
      end
  | None => None
  end.

End vocabulary.

(** ** A concrete host, for running the model *)

Record demo_world := {
  path_tools : list string;               (** the tools found on PATH *)
  installed_db : list (string * string);  (** (backend, package) pairs *)
}.

Definition ascii_lower (a : ascii) : ascii :=
  let n := Ascii.nat_of_ascii a in
  if Nat.leb 65 n && Nat.leb n 90 then Ascii.ascii_of_nat (n + 32) else a.

Fixpoint demo_lower (s : string) : string :=
  match s with
  | EmptyString => ""
  | String a rest => String (ascii_lower a) (demo_lower rest)
  end.

(** A machine of the given platform whose subprocesses succeed unless the
    command line mentions ["broken"], and never change the world. *)
Definition demo_host (platform : string) (spec_table : pydict spec_config) : Host := {|
  World := demo_world;
  sys_platform := platform;
  WSL_DISTRO_NAME := None;
  proc_version := None;
  PACKAGE_CONFIG := None;
  DEFAULT_MANIFEST := "/home/user/.config/packages.yaml";
  path_str := id;
  specs := spec_table;
  which := λ tool w, bool_decide (tool ∈ path_tools w);
  _detect_shell := λ _, "/bin/bash";
  subprocess_run := λ argv w,
    (inr (if str_contains "broken" (str_join " " argv) then 1 else 0)%Z, w);
  get_installed_packages := λ m w,
    (λ p, {| pi_name := p.2; pi_version := "1.0"; pi_display_name := "" |})
      <$> List.filter (λ p, bool_decide (p.1 = mgr_name m)) (installed_db w);
  str_lower := demo_lower;
  str_capitalize := id;
  shlex_quote := id;
  called_process_error := λ argv code, "Command returned non-zero exit status";
|}.

Definition demo_specs : pydict spec_config :=
  [("fisher", SpecStr "curl -sL https://git.io/fisher | source");
   ("starship", SpecDict (Some "install-starship") (Some "command -v starship")
                         None None None None)].

Definition mac_host : Host := demo_host "darwin" demo_specs.
Definition linux_host : Host := demo_host "linux" demo_specs.

Definition demo_machine (platform : string) (tools : list string)
    (db : list (string * string)) (fs : gmap string (option raw_manifest))
  : @machine (demo_host platform demo_specs) :=
  @Build_machine (demo_host platform demo_specs)
                 {| path_tools := tools; installed_db := db |} fs [].

(** Sample data for the concrete runs below. *)

Definition manifest_file : string := "/home/user/.config/packages.yaml".

Definition mac_world : @World mac_host :=
  {| path_tools := ["brew"; "micromamba"]; installed_db := [] |}.


(** Both tools present, nothing installed. *)
Definition fresh_machine : @machine linux_host :=
  demo_machine "linux" ["micromamba"; "uv"] [] ∅.


(** A manifest with a conda and a python section, on a machine without
    micromamba. *)
Definition conda_python_manifest : raw_manifest :=
  {| categories := {[ "general" := {[ "conda" := [EStr "numpy"];
                                      "python" := [EStr "ruff"] ]} ]};
     custom := None |}.

Definition no_conda_machine : @machine linux_host :=
  demo_machine "linux" ["uv"] [] {[ manifest_file := Some conda_python_manifest ]}.







(** A manifest whose conda section holds one entry, next to a python
    section, a macOS section and a custom list. *)
Definition sole_entry_manifest : raw_manifest :=
  {| categories := {[ "general" := {[ "conda" := [EStr "numpy"];
                                      "python" := [EStr "ruff"] ]};
                      "mac" := {[ "brew" := [EStr "wget"] ]} ]};
     custom := Some [EStr "fisher"] |}.

(** A manifest whose conda section holds an entry with an override. *)
Definition override_manifest : raw_manifest :=
  {| categories := {[ "general" := {[ "conda" := [EStr "tmux:brew"] ]};
                      "mac" := {[ "brew" := [EStr "wget"] ]} ]};
     custom := Some [EDict (Some "fisher") None (Some (PlatStr "darwin"))] |}.

Definition override_machine : @machine linux_host :=
  demo_machine "linux" ["micromamba"] [] {[ manifest_file := Some override_manifest ]}.

(** ** More vocabulary for the properties *)

Section vocab_more.
Context `{Host}.

(** The tags of a platform restriction. *)
Definition platform_tags (platforms : option platform_spec) : list string :=
  match platforms with
  | None => []
  | Some (PlatStr s) => [s]
  | Some (PlatList l) => l
  end.

(** Every event but a write of the manifest. *)
Definition no_write (e : event) : Prop :=
  match e with
  | WriteFile _ _ => False
  | _ => True
  end.

(** A computation that leaves the files alone and adds only events of
    the kind [P] to the trace, whatever its outcome; it may change the
    world through its subprocesses. *)
Definition only_emits (P : event → Prop) {A} (m : M A) : Prop :=
  ∀ s, ∃ w evs,
    final m s = {| os := w; files := files s; trace := trace s ++ evs |}
    ∧ Forall P evs.

(** A command line handed to a login shell: the way every backend command
    and every script of a spec is run. *)
Definition shell_command (e : event) : Prop :=
  ∃ shell script, e = Spawn [shell; "-l"; "-c"; script].

(** The command lines a run hands to [subprocess.run]. *)
Definition spawned (evs : list event) : list (list string) :=
  omap (λ e, match e with Spawn argv => Some argv | _ => None end) evs.

(** The command lines handed to the login shell, in order: the last
    argument of every subprocess. *)
Definition command_lines (evs : list event) : list string :=
  omap (λ e, match e with Spawn argv => last argv | _ => None end) evs.

(** What the host answers when the command lines are handed to the
    login shell one after the other, from the world [w]: the outcome of
    each [subprocess.run], and the world at the end. *)
Fixpoint host_runs (lines : list string) (w : World) : list (string + Z) * World :=
  match lines with
  | [] => ([], w)
  | line :: rest =>
      let '(r, w1) := subprocess_run [_detect_shell w; "-l"; "-c"; line] w in
      let '(outcomes, w2) := host_runs rest w1 in
      (r :: outcomes, w2)
  end.

(** The host can start every subprocess: [subprocess.run] itself never
    raises (no [OSError]); it may well return a non-zero code. *)
Definition launches : Prop :=
  ∀ argv w, ∃ returncode, (subprocess_run argv w).1 = inr returncode.

(** A computation that never raises [SystemExit]. *)
Definition never_exits {A} (m : M A) : Prop :=
  ∀ s code, result m s ≠ SystemExit code.



(** The names under which winget reports a package: its identifier and,
    when it has one, its display name. *)
Definition reported_names (info : PackageInfo) : list string :=
  pi_name info :: (if truthy (pi_display_name info) then [pi_display_name info] else []).
End vocab_more.


(** The types a manifest can file a package under: the registered backends
    and ["custom"]. *)
Definition standard_category (pkg_type cat_name : string) : Prop :=
  _get_category_for_type pkg_type = Some cat_name ∧ cat_name ≠ "custom".


(** No string entry of the list is named [name]. *)
Definition unnamed (name : string) (pkg_list : list entry) : Prop :=
  ∀ s, EStr s ∈ pkg_list → (_parse_package_entry s).1 ≠ name.

(** More sample data for the concrete runs. *)

(** A conda section that names tmux twice, once with an override. *)
Definition two_tmux_manifest : raw_manifest :=
  {| categories := {[ "general" := {[ "conda" := [EStr "ripgrep"; EStr "tmux:brew";
                                                  EStr "tmux"] ]} ]};
     custom := None |}.

(** Both general tools present and [sole_entry_manifest] on disk. *)
Definition sole_entry_machine : @machine linux_host :=
  demo_machine "linux" ["micromamba"; "uv"] [] {[ manifest_file := Some sole_entry_manifest ]}.



(** A Mac with mas, and one App Store app declared. *)
Definition mas_manifest : raw_manifest :=
  {| categories := {[ "mac" := {[ "mas" := [EStr "497799835"] ]} ]};
     custom := None |}.

Definition mas_machine : @machine mac_host :=
  demo_machine "darwin" ["mas"] [] {[ manifest_file := Some mas_manifest ]}.

(** Every bootable manager is on the PATH. *)
Definition bootstrapped_machine : @machine linux_host :=
  demo_machine "linux" ["micromamba"; "uv"; "cargo"; "mas"; "bun"] [] ∅.

(** The command line of [uv tool install]. *)
Definition uv_install (pkg : string) : list string :=
  ["uv"; "tool"; "install"; pkg; "--force"].

(** ** Dictionaries *)

Section dict_facts.
Context {V : Type}.
Implicit Types (d : pydict V) (k : string) (v : V).

Lemma dict_get_set_eq k v d : dict_get k (dict_set k v d) = Some v.
Proof.
  induction d as [|[k' v'] d IH]; simpl.
  - by rewrite decide_True.
  - destruct (decide (k' = k)) as [->|Hne]; simpl.
    + by rewrite decide_True.
    + by rewrite decide_False.
Qed.

Lemma dict_get_set_ne k k' v d : k ≠ k' → dict_get k' (dict_set k v d) = dict_get k' d.
Proof.
  intros Hne. induction d as [|[k0 v0] d IH]; simpl.
  - by rewrite decide_False.
  - destruct (decide (k0 = k)) as [->|Hne0]; simpl.
    + by rewrite !decide_False.
    + by rewrite IH.
Qed.

Lemma dict_get_is_Some k d : is_Some (dict_get k d) ↔ k ∈ dict_keys d.
Proof.
  unfold dict_keys. induction d as [|[k0 v0] d IH]; simpl.
  - split; [intros [? [=]] | intros Hin; inversion Hin].
  - destruct (decide (k0 = k)) as [->|Hne].
    + split; [intros _; apply list_elem_of_here | eauto].
    + rewrite IH. split; [apply list_elem_of_further|].
      intros Hin. apply elem_of_cons in Hin as [?|?]; [congruence|done].
Qed.

End dict_facts.

(** ** Resolver *)

Section resolver_facts.
Context `{Host}.

Lemma resolve_scan_spec active A B :
  resolve_scan active A B
  = if existsb (λ cat_name, bool_decide (B ∈ category_types cat_name)) active
    then B else A.
Proof.
  induction active as [|cat_name active IH]; simpl; [done|].
  by destruct (bool_decide (B ∈ category_types cat_name)).
Qed.

Lemma registered_lookup B : registered B = bool_decide (is_Some (dict_get B MANAGERS)).
Proof. unfold registered. apply bool_decide_ext. by rewrite dict_get_is_Some. Qed.

(** The choice [_resolve_package_manager] makes for an override [B]. *)
Lemma resolve_override w name A B :
  _resolve_package_manager w name A (Some B)
  = if override_usable w B then B else A.
Proof.
  unfold _resolve_package_manager, override_usable, backend_available.
  rewrite registered_lookup, resolve_scan_spec. fold (in_active_category B).
  destruct (truthy B) eqn:HB.
  - destruct (dict_get B MANAGERS) as [manager|]; simpl; [|done].
    by destruct (is_available manager w).
  - unfold truthy in HB. apply negb_false_iff, bool_decide_eq_true in HB as ->.
    done.
Qed.

(** What one iteration of the inner loop does to the resolved set. *)
Lemma resolve_entry_lookup w A resolved e :
  let '(name, preferred) := _parse_package_entry e in
  let actual_type := _resolve_package_manager w name A preferred in
  dict_get actual_type (resolve_entry w A resolved e)
  = Some (default [] (dict_get actual_type resolved) ++ [name]).
Proof.
  unfold resolve_entry. destruct (_parse_package_entry e) as [name preferred].
  simpl. rewrite dict_get_set_eq. do 2 f_equal.
  unfold dict_mem. case_bool_decide as Hmem; [done|].
  rewrite dict_get_set_eq. simpl.
  destruct (dict_get _ resolved) eqn:E; [|done]. destruct Hmem. eauto.
Qed.

(** Names once placed stay: a later iteration only appends. *)
Lemma resolve_entry_keeps w A resolved e k x :
  x ∈ default [] (dict_get k resolved) →
  x ∈ default [] (dict_get k (resolve_entry w A resolved e)).
Proof.
  intros Hx. unfold resolve_entry.
  destruct (_parse_package_entry e) as [name preferred].
  set (actual_type := _resolve_package_manager w name A preferred).
  destruct (decide (actual_type = k)) as [<-|Hne].
  - rewrite dict_get_set_eq. simpl. apply elem_of_app. left.
    unfold dict_mem. case_bool_decide as Hmem; [done|].
    destruct (dict_get actual_type resolved) eqn:E; [destruct Hmem; eauto|].
    by apply elem_of_nil in Hx.
  - rewrite dict_get_set_ne by done.
    destruct (dict_mem actual_type resolved); [done|]. by rewrite dict_get_set_ne.
Qed.

Lemma resolve_entries_keep w A packages resolved k x :
  x ∈ default [] (dict_get k resolved) →
  x ∈ default [] (dict_get k (foldl (resolve_entry w A) resolved packages)).
Proof.
  revert resolved. induction packages as [|e packages IH]; intros resolved Hx; [done|].
  simpl. by apply IH, resolve_entry_keeps.
Qed.

Lemma resolve_entries_place w A packages resolved e :
  e ∈ packages →
  let '(name, preferred) := _parse_package_entry e in
  name ∈ default [] (dict_get (_resolve_package_manager w name A preferred)
                              (foldl (resolve_entry w A) resolved packages)).
Proof.
  revert resolved. induction packages as [|e' packages IH]; intros resolved Hin.
  { by apply elem_of_nil in Hin. }
  apply elem_of_cons in Hin as [<-|Hin]; [|by apply IH].
  pose proof (resolve_entry_lookup w A resolved e) as Hplaced.
  destruct (_parse_package_entry e) as [name preferred]. simpl.
  apply resolve_entries_keep. rewrite Hplaced. simpl.
  apply elem_of_app. right. apply list_elem_of_here.
Qed.

Lemma resolve_section_keeps w resolved item k x :
  k ≠ "custom" →
  x ∈ default [] (dict_get k resolved) →
  x ∈ default [] (dict_get k (resolve_section w resolved item)).
Proof.
  intros Hk Hx. unfold resolve_section. destruct item as [default_type packages].
  destruct (decide (default_type = "custom")).
  - by rewrite dict_get_set_ne.
  - destruct packages; [done|]. by apply resolve_entries_keep.
Qed.

Lemma resolve_sections_keep w data resolved k x :
  k ≠ "custom" →
  x ∈ default [] (dict_get k resolved) →
  x ∈ default [] (dict_get k (foldl (resolve_section w) resolved data)).
Proof.
  intros Hk. revert resolved.
  induction data as [|item data IH]; intros resolved Hx; [done|].
  simpl. by apply IH, resolve_section_keeps.
Qed.

(** A backend chosen for an entry of a standard section is never the custom
    one. *)
Lemma resolved_type_standard w name A preferred :
  A ≠ "custom" → _resolve_package_manager w name A preferred ≠ "custom".
Proof.
  intros HA. destruct preferred as [B|]; [|done].
  rewrite resolve_override. unfold override_usable.
  destruct (registered B) eqn:HB; [|done]. simpl.
  destruct (backend_available w B && in_active_category B); [|done].
  intros ->. by vm_compute in HB.
Qed.

(** Every entry of every standard section ends up, by its name, in the list
    of the backend chosen for it. *)
Lemma resolve_all_places_entry w data A packages e :
  A ≠ "custom" → (A, packages) ∈ data → e ∈ packages →
  let '(name, preferred) := _parse_package_entry e in
  name ∈ default [] (dict_get (_resolve_package_manager w name A preferred)
                              (_resolve_all_packages w data)).
Proof.
  intros HA Hsection He. unfold _resolve_all_packages. generalize (@nil (string * list string)).
  induction data as [|item data IH]; intros resolved.
  { by apply elem_of_nil in Hsection. }
  simpl. apply elem_of_cons in Hsection as [<-|Hsection]; [|by apply IH].
  pose proof (resolve_entries_place w A packages resolved e He) as Hplaced.
  pose proof (resolved_type_standard w (_parse_package_entry e).1 A
                (_parse_package_entry e).2 HA) as Hstandard.
  destruct (_parse_package_entry e) as [name preferred]. simpl in Hstandard.
  apply resolve_sections_keep; [done|].
  unfold resolve_section. rewrite decide_False by done.
  destruct packages; [by apply elem_of_nil in He|done].
Qed.

(** C1. An entry parsed as [(name, override)] under the default backend
    [A]: without an override it resolves to [A]; with the override [B] it
    resolves to [B] when [B] is a key of the registry, [B.is_available()]
    holds and [B] is in an active category, and to [A] in every other
    case. So, when [A] and [B] differ, it resolves to [B] if and only if
    the three conditions hold. The name goes to the end of the list of the
    backend chosen, and stays there to the end of [_resolve_all_packages].
    In particular [{conda: ["python", "tmux:brew"]}]
    resolves to [{conda: ["python"], brew: ["tmux"]}] when brew is usable
    and to [{conda: ["python", "tmux"]}] otherwise. *)
Theorem resolution_follows_override (w : World) (A e name : string)
    (override : option string) :
  _parse_package_entry e = (name, override) →
  let chosen := _resolve_package_manager w name A override in
  (override = None → chosen = A)
  ∧ (∀ B, override = Some B →
       chosen = (if override_usable w B then B else A)
       ∧ (A ≠ B → (chosen = B ↔ registered B = true
                                ∧ backend_available w B = true
                                ∧ in_active_category B = true)))
  ∧ (∀ resolved,
       dict_get chosen (resolve_entry w A resolved e)
       = Some (default [] (dict_get chosen resolved) ++ [name]))
  ∧ (∀ data packages,
       A ≠ "custom" → (A, packages) ∈ data → e ∈ packages →
       name ∈ default [] (dict_get chosen (_resolve_all_packages w data)))
  ∧ _resolve_all_packages w [("conda", ["python"; "tmux:brew"])]
    = (if override_usable w "brew"
       then [("conda", ["python"]); ("brew", ["tmux"])]
       else [("conda", ["python"; "tmux"])]).
Proof.
  intros Hparse chosen. split_and!.
  - intros ->. done.
  - intros B ->. subst chosen. rewrite resolve_override. split; [done|].
    intros Hne. unfold override_usable.
    destruct (registered B), (backend_available w B), (in_active_category B);
      simpl; (split; [intros ?; try congruence; done | intros (?&?&?); congruence]).
  - intros resolved. pose proof (resolve_entry_lookup w A resolved e) as Hl.
    by rewrite Hparse in Hl.
  - intros data packages HA Hsection He.
    pose proof (resolve_all_places_entry w data A packages e HA Hsection He) as Hl.
    by rewrite Hparse in Hl.
  - change (_resolve_all_packages w [("conda", ["python"; "tmux:brew"])])
      with (resolve_entry w "conda" (resolve_entry w "conda" [] "python") "tmux:brew").
    change (resolve_entry w "conda" [] "python") with [("conda", ["python"])].
    unfold resolve_entry.
    change (_parse_package_entry "tmux:brew") with ("tmux", Some "brew").
    cbv beta iota zeta. rewrite resolve_override.
    by destruct (override_usable w "brew").
Qed.
End resolver_facts.

(** ** Reconciliation: the standard branch of [init] *)

Section init_facts.
Context `{Host}.

Lemma log_log s evs1 evs2 : log (log s evs1) evs2 = log s (evs1 ++ evs2).
Proof. unfold log; simpl. by rewrite app_assoc. Qed.

Lemma print_run text s : print text s = (Ret tt, log s [Print text]).
Proof. done. Qed.

Lemma get_manager_found pkg_type manager s :
  dict_get pkg_type MANAGERS = Some manager →
  is_available manager (os s) = true →
  _get_manager pkg_type s = (Ret manager, s).
Proof.
  intros Hreg Hav. unfold _get_manager. rewrite Hreg.
  unfold bind, ask. by rewrite Hav.
Qed.

Lemma get_manager_missing pkg_type s :
  backend_available (os s) pkg_type = false →
  _get_manager pkg_type s = (SystemExit 1, log s [get_manager_error pkg_type]).
Proof.
  unfold backend_available, _get_manager, get_manager_error.
  destruct (dict_get pkg_type MANAGERS) as [manager|]; [|done].
  intros Hav. unfold bind, ask. by rewrite Hav.
Qed.



Lemma init_step_nothing_declared data dry_run counts pkg_type s :
  default [] (dict_get pkg_type data) = [] →
  init_step data dry_run counts pkg_type s = (Ret counts, s).
Proof. intros Hnone. unfold init_step. by rewrite Hnone. Qed.

Lemma init_loop_app data dry_run types1 types2 counts s :
  init_loop data dry_run (types1 ++ types2) counts s
  = match init_loop data dry_run types1 counts s with
    | (Ret counts', s') => init_loop data dry_run types2 counts' s'
    | (SystemExit code, s') => (SystemExit code, s')
    | (Uncaught exn, s') => (Uncaught exn, s')
    end.
Proof.
  revert counts s. induction types1 as [|pkg_type types1 IH]; intros counts s.
  - done.
  - simpl. unfold bind.
    destruct (init_step data dry_run counts pkg_type s) as [[counts'| |] s'];
      [apply IH|done..].
Qed.

Lemma init_loop_cons data dry_run pkg_type rest counts s :
  init_loop data dry_run (pkg_type :: rest) counts s
  = match init_step data dry_run counts pkg_type s with
    | (Ret counts', s') => init_loop data dry_run rest counts' s'
    | (SystemExit code, s') => (SystemExit code, s')
    | (Uncaught exn, s') => (Uncaught exn, s')
    end.
Proof. done. Qed.


End init_facts.

(** ** Computations that only print, and computations that return *)

Section machine_facts.
Context `{Host}.

Lemma log_nil s : log s [] = s.
Proof. destruct s. unfold log; simpl. by rewrite app_nil_r. Qed.

Lemma only_prints_ret {A} (a : A) : only_prints (ret a).
Proof. intros s. exists []. by rewrite log_nil. Qed.

Lemma only_prints_exit {A} code : only_prints (@exit _ A code).
Proof. intros s. exists []. by rewrite log_nil. Qed.

Lemma only_prints_ask {A} (f : World → A) : only_prints (ask f).
Proof. intros s. exists []. by rewrite log_nil. Qed.

Lemma only_prints_read path : only_prints (read_file path).
Proof. intros s. exists []. by rewrite log_nil. Qed.

Lemma only_prints_print text : only_prints (print text).
Proof. intros s. exists [Print text]. split; [done|]. by repeat constructor. Qed.

Lemma only_prints_panel text style : only_prints (print_panel text style).
Proof.
  intros s. exists [PrintPanel text style]. split; [done|]. by repeat constructor.
Qed.

Lemma only_prints_bind {A B} (m : M A) (f : A → M B) :
  only_prints m → (∀ a, only_prints (f a)) → only_prints (bind m f).
Proof.
  intros Hm Hf s. destruct (Hm s) as (evs1 & Hs1 & Hout1).
  unfold final, bind in *. destruct (m s) as [[a| |] s1]; simpl in Hs1; subst s1.
  - destruct (Hf a (log s evs1)) as (evs2 & Hs2 & Hout2).
    exists (evs1 ++ evs2). unfold final in Hs2. rewrite Hs2, log_log.
    split; [done|]. by apply Forall_app.
  - by exists evs1.
  - by exists evs1.
Qed.

Lemma returns_ret {A} (a : A) : returns (ret a).
Proof. intros s. exists a, (os s), []. unfold ret. rewrite app_nil_r. by destruct s. Qed.

Lemma returns_ask {A} (f : World → A) : returns (ask f).
Proof.
  intros s. exists (f (os s)), (os s), []. unfold ask. rewrite app_nil_r. by destruct s.
Qed.

Lemma returns_print text : returns (print text).
Proof. intros s. by exists tt, (os s), [Print text]. Qed.

Lemma returns_spawn argv : returns (spawn argv).
Proof.
  intros s. unfold spawn. destruct (subprocess_run argv (os s)) as [r w].
  by exists r, w, [Spawn argv].
Qed.

Lemma returns_bind {A B} (m : M A) (f : A → M B) :
  returns m → (∀ a, returns (f a)) → returns (bind m f).
Proof.
  intros Hm Hf s. destruct (Hm s) as (a & w1 & evs1 & Hs1).
  unfold bind. rewrite Hs1.
  destruct (Hf a {| os := w1; files := files s; trace := trace s ++ evs1 |})
    as (b & w2 & evs2 & Hs2).
  rewrite Hs2. simpl. exists b, w2, (evs1 ++ evs2). by rewrite app_assoc.
Qed.
End machine_facts.

(** Goals of the two shapes, by the structure of the program. *)
Ltac only_prints_step :=
  lazymatch goal with
  | |- only_prints (bind _ _) => apply only_prints_bind; [|intros ?]
  | |- only_prints (ret _) => apply only_prints_ret
  | |- only_prints (exit _) => apply only_prints_exit
  | |- only_prints (ask _) => apply only_prints_ask
  | |- only_prints (read_file _) => apply only_prints_read
  | |- only_prints (print _) => apply only_prints_print
  | |- only_prints (print_panel _ _) => apply only_prints_panel
  | |- only_prints (if ?b then _ else _) => destruct b
  | |- only_prints (match ?x with _ => _ end) => destruct x
  end.

Ltac returns_step :=
  lazymatch goal with
  | |- returns (bind _ _) => apply returns_bind; [|intros ?]
  | |- returns (ret _) => apply returns_ret
  | |- returns (ask _) => apply returns_ask
  | |- returns (print _) => apply returns_print
  | |- returns (spawn _) => apply returns_spawn
  | |- returns (if ?b then _ else _) => destruct b
  | |- returns (match ?x with _ => _ end) => destruct x
  end.

(** ** Dry runs *)

Section dry_run_facts.
Context `{Host}.

Lemma only_prints_emitted {A} (m : M A) s :
  only_prints m →
  final m s = log s (emitted m s) ∧ Forall is_output (emitted m s).
Proof.
  intros Hm. destruct (Hm s) as (evs & Hs & Hout).
  unfold emitted. rewrite Hs. simpl. by rewrite drop_app_length.
Qed.

Lemma run_command_dry cmd check s :
  _run_command cmd true check s
  = (Ret ok_result, log s [Print ("  [dim]Would run:[/] " +:+ str_join " " cmd)]).
Proof. done. Qed.

Lemma only_prints_run_command cmd check : only_prints (_run_command cmd true check).
Proof. unfold _run_command. repeat only_prints_step. Qed.

Lemma only_prints_install_until_failure command packages :
  only_prints (install_until_failure command packages true).
Proof.
  induction packages as [|pkg packages IH]; cbn [install_until_failure].
  - only_prints_step.
  - only_prints_step; [apply only_prints_run_command|].
    only_prints_step; [apply IH | only_prints_step].
Qed.

Lemma only_prints_install_collect command packages :
  only_prints (install_collect command packages true).
Proof.
  induction packages as [|pkg packages IH]; cbn [install_collect].
  - only_prints_step.
  - only_prints_step; [apply only_prints_run_command|].
    only_prints_step; [apply IH | only_prints_step].
Qed.

Lemma only_prints_manager_install manager packages :
  only_prints (manager_install manager packages true).
Proof.
  destruct manager; cbn [manager_install];
    first [ apply only_prints_run_command
          | apply only_prints_install_until_failure
          | only_prints_step; [apply only_prints_install_collect | only_prints_step] ].
Qed.

Lemma only_prints_print_header action pkg_type packages :
  only_prints (_print_header action pkg_type packages).
Proof. unfold _print_header. repeat only_prints_step. Qed.

Lemma only_prints_get_manager pkg_type : only_prints (_get_manager pkg_type).
Proof. unfold _get_manager. repeat only_prints_step. Qed.

Lemma only_prints_load_manifest env : only_prints (_load_manifest env).
Proof. unfold _load_manifest. repeat only_prints_step. Qed.

Lemma only_prints_lines lines :
  only_prints (foldr (λ line k, print ("    " +:+ line);; k) (ret tt) lines).
Proof. induction lines as [|line lines IH]; simpl; repeat only_prints_step. apply IH. Qed.

Lemma only_prints_custom_install pkg_config :
  only_prints (CustomManager_install pkg_config true).
Proof.
  unfold CustomManager_install, _get_shell, _run_script.
  repeat first [apply only_prints_lines | only_prints_step].
Qed.

Lemma only_prints_install pkg_type name env :
  only_prints (install pkg_type name env true).
Proof.
  unfold install, install_custom, install_standard, dry_run_banner,
    _print_success, _print_error.
  only_prints_step; [apply only_prints_load_manifest|].
  destruct a as [[data raw_data] path].
  only_prints_step; [only_prints_step|].
  only_prints_step.
  - destruct (dict_get name specs) as [config|]; [|repeat only_prints_step].
    destruct (_ && _); [repeat only_prints_step|].
    only_prints_step; [apply only_prints_print_header|].
    only_prints_step; [repeat only_prints_step|].
    only_prints_step; [apply only_prints_custom_install|].
    simpl. repeat only_prints_step.
  - only_prints_step; [apply only_prints_print_header|].
    only_prints_step; [apply only_prints_get_manager|].
    only_prints_step; [apply only_prints_manager_install|].
    simpl. repeat only_prints_step.
Qed.

(** C9. With [dry_run] set, [_run_command] prints the command and returns
    success, with no subprocess and the world as it was, for every
    command list. And the [install] command with [dry_run] set never
    writes the manifest: whatever the outcome, the files and the world
    are as before and every event it adds is console output (no
    [WriteFile], no [Spawn]), also when the dry-run install reports
    success. *)
Theorem dry_run_touches_nothing :
  (∀ cmd check s,
     _run_command cmd true check s
     = (Ret ok_result, log s [Print ("  [dim]Would run:[/] " +:+ str_join " " cmd)]))
  ∧ (∀ pkg_type name env s,
       let s' := final (install pkg_type name env true) s in
       files s' = files s
       ∧ os s' = os s
       ∧ trace s' = trace s ++ emitted (install pkg_type name env true) s
       ∧ Forall is_output (emitted (install pkg_type name env true) s)
       ∧ ∀ path raw_data,
           WriteFile path raw_data ∉ emitted (install pkg_type name env true) s).
Proof.
  split; [apply run_command_dry|].
  intros pkg_type name env s s'.
  destruct (only_prints_emitted (install pkg_type name env true) s
              (only_prints_install pkg_type name env)) as [Hs Hout].
  subst s'. rewrite Hs at 1 2 3. split_and!; [done..|].
  intros path raw_data Hin.
  by apply (proj1 (Forall_forall _ _) Hout) in Hin.
Qed.
End dry_run_facts.

(** ** Custom packages *)

Section custom_facts.
Context `{Host}.

Lemma bind_run {A B} (m : M A) (f : A → M B) s a s' :
  m s = (Ret a, s') → bind m f s = f a s'.
Proof. intros Hm. unfold bind. by rewrite Hm. Qed.










End custom_facts.

Section custom_install_facts.
Context `{Host}.




End custom_install_facts.

(** ** Reconciliation: failures and aborts *)

Section isolation_facts.
Context `{Host}.

Lemma load_manifest_found env s document :
  files s !! manifest_path env = Some document →
  _load_manifest env s
  = (Ret (flatten (default empty_manifest document),
          default empty_manifest document, manifest_path env), s).
Proof. intros Hfile. unfold _load_manifest, bind, read_file. by rewrite Hfile. Qed.





(** The loop stops at a standard backend with declared packages that is
    not registered or whose tool is absent. *)
Lemma init_loop_stops data dry_run pkg_type rest counts s packages :
  pkg_type ≠ "custom" →
  dict_get pkg_type data = Some packages →
  packages ≠ [] →
  backend_available (os s) pkg_type = false →
  init_loop data dry_run (pkg_type :: rest) counts s
  = (SystemExit 1, log s [get_manager_error pkg_type]).
Proof.
  intros Hstd Hdata Hne Hunavailable.
  rewrite init_loop_cons. unfold init_step. rewrite Hdata. simpl.
  destruct packages as [|p packages]; [done|].
  rewrite decide_False by done.
  unfold init_standard. destruct counts as [success_count error_count].
  unfold bind at 1. by rewrite (get_manager_missing _ _ Hunavailable).
Qed.

(** [init], once the manifest is found, is its loop between a prologue and
    an epilogue; an exit from the loop is the exit of the command. *)
Lemma init_unfold env types dry_run s document :
  files s !! manifest_path env = Some document →
  let data := _resolve_all_packages (os s) (flatten (default empty_manifest document)) in
  let all_types := requested_types types data in
  init env types dry_run s
  = match init_loop data dry_run all_types (0, 0)
            (log s (init_prologue dry_run (manifest_path env) all_types)) with
    | (Ret counts, s') => (Ret counts, log s' (init_epilogue counts.2))
    | (SystemExit code, s') => (SystemExit code, s')
    | (Uncaught exn, s') => (Uncaught exn, s')
    end.
Proof.
  intros Hfile data all_types. unfold init.
  rewrite (bind_run _ _ _ _ _ (load_manifest_found env s document Hfile)).
  unfold bind at 1. unfold ask at 1. fold data. cbv zeta. fold all_types.
  assert (dry_run_banner dry_run s
          = (Ret tt, log s (if dry_run
                            then [PrintPanel "[yellow]DRY RUN[/] - No changes will be made"
                                             "yellow"]
                            else []))) as Hbanner.
  { destruct dry_run; [done|]. by rewrite log_nil. }
  rewrite (bind_run _ _ _ _ _ Hbanner).
  rewrite (bind_run _ _ _ _ _ (print_run _ _)).
  rewrite (bind_run _ _ _ _ _ (print_run _ _)).
  rewrite !log_log. simpl app.
  fold (init_prologue dry_run (manifest_path env) all_types).
  unfold bind at 1.
  destruct (init_loop data dry_run all_types (0, 0) _) as [[[sc ec]| |] s']; [|done..].
  rewrite (bind_run _ _ _ _ _ (print_run _ _)).
  unfold init_epilogue. simpl.
  destruct (decide (ec = 0)); unfold bind, print_panel, emit, ret; simpl;
    by rewrite <- app_assoc.
Qed.

(** C6, as the code has it. A standard backend with declared packages
    that is not registered, or whose tool is absent: [_get_manager] prints
    one error line and raises [SystemExit(1)], which nothing in [init]
    catches. The loop ends there with exit code 1, whatever types follow;
    none of them is processed, and the world and the files are as they
    were. So when [init] has processed the types [pre] and comes to such a
    backend, the whole command exits with code 1, its last output being
    that error line. *)
Theorem unavailable_backend_aborts_init env types dry_run s document
    pre pkg_type rest c1 s1 packages :
  files s !! manifest_path env = Some document →
  let data := _resolve_all_packages (os s) (flatten (default empty_manifest document)) in
  let all_types := requested_types types data in
  all_types = pre ++ pkg_type :: rest →
  init_loop data dry_run pre (0, 0)
            (log s (init_prologue dry_run (manifest_path env) all_types)) = (Ret c1, s1) →
  pkg_type ≠ "custom" →
  dict_get pkg_type data = Some packages →
  packages ≠ [] →
  backend_available (os s1) pkg_type = false →
  init_loop data dry_run (pkg_type :: rest) c1 s1
  = (SystemExit 1, log s1 [get_manager_error pkg_type])
  ∧ init env types dry_run s = (SystemExit 1, log s1 [get_manager_error pkg_type]).
Proof.
  intros Hfile data all_types Htypes Hpre Hstd Hdata Hne Hunavailable.
  pose proof (init_loop_stops data dry_run pkg_type rest c1 s1 packages
                Hstd Hdata Hne Hunavailable) as Hstop.
  split; [done|].
  rewrite (init_unfold env types dry_run s document Hfile).
  fold data. fold all_types. rewrite Htypes at 1.
  by rewrite init_loop_app, Hpre, Hstop.
Qed.
End isolation_facts.

(** ** Manifest: loading, flattening, saving *)

Section manifest_facts.
Context `{Host}.

(** *** Flattening *)

Lemma collect_names_app entries1 entries2 :
  collect_names (entries1 ++ entries2)
  = collect_names entries1 ++ collect_names entries2.
Proof.
  induction entries1 as [|e entries1 IH]; [done|]. simpl.
  destruct (_parse_custom_entry e) as [name platforms].
  destruct (_ && _); simpl; by rewrite IH.
Qed.


Lemma set_nonempty_other key names flattened k :
  key ≠ k → dict_get k (set_nonempty key names flattened) = dict_get k flattened.
Proof.
  intros Hne. unfold set_nonempty. destruct names; [done|].
  by apply dict_get_set_ne.
Qed.

Lemma flatten_type_other cat_data flattened pkg_type k :
  pkg_type ≠ k →
  dict_get k (flatten_type cat_data flattened pkg_type) = dict_get k flattened.
Proof.
  intros Hne. unfold flatten_type.
  destruct (cat_data !! pkg_type); [by apply set_nonempty_other|done].
Qed.

Lemma flatten_type_same cat_data flattened pkg_type :
  dict_get pkg_type (flatten_type cat_data flattened pkg_type)
  = match declared_names cat_data pkg_type with
    | Some names => Some names
    | None => dict_get pkg_type flattened
    end.
Proof.
  unfold flatten_type, declared_names, set_nonempty.
  destruct (cat_data !! pkg_type) as [entries|]; [|done].
  destruct (collect_names entries); [done|]. apply dict_get_set_eq.
Qed.

Lemma flatten_types_lookup cat_data pkg_types flattened k :
  dict_get k (foldl (flatten_type cat_data) flattened pkg_types)
  = if bool_decide (k ∈ pkg_types) then
      match declared_names cat_data k with
      | Some names => Some names
      | None => dict_get k flattened
      end
    else dict_get k flattened.
Proof.
  revert flattened.
  induction pkg_types as [|pkg_type pkg_types IH]; intros flattened; [done|].
  simpl. rewrite IH.
  destruct (decide (pkg_type = k)) as [->|Hne].
  - rewrite (bool_decide_eq_true_2 (k ∈ k :: pkg_types)) by apply list_elem_of_here.
    rewrite flatten_type_same.
    case_bool_decide; by destruct (declared_names cat_data k).
  - rewrite flatten_type_other by done.
    rewrite (bool_decide_ext (k ∈ pkg_type :: pkg_types) (k ∈ pkg_types)); [done|].
    rewrite elem_of_cons. split; [intros [?|?]; [congruence|done] | auto].
Qed.
End manifest_facts.

Section flatten_facts.
Context `{Host}.

Lemma declared_names_section raw_data cat_name pkg_type :
  cat_name ≠ "custom" →
  declared_names (default ∅ (categories raw_data !! cat_name)) pkg_type
  = section_names raw_data cat_name pkg_type.
Proof.
  intros Hstd. unfold declared_names, section_names, raw_entries.
  rewrite decide_False by done.
  destruct (categories raw_data !! cat_name) as [backends|]; simpl; [done|].
  by rewrite lookup_empty.
Qed.

(** A type belongs to one category only. *)
Lemma types_disjoint cat_name cat_name' pkg_type :
  cat_name ∈ CATEGORY_ORDER → cat_name' ∈ CATEGORY_ORDER →
  pkg_type ∈ category_types cat_name → pkg_type ∈ category_types cat_name' →
  cat_name = cat_name'.
Proof.
  unfold CATEGORY_ORDER. intros Hc Hc' Ht Ht'.
  repeat (apply elem_of_cons in Hc as [->|Hc]; [|]);
    [..|by apply elem_of_nil in Hc];
    (repeat (apply elem_of_cons in Hc' as [->|Hc']; [|]);
     [..|by apply elem_of_nil in Hc']);
    try done; exfalso;
    vm_compute in Ht;
    repeat (apply elem_of_cons in Ht as [->|Ht]; [|]);
    try (by apply elem_of_nil in Ht);
    vm_compute in Ht';
    repeat (apply elem_of_cons in Ht' as [Heq|Ht']; [discriminate Heq|]);
    by apply elem_of_nil in Ht'.
Qed.

Lemma flatten_category_lookup raw_data flattened cat_name k :
  cat_name ∈ CATEGORY_ORDER →
  dict_get k (flatten_category raw_data flattened cat_name)
  = if bool_decide (k ∈ category_types cat_name) then
      match section_names raw_data cat_name k with
      | Some names => Some names
      | None => dict_get k flattened
      end
    else dict_get k flattened.
Proof.
  intros Hc. unfold flatten_category.
  destruct (decide (cat_name = "custom")) as [->|Hstd].
  - change (category_types "custom") with ["custom"].
    unfold section_names, raw_entries. rewrite decide_True by done.
    case_bool_decide as Hk.
    + apply list_elem_of_singleton in Hk as ->.
      destruct (custom raw_data) as [entries|]; [|done].
      unfold set_nonempty. destruct (collect_names entries); [done|].
      apply dict_get_set_eq.
    + destruct (custom raw_data) as [entries|]; [|done].
      apply set_nonempty_other. intros <-. apply Hk, list_elem_of_here.
  - rewrite flatten_types_lookup. by rewrite declared_names_section.
Qed.

Lemma flatten_categories_lookup raw_data cats flattened cat_name k :
  (∀ c, c ∈ cats → c ∈ CATEGORY_ORDER) →
  cat_name ∈ CATEGORY_ORDER →
  k ∈ category_types cat_name →
  dict_get k (foldl (flatten_category raw_data) flattened cats)
  = if bool_decide (cat_name ∈ cats) then
      match section_names raw_data cat_name k with
      | Some names => Some names
      | None => dict_get k flattened
      end
    else dict_get k flattened.
Proof.
  intros Hcats Hc Hk. revert flattened.
  induction cats as [|c cats IH]; intros flattened; [done|].
  simpl. rewrite IH by (intros; apply Hcats; by apply list_elem_of_further).
  rewrite flatten_category_lookup by apply Hcats, list_elem_of_here.
  destruct (decide (c = cat_name)) as [->|Hne].
  - rewrite (bool_decide_eq_true_2 (cat_name ∈ cat_name :: cats))
      by apply list_elem_of_here.
    rewrite (bool_decide_eq_true_2 _ Hk).
    case_bool_decide; by destruct (section_names raw_data cat_name k).
  - rewrite (bool_decide_eq_false_2 (k ∈ category_types c)).
    + rewrite (bool_decide_ext (cat_name ∈ c :: cats) (cat_name ∈ cats)); [done|].
      rewrite elem_of_cons. split; [intros [?|?]; [congruence|done] | auto].
    + intros Hk'. apply Hne.
      apply (types_disjoint c cat_name k); [|done..].
      apply Hcats, list_elem_of_here.
Qed.

Lemma active_categories_known c : c ∈ _get_active_categories → c ∈ CATEGORY_ORDER.
Proof.
  unfold _get_active_categories. rewrite !list_elem_of_In, filter_In. tauto.
Qed.

End flatten_facts.

(** ** Manifest: adding and removing *)

Section mutation_facts.

(** Removing the only entry of a standard list, in general: the backend
    keeps its key, now with the empty list; nothing else changes. *)
Lemma remove_sole_entry raw_data cat_name pkg_type backends e name :
  _get_category_for_type pkg_type = Some cat_name →
  cat_name ≠ "custom" →
  categories raw_data !! cat_name = Some backends →
  backends !! pkg_type = Some [EStr e] →
  (_parse_package_entry e).1 = name →
  e ≠ "" →
  _update_raw_manifest raw_data pkg_type name "remove"
  = {| categories := <[cat_name := <[pkg_type := []]> backends]> (categories raw_data);
       custom := custom raw_data |}.
Proof.
  intros Hcat Hstd Hsection Hlist Hname He.
  unfold _update_raw_manifest. rewrite Hcat, decide_False by done.
  rewrite Hsection. simpl. rewrite Hlist. simpl.
  rewrite decide_True by done. unfold truthy.
  rewrite bool_decide_eq_false_2 by done. simpl.
  by rewrite decide_True.
Qed.

(** Adding a name whose exact string is already in a standard list
    changes nothing. *)
Lemma add_present_entry raw_data cat_name pkg_type backends pkg_list name :
  _get_category_for_type pkg_type = Some cat_name →
  cat_name ≠ "custom" →
  categories raw_data !! cat_name = Some backends →
  backends !! pkg_type = Some pkg_list →
  EStr name ∈ pkg_list →
  _update_raw_manifest raw_data pkg_type name "add" = raw_data.
Proof.
  intros Hcat Hstd Hsection Hlist Hin.
  unfold _update_raw_manifest. rewrite Hcat, decide_False by done.
  rewrite Hsection. simpl. rewrite Hlist. simpl.
  rewrite (bool_decide_eq_true_2 _ Hin). simpl.
  rewrite (insert_id backends) by done. rewrite insert_id by done.
  by destruct raw_data.
Qed.

(** Adding a name that an entry of the custom list already carries
    changes nothing. *)
Lemma add_present_custom raw_data entries e name :
  custom raw_data = Some entries →
  e ∈ entries →
  (_parse_custom_entry e).1 = Some name →
  _update_raw_manifest raw_data "custom" name "add" = raw_data.
Proof.
  intros Hcustom Hin Hname.
  unfold _update_raw_manifest.
  change (_get_category_for_type "custom") with (Some "custom"). cbv beta iota.
  rewrite decide_True by done. rewrite decide_False by done.
  rewrite Hcustom. simpl.
  assert (existsb (λ e, bool_decide ((_parse_custom_entry e).1 = Some name)) entries
          = true) as ->; [|done].
  apply existsb_exists. exists e. rewrite <- list_elem_of_In.
  split; [done|]. by apply bool_decide_eq_true.
Qed.

(** C3, on the code. [sole_entry_manifest] holds the single entry
    ["numpy"] under [general.conda]. After the remove operation for
    ["numpy"] the key [conda] is still in the [general] mapping, bound to
    the empty list; the sibling [python], the category [mac] and the
    custom list are as they were. *)
Theorem remove_sole_entry_leaves_empty_list :
  let raw_data := _update_raw_manifest sole_entry_manifest "conda" "numpy" "remove" in
  categories raw_data !! "general" ≫= (.!! "conda") = Some []
  ∧ categories raw_data !! "general" ≫= (.!! "python") = Some [EStr "ruff"]
  ∧ categories raw_data !! "mac" = categories sole_entry_manifest !! "mac"
  ∧ custom raw_data = custom sole_entry_manifest
  ∧ raw_data
    = {| categories := {[ "general" := {[ "conda" := []; "python" := [EStr "ruff"] ]};
                          "mac" := {[ "brew" := [EStr "wget"] ]} ]};
         custom := Some [EStr "fisher"] |}.
Proof. by vm_compute. Qed.

(** C8, on the code. [override_manifest] lists ["tmux:brew"] under
    [general.conda]. The add operation for ["tmux"] tests membership of
    the string ["tmux"] itself, does not find it, and appends it: the list
    grows to two entries with the same parsed name. The command
    [install conda tmux] writes that manifest, and resolving it where
    brew is not usable gives conda the name twice. *)
Theorem add_beside_override_appends :
  let raw_data := _update_raw_manifest override_manifest "conda" "tmux" "add" in
  categories raw_data !! "general" ≫= (.!! "conda")
  = Some [EStr "tmux:brew"; EStr "tmux"]
  ∧ files (@final linux_host _ (install "conda" "tmux" None false) override_machine)
      !! manifest_file = Some (Some raw_data)
  ∧ dict_get "conda" (@_resolve_all_packages linux_host (os override_machine)
                        (@flatten linux_host raw_data))
    = Some ["tmux"; "tmux"].
Proof. by vm_compute. Qed.
End mutation_facts.

(** ** Concrete runs *)

(** On a Mac with Homebrew, ["tmux:brew"] under conda resolves to brew. *)
Lemma resolution_on_a_mac :
  _parse_package_entry "tmux:brew" = ("tmux", Some "brew")
  ∧ @_resolve_package_manager mac_host mac_world "tmux" "conda" (Some "brew") = "brew"
  ∧ @_resolve_all_packages mac_host mac_world [("conda", ["python"; "tmux:brew"])]
    = [("conda", ["python"]); ("brew", ["tmux"])].
Proof.
  destruct (@resolution_follows_override mac_host mac_world "conda" "tmux:brew"
              "tmux" (Some "brew") eq_refl) as (_ & Hoverride & _ & _ & Hscenario).
  destruct (Hoverride "brew" eq_refl) as [Hchosen _].
  split_and!; [reflexivity | by rewrite Hchosen | by rewrite Hscenario].
Defined.



(** Without micromamba, [init] stops at conda. *)
Lemma init_without_micromamba_run :
  @init linux_host None None false no_conda_machine
  = (SystemExit 1,
     @log linux_host no_conda_machine
          [Print "[dim]Manifest:[/] /home/user/.config/packages.yaml";
           Print "[dim]Package types:[/] conda, python";
           Print "[red]Error:[/] Required tool '[bold]micromamba[/]' not found in PATH"]).
Proof.
  refine (proj2 (@unavailable_backend_aborts_init linux_host None None false
            no_conda_machine (Some conda_python_manifest) [] "conda" ["python"] (0, 0)
            (@log linux_host no_conda_machine
                  [Print "[dim]Manifest:[/] /home/user/.config/packages.yaml";
                   Print "[dim]Package types:[/] conda, python"])
            ["numpy"] _ _ _ _ _ _ _));
    [by vm_compute | by vm_compute | by vm_compute | done | by vm_compute | done
    | by vm_compute].
Defined.

(** C6, as stated, fails. The manifest declares a conda and a python package
    and micromamba is absent while uv is present. The loop body for conda
    does not return, so nothing is skipped and continued from; the whole
    command ends with exit code 1 after three lines of output, without a
    single subprocess, although python alone would have been installed. *)
Lemma unavailable_backend_ends_the_run :
  ¬ (∃ counts' s',
       @init_step linux_host [("conda", ["numpy"]); ("python", ["ruff"])] false (0, 0)
                  "conda" no_conda_machine = (Ret counts', s'))
  ∧ @result linux_host _ (init None None false) no_conda_machine = SystemExit 1
  ∧ @emitted linux_host _ (init None None false) no_conda_machine
    = [Print "[dim]Manifest:[/] /home/user/.config/packages.yaml";
       Print "[dim]Package types:[/] conda, python";
       Print "[red]Error:[/] Required tool '[bold]micromamba[/]' not found in PATH"]
  ∧ @result linux_host _
      (init_loop [("conda", ["numpy"]); ("python", ["ruff"])] false ["python"] (0, 0))
      no_conda_machine = Ret (1, 0).
Proof.
  split_and!; [|by vm_compute..].
  intros (counts' & s' & Hstep). vm_compute in Hstep. discriminate Hstep.
Qed.




(** ** Entry parsing *)

Section parsing_facts.

Lemma str_contains_char_cons (c a : ascii) (rest : string) :
  str_contains (String c "") (String a rest)
  = if decide (a = c) then true else str_contains (String c "") rest.
Proof.
  cbn [str_contains]. simpl. destruct (ascii_dec c a) as [->|Hne].
  - rewrite decide_True by done. by destruct rest.
  - rewrite decide_False by done. done.
Qed.

Lemma split_first_spec (c : ascii) (s x y : string) :
  split_first c s = Some (x, y) ↔
  s = x +:+ String c y ∧ str_contains (String c "") x = false.
Proof.
  revert x. induction s as [|a rest IH]; intros x.
  - simpl. split; [done|]. intros [Heq _]. by destruct x.
  - cbn [split_first]. destruct (decide (a = c)) as [->|Hne].
    + split.
      * intros [= <- <-]. done.
      * intros [Heq Hno]. destruct x as [|b x'].
        -- simpl in Heq. by injection Heq as ->.
        -- simpl in Heq. injection Heq as <- _.
           rewrite str_contains_char_cons, decide_True in Hno; done.
    + destruct (split_first c rest) as [[x' y']|] eqn:Hrest.
      * split.
        -- intros [= <- <-]. destruct (IH x') as [[-> Hno] _]; [done|].
           split; [done|]. by rewrite str_contains_char_cons, decide_False.
        -- intros [Heq Hno]. destruct x as [|b x''].
           ++ simpl in Heq. by injection Heq as ->.
           ++ simpl in Heq. injection Heq as -> ->.
              rewrite str_contains_char_cons, decide_False in Hno by done.
              destruct (IH x'') as [_ Hback].
              specialize (Hback (conj eq_refl Hno)). by injection Hback as -> ->.
      * split; [done|]. intros [Heq Hno]. destruct x as [|b x''].
        -- simpl in Heq. by injection Heq as ->.
        -- simpl in Heq. injection Heq as -> ->.
           rewrite str_contains_char_cons, decide_False in Hno by done.
           destruct (IH x'') as [_ Hback]. by specialize (Hback (conj eq_refl Hno)).
Qed.

Lemma split_first_none (c : ascii) (s : string) :
  split_first c s = None ↔ str_contains (String c "") s = false.
Proof.
  induction s as [|a rest IH].
  - done.
  - rewrite str_contains_char_cons. cbn [split_first].
    destruct (decide (a = c)) as [->|Hne]; [done|].
    destruct (split_first c rest) as [[x y]|].
    + split; [done|]. intros Hno. by apply IH in Hno.
    + split; [|done]. intros _. by apply IH.
Qed.

(** X1. [_parse_package_entry] splits an entry at its first colon: the name
    it returns holds no colon, and the name and the override, joined by a
    colon again, are the entry; an entry without a colon is its own name.
    Conversely, [name:backend] with a colon-free name parses to
    [(name, backend)]. *)
Theorem parse_package_entry_splits_at_first_colon
    (e name : string) (preferred : option string) :
  _parse_package_entry e = (name, preferred) ↔
  str_contains ":" name = false
  ∧ e = match preferred with
        | Some backend => name +:+ ":" +:+ backend
        | None => name
        end.
Proof.
  unfold _parse_package_entry.
  destruct (split_first ":" e) as [[x y]|] eqn:Hsplit.
  - apply split_first_spec in Hsplit as [-> Hno]. split.
    + intros [= <- <-]. done.
    + intros [Hname Heq]. destruct preferred as [backend|].
      * assert (split_first ":" (x +:+ String ":" y) = Some (name, backend)) as Hs.
        { apply split_first_spec. done. }
        assert (split_first ":" (x +:+ String ":" y) = Some (x, y)) as Hs'.
        { apply split_first_spec. done. }
        congruence.
      * subst name. apply split_first_none in Hname.
        assert (split_first ":" (x +:+ String ":" y) = Some (x, y)) as Hs'.
        { apply split_first_spec. done. }
        congruence.
  - split.
    + intros [= <- <-]. split; [|done]. by apply split_first_none.
    + intros [Hname Heq]. destruct preferred as [backend|].
      * assert (split_first ":" e = Some (name, backend)) as Hs.
        { apply split_first_spec. done. }
        congruence.
      * by subst.
Qed.
End parsing_facts.

(** ** Platform *)

(** A membership in a list of other literals is absurd. *)
Ltac absurd_elem H :=
  cbn [app] in H;
  repeat (apply elem_of_cons in H as [H|H]; [discriminate H|]);
  by apply elem_of_nil in H.

Section platform_facts.
Context `{Host}.

Lemma is_wsl_linux : _is_wsl = true → sys_platform = "linux".
Proof.
  unfold _is_wsl. case_bool_decide; [done|]. simpl. done.
Qed.

Lemma platform_tag_matches_spec (tag : string) :
  platform_tag_matches tag = true ↔
  tag = sys_platform ∨ (tag = "wsl" ∧ _is_wsl = true)
  ∨ (tag = "windows" ∧ sys_platform = "win32").
Proof.
  unfold platform_tag_matches, _is_macos.
  rewrite !orb_true_iff, !andb_true_iff, !bool_decide_eq_true, !elem_of_cons.
  split.
  - intros [[[[[-> Hwsl]|[-> Hmac]]|[-> Hlinux]]|[[->|[->|Hnone]] Hwin]]|Hsame]; auto.
    by apply elem_of_nil in Hnone.
  - intros [->|[[-> Hwsl]|[-> Hwin]]]; auto 10.
Qed.

Lemma existsb_elem_of {A} (f : A → bool) (l : list A) :
  existsb f l = true ↔ ∃ x, x ∈ l ∧ f x = true.
Proof.
  rewrite existsb_exists. by setoid_rewrite list_elem_of_In.
Qed.

(** X2. The five tests of [_platform_matches] come to three: a restriction
    matches when it is empty, or one of its tags is [sys.platform] itself,
    or is ["wsl"] under WSL, or is ["windows"] on win32. *)
Theorem platform_restriction_matches (platforms : option platform_spec) :
  _platform_matches platforms = true ↔
  platform_truthy platforms = false
  ∨ ∃ tag, tag ∈ platform_tags platforms
      ∧ (tag = sys_platform ∨ (tag = "wsl" ∧ _is_wsl = true)
         ∨ (tag = "windows" ∧ sys_platform = "win32")).
Proof.
  destruct platforms as [[s|l]|]; cbn [_platform_matches platform_truthy platform_tags].
  - destruct (truthy s) eqn:Hs; [|split; auto].
    rewrite existsb_elem_of. setoid_rewrite platform_tag_matches_spec.
    split; [by right|]. by intros [|].
  - destruct l as [|tag l]; [split; auto|].
    rewrite existsb_elem_of. setoid_rewrite platform_tag_matches_spec.
    split; [by right|]. by intros [|].
  - split; auto.
Qed.

(** X3. The active categories, in processing order: ["mac"] exactly on
    darwin, ["wsl"] exactly under WSL (or on a platform called wsl), then
    ["general"] and ["custom"] on every platform; the macOS and the WSL
    category are never active together. *)
Theorem active_categories_by_platform :
  _get_active_categories
  = (if bool_decide (sys_platform = "darwin") then ["mac"] else [])
    ++ (if _is_wsl || bool_decide (sys_platform = "wsl") then ["wsl"] else [])
    ++ ["general"; "custom"]
  ∧ ¬ ("mac" ∈ _get_active_categories ∧ "wsl" ∈ _get_active_categories).
Proof.
  assert (_get_active_categories
          = (if bool_decide (sys_platform = "darwin") then ["mac"] else [])
            ++ (if _is_wsl || bool_decide (sys_platform = "wsl") then ["wsl"] else [])
            ++ ["general"; "custom"]) as Heq.
  { unfold _get_active_categories, CATEGORY_ORDER. cbn [List.filter].
    change (dict_get "mac" CATEGORIES)
      with (Some {| title := "macOS"; types := ["brew"; "cask"; "mas"];
                    cat_platform := Some "darwin" |}).
    change (dict_get "wsl" CATEGORIES)
      with (Some {| title := "WSL"; types := ["winget"]; cat_platform := Some "wsl" |}).
    change (dict_get "general" CATEGORIES)
      with (Some {| title := "General"; types := ["conda"; "python"; "rust"; "bun"];
                    cat_platform := None |}).
    change (dict_get "custom" CATEGORIES)
      with (Some {| title := "Custom"; types := ["custom"]; cat_platform := None |}).
    unfold category_active. cbn [cat_platform].
    change (bool_decide ("darwin" = "wsl")) with false.
    change (bool_decide ("wsl" = "wsl")) with true.
    cbn [andb].
    rewrite (bool_decide_ext ("darwin" = sys_platform) (sys_platform = "darwin"))
      by (split; congruence).
    rewrite (bool_decide_ext ("wsl" = sys_platform) (sys_platform = "wsl"))
      by (split; congruence).
    destruct (bool_decide (sys_platform = "darwin")), _is_wsl,
      (bool_decide (sys_platform = "wsl")); done. }
  split; [done|]. rewrite Heq. intros [Hmac Hwsl].
  case_bool_decide as Hdarwin.
  - destruct _is_wsl eqn:His.
    + apply is_wsl_linux in His. congruence.
    + case_bool_decide as Hp; [congruence|]. absurd_elem Hwsl.
  - destruct (_is_wsl || bool_decide (sys_platform = "wsl")); absurd_elem Hmac.
Qed.
End platform_facts.

(** ** Processing order *)

Section order_facts.

Lemma filter_elem_of {A} (f : A → bool) (l : list A) (x : A) :
  x ∈ List.filter f l ↔ x ∈ l ∧ f x = true.
Proof. rewrite !list_elem_of_In. apply filter_In. Qed.

(** The [extend] of [_reorder_types]: what it appends to [ordered]. *)
Lemma reorder_extend (types ordered : list string) :
  ∃ others,
    foldl (λ ordered t, if bool_decide (t ∈ ordered) then ordered else ordered ++ [t])
          ordered types = ordered ++ others
    ∧ (∀ t, t ∈ others ↔ t ∈ types ∧ t ∉ ordered)
    ∧ NoDup others.
Proof.
  revert ordered. induction types as [|t types IH]; intros ordered.
  - exists []. split; [by rewrite app_nil_r|]. split; [|constructor].
    intros t. split; [by intros ?%elem_of_nil|]. by intros [?%elem_of_nil _].
  - cbn [foldl]. case_bool_decide as Hin.
    + destruct (IH ordered) as (others & Heq & Hmem & Hnodup).
      exists others. split; [done|]. split; [|done].
      intros t'. rewrite Hmem, elem_of_cons. split; [by intros [? ?]; auto|].
      intros [[->|?] ?]; done.
    + destruct (IH (ordered ++ [t])) as (others & Heq & Hmem & Hnodup).
      exists (t :: others). split; [by rewrite Heq, <- app_assoc|]. split.
      * intros t'. rewrite !elem_of_cons, Hmem, elem_of_app, list_elem_of_singleton.
        split.
        -- intros [->|[? Hno]]; [by auto|]. split; [by auto|]. by intros ?; apply Hno; auto.
        -- intros [[->|?] Hno]; [by auto|].
           destruct (decide (t' = t)) as [->|]; [by auto|].
           right. split; [done|]. by intros [|].
      * constructor; [|done]. rewrite Hmem, elem_of_app, list_elem_of_singleton.
        intros [_ Hno]. apply Hno. by right.
Qed.

Lemma reorder_types_spec (types : list string) :
  (∀ t, t ∈ _reorder_types types ↔ t ∈ types)
  ∧ NoDup (_reorder_types types)
  ∧ ∃ others,
      _reorder_types types
      = List.filter (λ t, bool_decide (t ∈ types)) MANAGER_ORDER ++ others
      ∧ ∀ t, t ∈ others → t ∉ MANAGER_ORDER.
Proof.
  unfold _reorder_types.
  destruct (reorder_extend types
              (List.filter (λ t, bool_decide (t ∈ types)) MANAGER_ORDER))
    as (others & -> & Hmem & Hnodup).
  assert (∀ t, t ∈ List.filter (λ t, bool_decide (t ∈ types)) MANAGER_ORDER
               ↔ t ∈ MANAGER_ORDER ∧ t ∈ types) as Hord.
  { intros t. by rewrite filter_elem_of, bool_decide_eq_true. }
  split; [|split].
  - intros t. rewrite elem_of_app, Hmem, Hord. split.
    + by intros [[_ ?]|[? _]].
    + intros Hin. destruct (decide (t ∈ MANAGER_ORDER)); [by left|].
      right. split; [done|]. by intros [? _].
  - apply NoDup_app. split; [|split; [|done]].
    + apply NoDup_ListNoDup, List.NoDup_filter, NoDup_ListNoDup.
      by apply (bool_decide_unpack _).
    + intros t Hin. rewrite Hmem. by intros [_ ?].
  - exists others. split; [done|]. intros t [Hin Hno]%Hmem Hman.
    apply Hno, Hord. done.
Qed.

(** X4. [_reorder_types] loses and invents nothing and repeats nothing: the
    result holds exactly the types it is given, each once; the types of
    [MANAGER_ORDER] come first, in that order, and the others follow. *)
Theorem reorder_types_orders_without_loss (types : list string) :
  (∀ t, t ∈ _reorder_types types ↔ t ∈ types)
  ∧ NoDup (_reorder_types types)
  ∧ ∃ others,
      _reorder_types types
      = List.filter (λ t, bool_decide (t ∈ types)) MANAGER_ORDER ++ others
      ∧ ∀ t, t ∈ others → t ∉ MANAGER_ORDER.
Proof. apply reorder_types_spec. Qed.
End order_facts.

(** ** Manifest: more on adding and removing *)

Section update_facts.
Implicit Types (raw_data : raw_manifest) (pkg_list : list entry).

(** The standard branch of [_update_raw_manifest], by what it leaves in
    the backend's list. *)
Lemma update_standard raw_data pkg_type cat_name name action :
  standard_category pkg_type cat_name →
  ∃ pkg_list',
    _update_raw_manifest raw_data pkg_type name action
    = {| categories :=
           <[cat_name := <[pkg_type := pkg_list']>
                           (default ∅ (categories raw_data !! cat_name))]>
             (categories raw_data);
         custom := custom raw_data |}.
Proof.
  intros [Hcat Hstd]. unfold _update_raw_manifest.
  rewrite Hcat, decide_False by done. by eexists.
Qed.

Lemma find_to_remove_none name pkg_list :
  find_to_remove name pkg_list = None ↔ unnamed name pkg_list.
Proof.
  unfold unnamed. induction pkg_list as [|e pkg_list IH]; cbn [find_to_remove].
  - split; [|done]. by intros _ s ?%elem_of_nil.
  - destruct e as [s| |].
    + destruct (decide ((_parse_package_entry s).1 = name)) as [Heq|Hne].
      * split; [done|]. intros Hall. destruct (Hall s); [by left|done].
      * rewrite IH. split.
        -- intros Hall s' [[= ->]|?]%elem_of_cons; auto.
        -- intros Hall s' ?. apply Hall. by right.
    + rewrite IH. split.
      * intros Hall s' [?|?]%elem_of_cons; [done|auto].
      * intros Hall s' ?. apply Hall. by right.
    + rewrite IH. split.
      * intros Hall s' [?|?]%elem_of_cons; [done|auto].
      * intros Hall s' ?. apply Hall. by right.
Qed.

(** What [pkg_list.remove(to_remove)] does with the entry the loop
    found: the list splits around its first entry named [name]. *)
Lemma find_to_remove_some name pkg_list s :
  find_to_remove name pkg_list = Some s →
  ∃ before after,
    pkg_list = before ++ EStr s :: after
    ∧ (_parse_package_entry s).1 = name
    ∧ unnamed name before
    ∧ list_remove_first (EStr s) pkg_list = before ++ after.
Proof.
  unfold unnamed. induction pkg_list as [|e pkg_list IH]; cbn [find_to_remove]; [done|].
  destruct e as [s0| |].
  - destruct (decide ((_parse_package_entry s0).1 = name)) as [Heq|Hne].
    + intros [= ->]. exists [], pkg_list. split; [done|]. split; [done|].
      split; [by intros ? ?%elem_of_nil|]. cbn. by rewrite decide_True.
    + intros (before & after & -> & Hname & Hbefore & Hrem)%IH.
      exists (EStr s0 :: before), after. split; [done|]. split; [done|]. split.
      * intros s' [[= ->]|?]%elem_of_cons; auto.
      * cbn [list_remove_first app]. rewrite decide_False by congruence.
        by rewrite Hrem.
  - intros (before & after & -> & Hname & Hbefore & Hrem)%IH.
    eexists (_ :: before), after. split; [done|]. split; [done|]. split.
    + intros s' [?|?]%elem_of_cons; [done|auto].
    + cbn [list_remove_first app]. rewrite decide_False by done. by rewrite Hrem.
  - intros (before & after & -> & Hname & Hbefore & Hrem)%IH.
    eexists (_ :: before), after. split; [done|]. split; [done|]. split.
    + intros s' [?|?]%elem_of_cons; [done|auto].
    + cbn [list_remove_first app]. rewrite decide_False by done. by rewrite Hrem.
Qed.

Lemma raw_entries_standard raw_data cat_name pkg_type :
  cat_name ≠ "custom" →
  raw_entries raw_data cat_name pkg_type
  = categories raw_data !! cat_name ≫= (.!! pkg_type).
Proof. intros ?. unfold raw_entries. by rewrite decide_False. Qed.

Lemma parsed_name_nonempty s name :
  (_parse_package_entry s).1 = name → name ≠ "" → truthy s = true.
Proof.
  intros Hname Hne. unfold truthy. rewrite bool_decide_eq_false_2; [done|].
  intros ->. by cbn in Hname.
Qed.

(** X5. Removing from a standard list takes out one entry, the first one
    named [name] (bare or with an override), and keeps the others in
    order, later entries of the same name included; without such an
    entry the list stays as it is. *)
Theorem remove_takes_first_entry_of_that_name
    raw_data pkg_type cat_name name pkg_list :
  standard_category pkg_type cat_name →
  raw_entries raw_data cat_name pkg_type = Some pkg_list →
  name ≠ "" →
  let raw_data' := _update_raw_manifest raw_data pkg_type name "remove" in
  (unnamed name pkg_list ∧ raw_data' = raw_data)
  ∨ ∃ before s after,
      pkg_list = before ++ EStr s :: after
      ∧ (_parse_package_entry s).1 = name
      ∧ unnamed name before
      ∧ raw_entries raw_data' cat_name pkg_type = Some (before ++ after).
Proof.
  intros [Hcat Hstd] Hlist Hname raw_data'. subst raw_data'.
  rewrite raw_entries_standard in Hlist by done.
  destruct (categories raw_data !! cat_name) as [backends|] eqn:Hsection; [|done].
  cbn in Hlist.
  unfold _update_raw_manifest. rewrite Hcat, decide_False by done.
  rewrite Hsection. cbn [from_option id]. rewrite Hlist. cbn [from_option id].
  change (bool_decide ("remove" = "add")) with false. cbn [andb].
  rewrite decide_True by done.
  destruct (find_to_remove name pkg_list) as [s|] eqn:Hfind.
  - right. apply find_to_remove_some in Hfind as (before & after & -> & Hs & Hbefore & Hrem).
    rewrite (parsed_name_nonempty s name) by done.
    exists before, s, after. split; [done|]. split; [done|]. split; [done|].
    rewrite raw_entries_standard by done. cbn [categories].
    rewrite lookup_insert_eq. cbn. by rewrite lookup_insert_eq, Hrem.
  - left. apply find_to_remove_none in Hfind. split; [done|].
    rewrite (insert_id backends) by done. rewrite insert_id by done.
    by destruct raw_data.
Qed.

Lemma list_remove_first_last {A} `{EqDecision A} (x : A) (l : list A) :
  x ∉ l → list_remove_first x (l ++ [x]) = l.
Proof.
  induction l as [|y l IH]; intros Hno; cbn.
  - by rewrite decide_True.
  - rewrite decide_False.
    + rewrite IH; [done|]. intros ?. apply Hno. by right.
    + intros ->. apply Hno. by left.
Qed.

Lemma find_to_remove_last name pkg_list :
  unnamed name pkg_list →
  (_parse_package_entry name).1 = name →
  find_to_remove name (pkg_list ++ [EStr name]) = Some name.
Proof.
  unfold unnamed. induction pkg_list as [|e pkg_list IH]; intros Hall Hname.
  - cbn. by rewrite decide_True.
  - cbn [app find_to_remove]. destruct e as [s| |].
    + rewrite decide_False by (apply Hall; by left).
      apply IH; [|done]. intros s' ?. apply Hall. by right.
    + apply IH; [|done]. intros s' ?. apply Hall. by right.
    + apply IH; [|done]. intros s' ?. apply Hall. by right.
Qed.

(** X6. Adding a name to a standard list and removing it again gives the
    manifest back, when the name is a plain one (not empty, no colon) and
    no entry of the list carries it yet. *)
Theorem add_then_remove_restores_manifest
    raw_data pkg_type cat_name name pkg_list :
  standard_category pkg_type cat_name →
  raw_entries raw_data cat_name pkg_type = Some pkg_list →
  unnamed name pkg_list →
  name ≠ "" →
  str_contains ":" name = false →
  _update_raw_manifest (_update_raw_manifest raw_data pkg_type name "add")
                       pkg_type name "remove"
  = raw_data.
Proof.
  intros [Hcat Hstd] Hlist Hfresh Hname Hcolon.
  rewrite raw_entries_standard in Hlist by done.
  destruct (categories raw_data !! cat_name) as [backends|] eqn:Hsection; [|done].
  cbn in Hlist.
  assert ((_parse_package_entry name).1 = name) as Hparse.
  { unfold _parse_package_entry. apply split_first_none in Hcolon. by rewrite Hcolon. }
  assert (EStr name ∉ pkg_list) as Hno.
  { intros Hin. by apply (Hfresh name). }
  unfold _update_raw_manifest. rewrite Hcat. cbv beta iota. rewrite !decide_False by done.
  cbn [categories custom]. rewrite Hsection. cbn [from_option id]. rewrite Hlist. cbn [from_option id].
  change (bool_decide ("add" = "add")) with true.
  change (bool_decide ("remove" = "add")) with false.
  rewrite (bool_decide_eq_false_2 _ Hno). cbn [andb negb].
  rewrite !lookup_insert_eq. cbn [from_option id]. rewrite !lookup_insert_eq. cbn [from_option id].
  rewrite decide_True by done.
  rewrite find_to_remove_last by done.
  unfold truthy. rewrite (bool_decide_eq_false_2 (name = "")) by done. cbn [negb].
  rewrite list_remove_first_last by done.
  rewrite !insert_insert_eq.
  rewrite (insert_id backends) by done. rewrite insert_id by done.
  by destruct raw_data.
Qed.

(** X7. Adding is idempotent, for every type and name: a second add of
    the same name changes nothing. *)
Theorem add_twice_is_add_once raw_data pkg_type name :
  let raw_data' := _update_raw_manifest raw_data pkg_type name "add" in
  _update_raw_manifest raw_data' pkg_type name "add" = raw_data'.
Proof.
  cbv zeta. unfold _update_raw_manifest.
  destruct (_get_category_for_type pkg_type) as [cat_name|] eqn:Hcat; [|done].
  destruct (decide (cat_name = "custom")) as [->|Hstd].
  - rewrite !decide_False by done.
    destruct (existsb _ (default [] (custom raw_data))) eqn:Hin.
    + by rewrite Hin.
    + cbn [custom from_option id].
      rewrite existsb_app. cbn [existsb _parse_custom_entry fst].
      rewrite bool_decide_eq_true_2 by done. by rewrite orb_true_r.
  - rewrite !decide_False by done. cbn [categories custom].
    rewrite !lookup_insert_eq. cbn [from_option id]. rewrite !lookup_insert_eq.
    cbn [from_option id].
    change (bool_decide ("add" = "add")) with true. cbn [andb].
    set (pkg_list := default [] (default ∅ (categories raw_data !! cat_name) !! pkg_type)).
    assert (EStr name ∈ (if negb (bool_decide (EStr name ∈ pkg_list))
                         then pkg_list ++ [EStr name] else pkg_list)) as Hin.
    { case_bool_decide; cbn [negb]; [done|]. apply elem_of_app. right. by left. }
    rewrite (bool_decide_eq_true_2 _ Hin). cbn [negb].
    by rewrite !insert_insert_eq.
Qed.

(** X8. An add or a remove for a standard backend touches the list of
    that backend only: the list of every other backend, in the same or
    in another category, and the custom list are as before. *)
Theorem update_touches_one_list
    raw_data pkg_type cat_name name action cat_name' pkg_type' :
  standard_category pkg_type cat_name →
  (cat_name', pkg_type') ≠ (cat_name, pkg_type) →
  raw_entries (_update_raw_manifest raw_data pkg_type name action) cat_name' pkg_type'
  = raw_entries raw_data cat_name' pkg_type'.
Proof.
  intros Hcat Hother.
  destruct (update_standard raw_data pkg_type cat_name name action Hcat)
    as (pkg_list' & ->).
  unfold raw_entries. cbn [categories custom].
  destruct (decide (cat_name' = "custom")); [done|].
  destruct (decide (cat_name' = cat_name)) as [->|Hne].
  - rewrite lookup_insert_eq. cbn. rewrite lookup_insert_ne by congruence.
    destruct (categories raw_data !! cat_name); [done|]. cbn. by rewrite lookup_empty.
  - by rewrite lookup_insert_ne.
Qed.

(** X9. Removing a custom package takes every entry of that name out of
    the custom list, string or mapping, keeps the other entries, and
    never leaves an empty list behind: the key goes with the last entry.
    The categories are not touched. *)
Theorem custom_remove_purges_name raw_data name :
  let raw_data' := _update_raw_manifest raw_data "custom" name "remove" in
  (∀ e, e ∈ default [] (custom raw_data')
        ↔ e ∈ default [] (custom raw_data) ∧ (_parse_custom_entry e).1 ≠ Some name)
  ∧ custom raw_data' ≠ Some []
  ∧ categories raw_data' = categories raw_data.
Proof.
  cbv zeta. unfold _update_raw_manifest.
  change (_get_category_for_type "custom") with (Some "custom"). cbv beta iota.
  rewrite !decide_True by done.
  destruct (custom raw_data) as [entries|] eqn:Hcustom.
  - cbn [from_option id].
    set (kept := List.filter _ entries).
    assert (∀ e, e ∈ kept ↔ e ∈ entries ∧ (_parse_custom_entry e).1 ≠ Some name) as Hkept.
    { intros e. unfold kept. rewrite filter_elem_of, negb_true_iff, bool_decide_eq_false.
      done. }
    destruct kept as [|e0 kept'] eqn:Hk; cbn [custom categories from_option id].
    + split; [|done]. intros e. rewrite <- Hkept. done.
    + split; [|done]. intros e. by rewrite <- Hkept.
  - rewrite Hcustom. cbn [from_option id]. split; [|done].
    intros e. split; [by intros ?%elem_of_nil|]. by intros [?%elem_of_nil _].
Qed.
End update_facts.

(** ** Finding a package *)

Section finding_facts.
Context `{Host}.

Lemma category_for_type_spec pkg_type cat_name :
  _get_category_for_type pkg_type = Some cat_name →
  cat_name ∈ CATEGORY_ORDER ∧ pkg_type ∈ category_types cat_name.
Proof.
  unfold _get_category_for_type, CATEGORIES. cbn [category_scan types].
  repeat case_bool_decide; intros [= <-]; (split; [|done]);
    unfold CATEGORY_ORDER; rewrite !elem_of_cons; auto.
Qed.

Lemma flatten_lookup raw_data cat_name pkg_type :
  cat_name ∈ CATEGORY_ORDER →
  pkg_type ∈ category_types cat_name →
  dict_get pkg_type (flatten raw_data)
  = if bool_decide (cat_name ∈ _get_active_categories)
    then section_names raw_data cat_name pkg_type else None.
Proof.
  intros Hc Ht. unfold flatten.
  rewrite (flatten_categories_lookup raw_data _ [] cat_name pkg_type);
    [|by apply active_categories_known|done|done].
  case_bool_decide; [|done]. by destruct (section_names raw_data cat_name pkg_type).
Qed.

Lemma collect_names_elem name entries :
  EStr name ∈ entries → name ≠ "" → name ∈ collect_names entries.
Proof.
  intros Hin Hname. apply list_elem_of_split in Hin as (before & after & ->).
  rewrite collect_names_app. apply elem_of_app. right.
  cbn [collect_names _parse_custom_entry]. unfold truthy_opt, truthy.
  rewrite bool_decide_eq_false_2 by done. cbn. by left.
Qed.

(** X10. A name added to a standard list is there when the manifest is
    loaded again, provided the category of the backend is active on
    this platform; under an inactive category (brew's, off macOS) the
    added entry is in the file but not in what [_load_manifest] returns. *)
Theorem added_name_shows_after_reload raw_data pkg_type cat_name name :
  standard_category pkg_type cat_name →
  name ≠ "" →
  let raw_data' := _update_raw_manifest raw_data pkg_type name "add" in
  (∃ pkg_list, raw_entries raw_data' cat_name pkg_type = Some pkg_list
               ∧ EStr name ∈ pkg_list)
  ∧ if bool_decide (cat_name ∈ _get_active_categories)
    then ∃ names, dict_get pkg_type (flatten raw_data') = Some names ∧ name ∈ names
    else dict_get pkg_type (flatten raw_data') = None.
Proof.
  intros [Hcat Hstd] Hname raw_data'.
  destruct (category_for_type_spec _ _ Hcat) as [Hc Ht].
  assert (∃ pkg_list, raw_entries raw_data' cat_name pkg_type = Some pkg_list
                      ∧ EStr name ∈ pkg_list) as (pkg_list & Hlist & Hin).
  { subst raw_data'. unfold _update_raw_manifest.
    rewrite Hcat, decide_False by done. rewrite raw_entries_standard by done.
    cbn [categories]. rewrite lookup_insert_eq. cbn. rewrite lookup_insert_eq.
    eexists. split; [done|].
    change (bool_decide ("add" = "add")) with true. cbn [andb].
    case_bool_decide; cbn [negb]; [done|]. apply elem_of_app. right. by left. }
  split; [by eauto|].
  rewrite (flatten_lookup raw_data' cat_name pkg_type) by done.
  case_bool_decide; [|done].
  unfold section_names. rewrite Hlist.
  pose proof (collect_names_elem name pkg_list Hin Hname) as Hnames.
  destruct (collect_names pkg_list) as [|n names]; [by apply elem_of_nil in Hnames|].
  by eexists.
Qed.

Lemma dict_get_elem {V} (k : string) (v : V) (d : pydict V) :
  dict_get k d = Some v → (k, v) ∈ d.
Proof.
  induction d as [|[k' v'] d IH]; [done|]. cbn [dict_get].
  destruct (decide (k' = k)) as [->|Hne].
  - intros [= ->]. by left.
  - intros ?. right. auto.
Qed.

(** The entry loop of [_find_package_type] against [_package_in_list]. *)
Lemma package_type_entries_spec w name default_type packages :
  match package_type_entries w name default_type packages with
  | Some actual_type =>
      _package_in_list name packages = true
      ∧ ∃ e preferred,
          e ∈ packages ∧ _parse_package_entry e = (name, preferred)
          ∧ actual_type = _resolve_package_manager w name default_type preferred
  | None => _package_in_list name packages = false
  end.
Proof.
  unfold _package_in_list.
  induction packages as [|e packages IH]; [done|].
  cbn [package_type_entries existsb].
  destruct (_parse_package_entry e) as [pkg_name preferred] eqn:Hparse. cbn [fst].
  destruct (decide (pkg_name = name)) as [->|Hne].
  - rewrite bool_decide_eq_true_2 by done. split; [done|].
    exists e, preferred. split; [by left|done].
  - rewrite bool_decide_eq_false_2 by done. cbn [orb].
    destruct (package_type_entries w name default_type packages); [|done].
    destruct IH as (Hin & e' & preferred' & He' & Hparse' & ->).
    split; [done|]. exists e', preferred'. split; [by right|done].
Qed.

(** The two scans over the registry find the same section. *)
Lemma type_scans_agree w name data default_types :
  match manifest_type_scan name data default_types with
  | Some manifest_type =>
      manifest_type ∈ default_types
      ∧ ∃ packages e preferred,
          dict_get manifest_type data = Some packages
          ∧ e ∈ packages ∧ _parse_package_entry e = (name, preferred)
          ∧ package_type_scan w name data default_types
            = Some (_resolve_package_manager w name manifest_type preferred)
  | None => package_type_scan w name data default_types = None
  end.
Proof.
  induction default_types as [|default_type default_types IH]; [done|].
  cbn [manifest_type_scan package_type_scan].
  pose proof (package_type_entries_spec w name default_type
                (default [] (dict_get default_type data))) as Hentries.
  destruct (package_type_entries w name default_type _) as [actual_type|].
  - destruct Hentries as (-> & e & preferred & He & Hparse & ->).
    split; [by left|].
    destruct (dict_get default_type data) as [packages|]; [|by apply elem_of_nil in He].
    by exists packages, e, preferred.
  - rewrite Hentries.
    destruct (manifest_type_scan name data default_types) as [manifest_type|]; [|done].
    destruct IH as (Hin & packages & e & preferred & ? & ? & ? & ?).
    split; [by right|]. by exists packages, e, preferred.
Qed.

(** The entry loop of [_find_package_type] stops at the first entry of
    the name. *)
Lemma package_type_entries_first w name default_type packages :
  match package_type_entries w name default_type packages with
  | Some actual_type =>
      ∃ before e preferred after,
        packages = before ++ e :: after
        ∧ _parse_package_entry e = (name, preferred)
        ∧ (∀ e', e' ∈ before → (_parse_package_entry e').1 ≠ name)
        ∧ actual_type = _resolve_package_manager w name default_type preferred
  | None => True
  end.
Proof.
  induction packages as [|e packages IH]; [done|].
  cbn [package_type_entries].
  destruct (_parse_package_entry e) as [pkg_name preferred] eqn:Hparse.
  destruct (decide (pkg_name = name)) as [->|Hne].
  - exists [], e, preferred, packages. split; [done|]. split; [done|].
    split; [by intros ? ?%elem_of_nil|done].
  - destruct (package_type_entries w name default_type packages); [|done].
    destruct IH as (before & e' & preferred' & after & -> & Hparse' & Hbefore & ->).
    exists (e :: before), e', preferred', after. split; [done|]. split; [done|].
    split; [|done].
    intros e0 [->|He0]%elem_of_cons; [by rewrite Hparse|by apply Hbefore].
Qed.

(** The two scans stop at the same section, and the second at the first
    entry of the name in it. *)
Lemma type_scans_first w name data default_types :
  match manifest_type_scan name data default_types with
  | Some manifest_type =>
      manifest_type ∈ default_types
      ∧ ∃ before e preferred after,
          default [] (dict_get manifest_type data) = before ++ e :: after
          ∧ _parse_package_entry e = (name, preferred)
          ∧ (∀ e', e' ∈ before → (_parse_package_entry e').1 ≠ name)
          ∧ package_type_scan w name data default_types
            = Some (_resolve_package_manager w name manifest_type preferred)
  | None => package_type_scan w name data default_types = None
  end.
Proof.
  induction default_types as [|default_type default_types IH]; [done|].
  cbn [manifest_type_scan package_type_scan].
  pose proof (package_type_entries_spec w name default_type
                (default [] (dict_get default_type data))) as Hentries.
  pose proof (package_type_entries_first w name default_type
                (default [] (dict_get default_type data))) as Hfirst.
  destruct (package_type_entries w name default_type _) as [actual_type|].
  - destruct Hentries as (-> & _).
    destruct Hfirst as (before & e & preferred & after & Hlist & Hparse & Hbefore & ->).
    split; [by left|]. by exists before, e, preferred, after.
  - rewrite Hentries.
    destruct (manifest_type_scan name data default_types) as [manifest_type|]; [|done].
    destruct IH as (Hin & before & e & preferred & after & ? & ? & ? & ?).
    split; [by right|]. by exists before, e, preferred, after.
Qed.

(** X11. The two lookups of a name agree on where it is declared.
    [_find_package_type] finds a backend exactly when
    [_find_package_manifest_type] finds a section. For a name of the
    custom list both answer ["custom"]. Otherwise the section found is a
    registered backend, and the backend detected is the one
    [_resolve_package_manager] gives for the first entry of that name in
    this section's list: the override of that very entry when it carries
    one that is usable here (registered, tool present, category active),
    and the section's own backend when the entry carries none or one that
    is not usable. *)
Theorem detected_type_follows_declaring_section
    (w : World) (name : string) (data : pydict (list string)) :
  match _find_package_manifest_type name data with
  | Some manifest_type =>
      (name ∈ default [] (dict_get "custom" data)
       ∧ manifest_type = "custom"
       ∧ _find_package_type w name data = Some "custom")
      ∨ (¬ name ∈ default [] (dict_get "custom" data)
         ∧ manifest_type ∈ dict_keys MANAGERS
         ∧ ∃ before e preferred after,
             default [] (dict_get manifest_type data) = before ++ e :: after
             ∧ _parse_package_entry e = (name, preferred)
             ∧ (∀ e', e' ∈ before → (_parse_package_entry e').1 ≠ name)
             ∧ _find_package_type w name data
               = Some (_resolve_package_manager w name manifest_type preferred)
             ∧ _resolve_package_manager w name manifest_type preferred
               = match preferred with
                 | Some B => if override_usable w B then B else manifest_type
                 | None => manifest_type
                 end)
  | None => _find_package_type w name data = None
  end.
Proof.
  unfold _find_package_manifest_type, _find_package_type.
  case_bool_decide as Hcustom; [by left|].
  pose proof (type_scans_first w name data (dict_keys MANAGERS)) as Hscan.
  destruct (manifest_type_scan name data (dict_keys MANAGERS)) as [manifest_type|];
    [|done].
  destruct Hscan as (Hin & before & e & preferred & after & Hlist & Hparse & Hbefore & ->).
  right. split; [done|]. split; [done|].
  exists before, e, preferred, after. split_and!; [done..|].
  destruct preferred as [B|]; [apply resolve_override|done].
Qed.

(** X12. The backend [remove] and [update] detect for a
    name is one under which [init] installs it: the name is in that
    backend's list of the resolved set. *)
Theorem detected_type_is_where_init_installs
    (w : World) (name actual_type : string) (data : pydict (list string)) :
  _find_package_type w name data = Some actual_type →
  actual_type ≠ "custom" →
  name ∈ default [] (dict_get actual_type (_resolve_all_packages w data)).
Proof.
  unfold _find_package_type. case_bool_decide; [by intros [= <-]|].
  intros Hfound _.
  pose proof (type_scans_agree w name data (dict_keys MANAGERS)) as Hscan.
  destruct (manifest_type_scan name data (dict_keys MANAGERS)) as [manifest_type|];
    [|congruence].
  destruct Hscan as (Hin & packages & e & preferred & Hsection & He & Hparse & Hscan).
  rewrite Hscan in Hfound. injection Hfound as <-.
  pose proof (resolve_all_places_entry w data manifest_type packages e) as Hplaced.
  rewrite Hparse in Hplaced. apply Hplaced; [|by apply dict_get_elem|done].
  intros ->. by vm_compute in Hin; absurd_elem Hin.
Qed.
End finding_facts.

(** ** Computations that leave the manifest alone *)

Section emits_facts.
Context `{Host}.
Variable P : event → Prop.
Hypothesis Hout : ∀ e, is_output e → P e.

Lemma only_emits_of_prints {A} (m : M A) : only_prints m → only_emits P m.
Proof.
  intros Hm s. destruct (Hm s) as (evs & Hs & Hevs).
  exists (os s), evs. split; [done|].
  eapply Forall_impl; [done|]. apply Hout.
Qed.

Lemma only_emits_spawn argv : P (Spawn argv) → only_emits P (spawn argv).
Proof.
  intros Hargv s. unfold final, spawn.
  destruct (subprocess_run argv (os s)) as [r w].
  exists w, [Spawn argv]. split; [done|]. by constructor.
Qed.

Lemma only_emits_raise {A} exn : only_emits P (λ s, (@Uncaught A exn, s)).
Proof.
  intros s. exists (os s), []. split; [|done].
  unfold final. cbn. rewrite app_nil_r. by destruct s.
Qed.

Lemma only_emits_bind {A B} (m : M A) (f : A → M B) :
  only_emits P m → (∀ a, only_emits P (f a)) → only_emits P (bind m f).
Proof.
  intros Hm Hf s. destruct (Hm s) as (w1 & evs1 & Hs1 & Hevs1).
  unfold final, bind in *. destruct (m s) as [[a| |] s1]; cbn in Hs1; subst s1.
  - destruct (Hf a {| os := w1; files := files s; trace := trace s ++ evs1 |})
      as (w2 & evs2 & Hs2 & Hevs2).
    exists w2, (evs1 ++ evs2). unfold final in Hs2. rewrite Hs2. cbn.
    split; [by rewrite app_assoc|]. by apply Forall_app.
  - by exists w1, evs1.
  - by exists w1, evs1.
Qed.

Lemma only_emits_emitted {A} (m : M A) s :
  only_emits P m →
  files (final m s) = files s
  ∧ trace (final m s) = trace s ++ emitted m s
  ∧ Forall P (emitted m s).
Proof.
  intros Hm. destruct (Hm s) as (w & evs & Hs & Hevs).
  unfold emitted. rewrite Hs. cbn. by rewrite drop_app_length.
Qed.
End emits_facts.

(** Goals of this shape, by the structure of the program; [Hout] says
    that console output is allowed. *)
Ltac only_emits_step Hout :=
  lazymatch goal with
  | |- only_emits _ (bind _ _) => apply only_emits_bind; [|intros ?]
  | |- only_emits _ (spawn _) => apply only_emits_spawn
  | |- only_emits _ (if ?b then _ else _) => destruct b
  | |- only_emits _ (match ?x with _ => _ end) => destruct x
  | |- only_emits _ (λ s, (Uncaught _, s)) => apply only_emits_raise
  | |- only_emits _ _ => apply (only_emits_of_prints _ Hout); only_prints_step
  end.

Section no_write_facts.
Context `{Host}.

Lemma output_no_write e : is_output e → no_write e.
Proof. by destruct e. Qed.

Lemma keeps_run_command cmd dry_run check :
  only_emits no_write (_run_command cmd dry_run check).
Proof.
  unfold _run_command. repeat only_emits_step output_no_write. done.
Qed.

Lemma keeps_install_until_failure command packages dry_run :
  only_emits no_write (install_until_failure command packages dry_run).
Proof.
  induction packages as [|pkg packages IH]; cbn [install_until_failure].
  - only_emits_step output_no_write.
  - only_emits_step output_no_write; [apply keeps_run_command|].
    only_emits_step output_no_write; [apply IH | only_emits_step output_no_write].
Qed.

Lemma keeps_install_collect command packages dry_run :
  only_emits no_write (install_collect command packages dry_run).
Proof.
  induction packages as [|pkg packages IH]; cbn [install_collect].
  - only_emits_step output_no_write.
  - only_emits_step output_no_write; [apply keeps_run_command|].
    only_emits_step output_no_write; [apply IH | only_emits_step output_no_write].
Qed.

Lemma keeps_manager_install manager packages dry_run :
  only_emits no_write (manager_install manager packages dry_run).
Proof.
  destruct manager; cbn [manager_install];
    first [ apply keeps_run_command
          | apply keeps_install_until_failure
          | only_emits_step output_no_write;
            [apply keeps_install_collect | only_emits_step output_no_write] ].
Qed.

Lemma keeps_manager_remove manager packages dry_run :
  only_emits no_write (manager_remove manager packages dry_run).
Proof.
  destruct manager; cbn [manager_remove];
    first [ apply keeps_run_command
          | apply keeps_install_until_failure
          | only_emits_step output_no_write;
            [apply keeps_install_collect | only_emits_step output_no_write]
          | repeat only_emits_step output_no_write ].
Qed.

Lemma keeps_manager_update manager packages dry_run :
  only_emits no_write (manager_update manager packages dry_run).
Proof.
  destruct manager; cbn [manager_update];
    repeat first [ apply keeps_run_command
                 | apply keeps_install_until_failure
                 | apply keeps_install_collect
                 | only_emits_step output_no_write ].
Qed.

Lemma keeps_install_self manager dry_run :
  only_emits no_write (install_self manager dry_run).
Proof.
  unfold install_self.
  repeat first [apply keeps_run_command | only_emits_step output_no_write].
Qed.
End no_write_facts.

Section no_write_commands.
Context `{Host}.

Lemma keeps_lines lines :
  only_emits no_write (foldr (λ line k, print ("    " +:+ line);; k) (ret tt) lines).
Proof. apply only_emits_of_prints; [apply output_no_write|apply only_prints_lines]. Qed.

Lemma keeps_run_script script shell dry_run :
  only_emits no_write (_run_script script shell dry_run).
Proof.
  unfold _run_script.
  repeat first [apply keeps_lines | only_emits_step output_no_write]. done.
Qed.

Lemma keeps_is_installed pkg_config :
  only_emits no_write (CustomManager_is_installed pkg_config).
Proof.
  unfold CustomManager_is_installed, _get_shell.
  repeat only_emits_step output_no_write; done.
Qed.

Lemma keeps_custom_install pkg_config dry_run :
  only_emits no_write (CustomManager_install pkg_config dry_run).
Proof.
  unfold CustomManager_install, _get_shell.
  repeat first [apply keeps_run_script | only_emits_step output_no_write].
Qed.

Lemma keeps_custom_remove pkg_config dry_run :
  only_emits no_write (CustomManager_remove pkg_config dry_run).
Proof.
  unfold CustomManager_remove, _get_shell.
  repeat first [apply keeps_run_script | only_emits_step output_no_write].
Qed.

Lemma keeps_print_header action pkg_type packages :
  only_emits no_write (_print_header action pkg_type packages).
Proof.
  apply only_emits_of_prints; [apply output_no_write|apply only_prints_print_header].
Qed.

Lemma keeps_get_manager pkg_type : only_emits no_write (_get_manager pkg_type).
Proof.
  apply only_emits_of_prints; [apply output_no_write|apply only_prints_get_manager].
Qed.

Lemma keeps_load_manifest env : only_emits no_write (_load_manifest env).
Proof.
  apply only_emits_of_prints; [apply output_no_write|apply only_prints_load_manifest].
Qed.

Lemma keeps_custom_missing pkg_names missing error_count :
  only_emits no_write (custom_missing pkg_names missing error_count).
Proof.
  revert missing error_count.
  induction pkg_names as [|name pkg_names IH]; intros missing error_count;
    cbn [custom_missing].
  - only_emits_step output_no_write.
  - destruct (dict_get name specs) as [config|].
    + only_emits_step output_no_write; [apply keeps_is_installed|].
      destruct a; apply IH.
    + only_emits_step output_no_write; [only_emits_step output_no_write|apply IH].
Qed.

Lemma keeps_custom_install_all dry_run missing error_count :
  only_emits no_write (custom_install_all dry_run missing error_count).
Proof.
  revert error_count.
  induction missing as [|name missing IH]; intros error_count; cbn [custom_install_all].
  - only_emits_step output_no_write.
  - only_emits_step output_no_write; [|apply IH].
    unfold custom_install_one, _print_success, _print_error.
    repeat first [apply keeps_custom_install | only_emits_step output_no_write].
Qed.

Lemma keeps_announce pkg_type missing total :
  only_emits no_write (announce pkg_type missing total).
Proof.
  unfold announce.
  repeat first [apply keeps_print_header | only_emits_step output_no_write].
Qed.

Lemma keeps_init_step data dry_run counts pkg_type :
  only_emits no_write (init_step data dry_run counts pkg_type).
Proof.
  unfold init_step.
  destruct (default [] (dict_get pkg_type data)) as [|pkg packages];
    [only_emits_step output_no_write|].
  destruct (decide (pkg_type = "custom")).
  - unfold init_custom. destruct counts as [success_count error_count].
    only_emits_step output_no_write; [apply keeps_custom_missing|].
    destruct a as [missing error_count'].
    destruct missing; [repeat only_emits_step output_no_write|].
    repeat first [apply keeps_announce | apply keeps_custom_install_all
                 | only_emits_step output_no_write].
  - unfold init_standard, _get_installed_names, _print_success, _print_error.
    destruct counts as [success_count error_count].
    only_emits_step output_no_write; [apply keeps_get_manager|].
    only_emits_step output_no_write; [only_emits_step output_no_write|].
    destruct (missing_packages _ _ _); [repeat only_emits_step output_no_write|].
    only_emits_step output_no_write; [apply keeps_announce|].
    only_emits_step output_no_write; [apply keeps_manager_install|].
    repeat only_emits_step output_no_write.
Qed.

Lemma keeps_init_loop data dry_run all_types counts :
  only_emits no_write (init_loop data dry_run all_types counts).
Proof.
  revert counts. induction all_types as [|pkg_type all_types IH]; intros counts;
    cbn [init_loop].
  - only_emits_step output_no_write.
  - only_emits_step output_no_write; [apply keeps_init_step|apply IH].
Qed.

Lemma keeps_init env types dry_run : only_emits no_write (init env types dry_run).
Proof.
  unfold init, dry_run_banner.
  only_emits_step output_no_write; [apply keeps_load_manifest|].
  destruct a as [[data raw_data] path].
  repeat first [apply keeps_init_loop | only_emits_step output_no_write].
Qed.

Lemma keeps_update_with pkg_type packages dry_run :
  only_emits no_write (update_with pkg_type packages dry_run).
Proof.
  unfold update_with, _print_success, _print_error.
  only_emits_step output_no_write; [apply keeps_print_header|].
  only_emits_step output_no_write; [apply keeps_get_manager|].
  only_emits_step output_no_write; [apply keeps_manager_update|].
  repeat only_emits_step output_no_write.
Qed.

Lemma keeps_update_loop dry_run all_types :
  only_emits no_write (update_loop dry_run all_types).
Proof.
  induction all_types as [|pkg_type all_types IH]; cbn [update_loop].
  - only_emits_step output_no_write.
  - only_emits_step output_no_write; [apply keeps_update_with|apply IH].
Qed.

Lemma keeps_update name pkg_type env dry_run :
  only_emits no_write (update name pkg_type env dry_run).
Proof.
  unfold update, dry_run_banner.
  only_emits_step output_no_write; [apply keeps_load_manifest|].
  destruct a as [[data raw_data] path].
  only_emits_step output_no_write; [repeat only_emits_step output_no_write|].
  destruct (truthy_opt name).
  - only_emits_step output_no_write; [|apply keeps_update_with].
    repeat only_emits_step output_no_write.
  - only_emits_step output_no_write; [only_emits_step output_no_write|].
    apply keeps_update_loop.
Qed.

Lemma keeps_bootstrap_all dry_run managers :
  only_emits no_write (bootstrap_all dry_run managers).
Proof.
  induction managers as [|[mgr_name manager] managers IH]; cbn [bootstrap_all].
  - only_emits_step output_no_write.
  - only_emits_step output_no_write; [only_emits_step output_no_write|].
    only_emits_step output_no_write; [|apply IH].
    repeat first [apply keeps_install_self | only_emits_step output_no_write].
Qed.

Lemma keeps_bootstrap name dry_run : only_emits no_write (bootstrap name dry_run).
Proof.
  unfold bootstrap, bootstrap_one.
  only_emits_step output_no_write; [repeat only_emits_step output_no_write|].
  destruct (truthy_opt name).
  - repeat first [apply keeps_install_self | only_emits_step output_no_write].
  - only_emits_step output_no_write; [only_emits_step output_no_write|].
    apply keeps_bootstrap_all.
Qed.
End no_write_commands.

(** ** Dry runs of the other commands *)

Section more_dry_runs.
Context `{Host}.

Lemma only_prints_manager_remove manager packages :
  only_prints (manager_remove manager packages true).
Proof.
  destruct manager; cbn [manager_remove];
    first [ apply only_prints_run_command
          | apply only_prints_install_until_failure
          | only_prints_step; [apply only_prints_install_collect | only_prints_step]
          | repeat only_prints_step ].
Qed.

Lemma only_prints_install_self manager : only_prints (install_self manager true).
Proof.
  unfold install_self. repeat first [apply only_prints_run_command | only_prints_step].
Qed.

Lemma only_prints_custom_remove pkg_config :
  only_prints (CustomManager_remove pkg_config true).
Proof.
  unfold CustomManager_remove, _get_shell, _run_script.
  repeat first [apply only_prints_lines | only_prints_step].
Qed.

Lemma only_prints_remove name pkg_type env keep_in_manifest :
  only_prints (remove name pkg_type env true keep_in_manifest).
Proof.
  unfold remove, remove_custom, remove_standard, dry_run_banner,
    _print_success, _print_error.
  only_prints_step; [apply only_prints_load_manifest|].
  destruct a as [[data raw_data] path].
  only_prints_step; [repeat only_prints_step|].
  only_prints_step; [only_prints_step|].
  only_prints_step.
  - destruct (dict_get name specs) as [config|]; [|repeat only_prints_step].
    only_prints_step; [apply only_prints_print_header|].
    only_prints_step.
    + destruct (negb _); [repeat only_prints_step|apply only_prints_custom_remove].
    + cbn [negb andb]. repeat only_prints_step.
  - only_prints_step; [apply only_prints_print_header|].
    only_prints_step; [apply only_prints_get_manager|].
    only_prints_step; [apply only_prints_manager_remove|].
    cbn [negb]. repeat only_prints_step.
Qed.

Lemma only_prints_bootstrap_all managers : only_prints (bootstrap_all true managers).
Proof.
  induction managers as [|[mgr_name manager] managers IH]; cbn [bootstrap_all].
  - only_prints_step.
  - only_prints_step; [only_prints_step|].
    only_prints_step; [|apply IH].
    repeat first [apply only_prints_install_self | only_prints_step].
Qed.

Lemma only_prints_bootstrap name : only_prints (bootstrap name true).
Proof.
  unfold bootstrap, bootstrap_one.
  only_prints_step; [only_prints_step|].
  destruct (truthy_opt name).
  - repeat first [apply only_prints_install_self | only_prints_step].
  - only_prints_step; [only_prints_step|]. apply only_prints_bootstrap_all.
Qed.

End more_dry_runs.

(** ** What the commands never do *)

Section never_facts.
Context `{Host}.

(** X13. [init] and its alias [sync] never write the manifest: whatever
    the arguments and the outcome, in a dry run or a real one, the files
    are as before, the trace is only extended and no event is a write. *)
Theorem init_never_writes_manifest
    (env types : option string) (dry_run : bool) (s : machine) :
  let run := init env types dry_run in
  files (final run s) = files s
  ∧ trace (final run s) = trace s ++ emitted run s
  ∧ Forall no_write (emitted run s)
  ∧ sync env types dry_run s = run s.
Proof.
  cbv zeta.
  destruct (only_emits_emitted no_write (init env types dry_run) s
              (keeps_init env types dry_run)) as (Hfiles & Htrace & Hevs).
  by split_and!.
Qed.

(** X14. A dry run of [remove] removes nothing and writes nothing: with
    or without [--type] and [--keep], for custom and standard packages and
    whatever the outcome, the files are as before, no event is a write and
    no command line is handed to a login shell, so neither a backend's
    uninstall command nor a remove script runs. (How the shell of a custom
    package is found when [$SHELL] names no file is the host's business
    and not part of the statement.) *)
Theorem remove_dry_run_touches_nothing
    (name : string) (pkg_type env : option string) (keep_in_manifest : bool)
    (s : machine) :
  let run := remove name pkg_type env true keep_in_manifest in
  files (final run s) = files s
  ∧ trace (final run s) = trace s ++ emitted run s
  ∧ Forall no_write (emitted run s)
  ∧ Forall (λ e, ¬ shell_command e) (emitted run s).
Proof.
  cbv zeta.
  destruct (only_prints_emitted (remove name pkg_type env true keep_in_manifest) s
              (only_prints_remove name pkg_type env keep_in_manifest)) as [Hs Hout].
  rewrite Hs at 1 2. split_and!; [done..| |].
  - eapply Forall_impl; [exact Hout|]. by intros [].
  - eapply Forall_impl; [exact Hout|]. intros e He (shell & script & ->). done.
Qed.

(** X15. [update] never writes the manifest, for one package or for all,
    in a dry run or a real one and whatever the outcome: the files are as
    before, the trace is only extended and no event is a write. *)
Theorem update_never_writes_manifest
    (name pkg_type env : option string) (dry_run : bool) (s : machine) :
  let run := update name pkg_type env dry_run in
  files (final run s) = files s
  ∧ trace (final run s) = trace s ++ emitted run s
  ∧ Forall no_write (emitted run s).
Proof.
  cbv zeta.
  by destruct (only_emits_emitted no_write (update name pkg_type env dry_run) s
                 (keeps_update name pkg_type env dry_run)) as (Hfiles & Htrace & Hevs).
Qed.
End never_facts.

(** ** When the manifest is written *)

Section keeping_facts.
Context `{Host}.

(** A property of the end of a run that holds whenever the run stops
    early with the files as they were ([F]), carried through a step that
    does not write. *)
Lemma bind_keeps_then {A B} (m : M A) (f : A → M B)
    (F : gmap string (option raw_manifest)) (Q : outcome B * machine → Prop) s :
  only_emits no_write m →
  files s = F →
  (∀ code s1, files s1 = F → Q (SystemExit code, s1)) →
  (∀ exn s1, files s1 = F → Q (Uncaught exn, s1)) →
  (∀ a s1, files s1 = F → Q (f a s1)) →
  Q (bind m f s).
Proof.
  intros Hm HF Hexit Hraise Hret. destruct (Hm s) as (w & evs & Hs & _).
  unfold final in Hs. unfold bind. destruct (m s) as [[a|code|exn] s1]; cbn in Hs.
  - apply Hret. by rewrite Hs.
  - apply Hexit. by rewrite Hs.
  - apply Hraise. by rewrite Hs.
Qed.

Lemma load_manifest_missing env s :
  files s !! manifest_path env = None →
  _load_manifest env s
  = (SystemExit 1,
     log s [Print ("[red]Error:[/] Manifest file not found: [dim]"
                   +:+ manifest_path env +:+ "[/]")]).
Proof. intros Hfile. unfold _load_manifest, bind, read_file. by rewrite Hfile. Qed.

End keeping_facts.

(** One step that does not write, in a run whose files are [F] so far. *)
Ltac keeps_step F :=
  apply (bind_keeps_then _ _ F); [|done|assumption|assumption|].

Section write_facts.
Context `{Host}.

(** X16. Without a manifest file every command that loads one stops at
    once: [init], [sync], [install], [remove] and [update] print the one
    line that names the missing path and raise [SystemExit(1)]; nothing
    is run and nothing is written. *)
Theorem missing_manifest_ends_every_command (env : option string) (s : machine) :
  files s !! manifest_path env = None →
  let stopped :=
    log s [Print ("[red]Error:[/] Manifest file not found: [dim]"
                  +:+ manifest_path env +:+ "[/]")] in
  (∀ types dry_run, init env types dry_run s = (SystemExit 1, stopped))
  ∧ (∀ types dry_run, sync env types dry_run s = (SystemExit 1, stopped))
  ∧ (∀ pkg_type name dry_run, install pkg_type name env dry_run s = (SystemExit 1, stopped))
  ∧ (∀ name pkg_type dry_run keep_in_manifest,
       remove name pkg_type env dry_run keep_in_manifest s = (SystemExit 1, stopped))
  ∧ (∀ name pkg_type dry_run, update name pkg_type env dry_run s = (SystemExit 1, stopped)).
Proof.
  intros Hfile stopped. pose proof (load_manifest_missing env s Hfile) as Hload.
  split_and!; intros; unfold sync, init, install, remove, update, bind; by rewrite Hload.
Qed.

(** X17. A real run of [install] writes the manifest at most once, and
    only after the installation succeeded and for a name the loaded
    manifest does not list under that type: in every other case (a
    failure, an unknown or absent backend, a name already listed) the
    files are as before. What is written is the loaded document with the
    name added. *)
Theorem install_writes_after_success_only
    (pkg_type name : string) (env : option string) (s : machine) :
  let run := install pkg_type name env false in
  files (final run s) = files s
  ∨ (result run s = Ret tt
     ∧ ∃ document raw_data,
         files s !! manifest_path env = Some document
         ∧ raw_data = default empty_manifest document
         ∧ (name ∉ default [] (dict_get pkg_type (flatten raw_data)))
         ∧ files (final run s)
           = <[manifest_path env :=
                 Some (if decide (pkg_type = "custom")
                       then {| categories := categories raw_data;
                               custom := Some (default [] (custom raw_data)
                                               ++ [EStr name]) |}
                       else _update_raw_manifest raw_data pkg_type name "add")]>
               (files s)).
Proof.
  cbv zeta. unfold result, final.
  destruct (files s !! manifest_path env) as [document|] eqn:Hfile.
  2:{ left. unfold install, bind. by rewrite (load_manifest_missing env s Hfile). }
  set (raw_data := default empty_manifest document).
  set (Q := λ r : outcome unit * machine,
         files r.2 = files s
         ∨ (r.1 = Ret tt
            ∧ ∃ document0 raw_data0,
                Some document = Some document0
                ∧ raw_data0 = default empty_manifest document0
                ∧ (name ∉ default [] (dict_get pkg_type (flatten raw_data0)))
                ∧ files r.2
                  = <[manifest_path env :=
                        Some (if decide (pkg_type = "custom")
                              then {| categories := categories raw_data0;
                                      custom := Some (default [] (custom raw_data0)
                                                      ++ [EStr name]) |}
                              else _update_raw_manifest raw_data0 pkg_type name "add")]>
                      (files s))).
  change (Q (install pkg_type name env false s)).
  assert (∀ code s1, files s1 = files s → Q (SystemExit code, s1)) as Hexit by (by left).
  assert (∀ exn s1, files s1 = files s → Q (Uncaught exn, s1)) as Hraise by (by left).
  assert (∀ s1, files s1 = files s → Q (Ret tt, s1)) as Hret by (by left).
  unfold install. rewrite (bind_run _ _ _ _ _ (load_manifest_found env s document Hfile)).
  fold raw_data. unfold dry_run_banner. rewrite (bind_run _ _ s tt s) by done.
  destruct (decide (pkg_type = "custom")) as [->|Hstd].
  - unfold install_custom. destruct (dict_get name specs) as [config|].
    2:{ keeps_step (files s); [only_emits_step output_no_write|].
        intros _ s1 Hs1. by apply Hexit. }
    destruct (_ && _).
    { keeps_step (files s); [only_emits_step output_no_write|].
      intros _ s1 Hs1. by apply Hexit. }
    keeps_step (files s); [apply keeps_print_header|]. intros _ s1 Hs1.
    keeps_step (files s); [repeat only_emits_step output_no_write|]. intros _ s2 Hs2.
    keeps_step (files s); [apply keeps_custom_install|]. intros r s3 Hs3.
    destruct (success r).
    + keeps_step (files s); [unfold _print_success; only_emits_step output_no_write|].
      intros _ s4 Hs4. cbn [negb].
      case_bool_decide as Hin; [by apply Hret|].
      right. split; [done|]. exists document, raw_data. split; [done|]. split; [done|].
      split; [done|]. cbn. by rewrite Hs4.
    + keeps_step (files s); [unfold _print_error; only_emits_step output_no_write|].
      intros _ s4 Hs4. by apply Hexit.
  - unfold install_standard.
    keeps_step (files s); [apply keeps_print_header|]. intros _ s1 Hs1.
    keeps_step (files s); [apply keeps_get_manager|]. intros manager s2 Hs2.
    keeps_step (files s); [apply keeps_manager_install|]. intros r s3 Hs3.
    destruct (success r).
    + keeps_step (files s); [unfold _print_success; only_emits_step output_no_write|].
      intros _ s4 Hs4. cbn [negb].
      case_bool_decide as Hin; [by apply Hret|].
      right. split; [done|]. exists document, raw_data. split; [done|]. split; [done|].
      split; [done|]. cbn. by rewrite Hs4.
    + keeps_step (files s); [unfold _print_error; only_emits_step output_no_write|].
      intros _ s4 Hs4. by apply Hexit.
Qed.

(** X18. [remove] writes the manifest at most once, only in a real run and
    only after the removal succeeded; a failure, an unknown name or an
    absent backend leave the files as they were. A standard package is
    taken out of the section that declares it (found by
    [_find_package_manifest_type], not the backend an override resolved
    to); for a custom package the first bare entry equal to the name is
    taken out of the custom list, unless [--keep] is given. *)
Theorem remove_writes_after_success_only
    (name : string) (pkg_type env : option string) (dry_run keep_in_manifest : bool)
    (s : machine) :
  let run := remove name pkg_type env dry_run keep_in_manifest in
  files (final run s) = files s
  ∨ (result run s = Ret tt
     ∧ dry_run = false
     ∧ ∃ document raw_data raw_data',
         files s !! manifest_path env = Some document
         ∧ raw_data = default empty_manifest document
         ∧ files (final run s) = <[manifest_path env := Some raw_data']> (files s)
         ∧ ((∃ manifest_type,
               _find_package_manifest_type name (flatten raw_data) = Some manifest_type
               ∧ raw_data' = _update_raw_manifest raw_data manifest_type name "remove")
            ∨ (keep_in_manifest = false
               ∧ EStr name ∈ default [] (custom raw_data)
               ∧ raw_data'
                 = {| categories := categories raw_data;
                      custom := Some (list_remove_first (EStr name)
                                        (default [] (custom raw_data))) |}))).
Proof.
  cbv zeta. unfold result, final.
  destruct (files s !! manifest_path env) as [document|] eqn:Hfile.
  2:{ left. unfold remove, bind. by rewrite (load_manifest_missing env s Hfile). }
  set (raw_data := default empty_manifest document).
  set (Q := λ r : outcome unit * machine,
         files r.2 = files s
         ∨ (r.1 = Ret tt
            ∧ dry_run = false
            ∧ ∃ document0 raw_data0 raw_data',
                Some document = Some document0
                ∧ raw_data0 = default empty_manifest document0
                ∧ files r.2 = <[manifest_path env := Some raw_data']> (files s)
                ∧ ((∃ manifest_type,
                      _find_package_manifest_type name (flatten raw_data0)
                      = Some manifest_type
                      ∧ raw_data'
                        = _update_raw_manifest raw_data0 manifest_type name "remove")
                   ∨ (keep_in_manifest = false
                      ∧ EStr name ∈ default [] (custom raw_data0)
                      ∧ raw_data'
                        = {| categories := categories raw_data0;
                             custom := Some (list_remove_first (EStr name)
                                               (default [] (custom raw_data0))) |})))).
  change (Q (remove name pkg_type env dry_run keep_in_manifest s)).
  assert (∀ code s1, files s1 = files s → Q (SystemExit code, s1)) as Hexit by (by left).
  assert (∀ exn s1, files s1 = files s → Q (Uncaught exn, s1)) as Hraise by (by left).
  assert (∀ s1, files s1 = files s → Q (Ret tt, s1)) as Hret by (by left).
  unfold remove. rewrite (bind_run _ _ _ _ _ (load_manifest_found env s document Hfile)).
  fold raw_data.
  keeps_step (files s); [repeat only_emits_step output_no_write|].
  intros pkg_type' s0 Hs0.
  keeps_step (files s);
    [unfold dry_run_banner; repeat only_emits_step output_no_write|].
  intros _ s0' Hs0'.
  destruct (decide (pkg_type' = "custom")) as [->|Hstd].
  - unfold remove_custom. destruct (dict_get name specs) as [config|].
    2:{ keeps_step (files s); [only_emits_step output_no_write|].
        intros _ s1 Hs1. by apply Hexit. }
    keeps_step (files s); [apply keeps_print_header|]. intros _ s1 Hs1.
    keeps_step (files s).
    { destruct (negb _); [repeat only_emits_step output_no_write|].
      apply keeps_custom_remove. }
    intros r s2 Hs2. destruct (success r).
    + keeps_step (files s); [unfold _print_success; only_emits_step output_no_write|].
      intros _ s3 Hs3.
      destruct dry_run, keep_in_manifest; cbn [negb andb]; try by apply Hret.
      case_bool_decide as Hin; [|by apply Hret].
      right. split; [done|]. split; [done|].
      eexists document, raw_data, _. split; [done|]. split; [done|].
      split; [cbn; by rewrite Hs3|]. right. done.
    + keeps_step (files s); [unfold _print_error; only_emits_step output_no_write|].
      intros _ s3 Hs3. by apply Hexit.
  - unfold remove_standard.
    keeps_step (files s); [apply keeps_print_header|]. intros _ s1 Hs1.
    keeps_step (files s); [apply keeps_get_manager|]. intros manager s2 Hs2.
    keeps_step (files s); [apply keeps_manager_remove|]. intros r s3 Hs3.
    destruct (success r).
    + keeps_step (files s); [unfold _print_success; only_emits_step output_no_write|].
      intros _ s4 Hs4.
      destruct dry_run; cbn [negb]; [by apply Hret|].
      destruct (_find_package_manifest_type name (flatten raw_data))
        as [manifest_type|] eqn:Hfound; [|by apply Hret].
      destruct (truthy manifest_type); [|by apply Hret].
      right. split; [done|]. split; [done|].
      eexists document, raw_data, _. split; [done|]. split; [done|].
      split; [cbn; by rewrite Hs4|]. left. by exists manifest_type.
    + keeps_step (files s); [unfold _print_error; only_emits_step output_no_write|].
      intros _ s4 Hs4. by apply Hexit.
Qed.
End write_facts.

(** ** Real runs of the backends *)

Section real_run_facts.
Context `{Host}.

Lemma command_lines_app evs1 evs2 :
  command_lines (evs1 ++ evs2) = command_lines evs1 ++ command_lines evs2.
Proof. unfold command_lines. apply omap_app. Qed.

Lemma host_runs_cons line lines w r w1 :
  subprocess_run [_detect_shell w; "-l"; "-c"; line] w = (r, w1) →
  host_runs (line :: lines) w = (r :: (host_runs lines w1).1, (host_runs lines w1).2).
Proof. intros Hrun. cbn [host_runs]. rewrite Hrun. by destruct (host_runs lines w1). Qed.

Lemma host_runs_length lines w : length (host_runs lines w).1 = length lines.
Proof.
  revert w. induction lines as [|line lines IH]; intros w; [done|].
  destruct (subprocess_run [_detect_shell w; "-l"; "-c"; line] w) as [r w1] eqn:Hrun.
  rewrite (host_runs_cons _ _ _ _ _ Hrun). cbn. by rewrite IH.
Qed.

(** A real [_run_command], when the subprocess starts: the command is
    printed, handed once to the login shell, and the result is a success
    exactly when the return code is zero. *)
Lemma run_command_real cmd check s :
  launches →
  ∃ returncode w message evs,
    subprocess_run [_detect_shell (os s); "-l"; "-c"; str_join " " cmd] (os s)
    = (inr returncode, w)
    ∧ _run_command cmd false check s
      = (Ret {| success := bool_decide (returncode = 0%Z); message := message |},
         {| os := w; files := files s; trace := trace s ++ evs |})
    ∧ command_lines evs = [str_join " " cmd].
Proof.
  intros Hlaunch. unfold _run_command, bind, print, emit, ask, spawn. cbn [os files trace].
  destruct (Hlaunch [_detect_shell (os s); "-l"; "-c"; str_join " " cmd] (os s))
    as [returncode Hrun].
  destruct (subprocess_run _ (os s)) as [r w]. cbn in Hrun. subst r.
  exists returncode, w. case_bool_decide as Hcode; cbn [negb andb].
  - rewrite andb_false_r. eexists _, [_; _]. split; [done|].
    split; [by rewrite <- app_assoc|done].
  - destruct check; cbn [andb]; eexists _, [_; _]; (split; [done|]);
      (split; [by rewrite <- app_assoc|done]).
Qed.

Lemma run_command_launches cmd check s :
  launches →
  ∃ result w evs,
    _run_command cmd false check s
    = (Ret result, {| os := w; files := files s; trace := trace s ++ evs |})
    ∧ command_lines evs = [str_join " " cmd].
Proof.
  intros Hlaunch.
  destruct (run_command_real cmd check s Hlaunch) as (rc & w & msg & evs & _ & Hrun & Hl).
  by eexists _, w, evs.
Qed.

(** X19. The backends that install, remove or update one package per
    command and return at the first failure (uv, mas, bun), in a real
    run: the commands launched are those of the first [n] packages, in
    order, and [n] is where the first command with a non-zero return
    code is. Every command before the last returned zero; a success
    means that all packages were gone through and all returned zero; a
    failure means that the last command launched returned non-zero,
    and no later package was tried. *)
Theorem per_package_loop_stops_at_first_failure
    (command : string → list string) (packages : list string) (s : machine) :
  launches →
  ∃ result evs n,
    let lines := (λ pkg, str_join " " (command pkg)) <$> take n packages in
    install_until_failure command packages false s
    = (Ret result, {| os := (host_runs lines (os s)).2; files := files s;
                      trace := trace s ++ evs |})
    ∧ command_lines evs = lines
    ∧ n ≤ length packages
    ∧ Forall (λ r, r = inr 0%Z) (removelast (host_runs lines (os s)).1)
    ∧ if success result
      then n = length packages ∧ Forall (λ r, r = inr 0%Z) (host_runs lines (os s)).1
      else last (host_runs lines (os s)).1 ≠ Some (inr 0%Z) ∧ 0 < n.
Proof.
  intros Hlaunch. revert s.
  induction packages as [|pkg packages IH]; intros s.
  - exists ok_result, [], 0. cbn. rewrite app_nil_r. split; [by destruct s|]. done.
  - cbn [install_until_failure].
    destruct (run_command_real (command pkg) true s Hlaunch)
      as (rc & w & msg & evs & Hhost & Hrun & Hlines).
    rewrite (bind_run _ _ _ _ _ Hrun). cbn [success].
    case_bool_decide as Hrc.
    + subst rc.
      destruct (IH {| os := w; files := files s; trace := trace s ++ evs |})
        as (result' & evs' & n & Hrest & Hlines' & Hn & Hinit & Hend).
      cbv zeta in Hrest, Hlines', Hinit, Hend. cbn [os files trace] in *.
      exists result', (evs ++ evs'), (S n). cbv zeta.
      cbn [take fmap list_fmap]. rewrite (host_runs_cons _ _ _ _ _ Hhost). cbn [fst snd].
      rewrite Hrest, command_lines_app, Hlines, Hlines'.
      split; [by rewrite app_assoc|]. split; [done|]. split; [cbn; lia|].
      set (outcomes := (host_runs _ w).1) in *.
      assert (length outcomes = n) as Hlen.
      { unfold outcomes. rewrite host_runs_length, length_fmap, length_take. lia. }
      split.
      * destruct outcomes as [|r outcomes]; [done|].
        change (removelast (inr 0%Z :: r :: outcomes))
          with (inr 0%Z :: removelast (r :: outcomes) : list (string + Z)).
        by constructor.
      * destruct (success result').
        -- destruct Hend as [-> Hall]. split; [done|]. by constructor.
        -- destruct Hend as [Hlast Hpos]. split; [|lia].
           destruct outcomes as [|r outcomes]; [cbn in Hlen; lia|done].
    + exists {| success := false; message := msg |}, evs, 1. cbv zeta.
      cbn [take fmap list_fmap]. rewrite (host_runs_cons _ _ _ _ _ Hhost).
      cbn [host_runs fst snd success]. rewrite Hlines.
      split; [done|]. split; [done|]. split; [cbn; lia|]. split; [done|].
      split; [|lia]. cbn. intros [= ?]. done.
Qed.

(** X20. The winget backend attempts every package, whatever the
    earlier ones returned: a real install launches one command per
    package, in order, each with the quoted identifier; the result is a
    success exactly when every return code is zero, and it carries no
    message. *)
Theorem winget_attempts_every_package (packages : list string) (s : machine) :
  launches →
  ∃ result evs,
    let lines :=
      (λ pkg, str_join " " ["winget.exe"; "install"; shlex_quote pkg; "--silent";
                            "--accept-package-agreements";
                            "--accept-source-agreements"]) <$> packages in
    manager_install WingetManager packages false s
    = (Ret result, {| os := (host_runs lines (os s)).2; files := files s;
                      trace := trace s ++ evs |})
    ∧ command_lines evs = lines
    ∧ success result
      = forallb (λ r, bool_decide (r = inr 0%Z)) (host_runs lines (os s)).1
    ∧ message result = "".
Proof.
  intros Hlaunch. cbn [manager_install].
  set (command := λ pkg, ["winget.exe"; "install"; shlex_quote pkg; "--silent";
                          "--accept-package-agreements"; "--accept-source-agreements"]).
  assert (∀ s, ∃ results evs,
            let lines := (λ pkg, str_join " " (command pkg)) <$> packages in
            install_collect command packages false s
            = (Ret results, {| os := (host_runs lines (os s)).2; files := files s;
                               trace := trace s ++ evs |})
            ∧ command_lines evs = lines
            ∧ forallb success results
              = forallb (λ r, bool_decide (r = inr 0%Z)) (host_runs lines (os s)).1)
    as Hcollect.
  { induction packages as [|pkg packages IH]; intros s0.
    - exists [], []. cbn. rewrite app_nil_r. split; [by destruct s0|done].
    - cbn [install_collect].
      destruct (run_command_real (command pkg) true s0 Hlaunch)
        as (rc & w & msg & evs & Hhost & Hrun & Hlines).
      rewrite (bind_run _ _ _ _ _ Hrun).
      destruct (IH {| os := w; files := files s0; trace := trace s0 ++ evs |})
        as (results & evs' & Hrest & Hlines' & Hall).
      cbv zeta in Hrest, Hlines', Hall. cbn [os files trace] in *.
      rewrite (bind_run _ _ _ _ _ Hrest).
      eexists (_ :: results), (evs ++ evs'). cbv zeta.
      cbn [fmap list_fmap]. rewrite (host_runs_cons _ _ _ _ _ Hhost). cbn [fst snd].
      rewrite command_lines_app, Hlines, Hlines'.
      split; [cbn; by rewrite app_assoc|]. split; [done|].
      cbn [forallb success]. rewrite Hall. f_equal.
      apply bool_decide_ext. split; [by intros ->|by intros [= ->]]. }
  destruct (Hcollect s) as (results & evs & Hrun & Hlines & Hall).
  cbv zeta in Hrun, Hlines, Hall.
  rewrite (bind_run _ _ _ _ _ Hrun). by eexists _, evs.
Qed.
End real_run_facts.

(** ** Updates *)

Section update_command_facts.
Context `{Host}.

Lemma returns_run_command cmd dry_run check :
  launches → returns (_run_command cmd dry_run check).
Proof.
  intros Hlaunch. destruct dry_run; [unfold _run_command; repeat returns_step|].
  intros s. destruct (run_command_launches cmd check s Hlaunch) as (r & w & evs & Hrun & _).
  by exists r, w, evs.
Qed.

Lemma returns_install_until_failure command packages dry_run :
  launches → returns (install_until_failure command packages dry_run).
Proof.
  intros Hlaunch. induction packages as [|pkg packages IH]; cbn [install_until_failure].
  - returns_step.
  - returns_step; [by apply returns_run_command|]. returns_step; [apply IH|returns_step].
Qed.

Lemma returns_install_collect command packages dry_run :
  launches → returns (install_collect command packages dry_run).
Proof.
  intros Hlaunch. induction packages as [|pkg packages IH]; cbn [install_collect].
  - returns_step.
  - returns_step; [by apply returns_run_command|]. returns_step; [apply IH|returns_step].
Qed.

Lemma returns_manager_update manager packages dry_run :
  launches → returns (manager_update manager packages dry_run).
Proof.
  intros Hlaunch. destruct manager; cbn [manager_update];
    repeat first [ by apply returns_run_command
                 | by apply returns_install_until_failure
                 | by apply returns_install_collect
                 | returns_step ].
Qed.

Lemma never_exits_bind {A B} (m : M A) (f : A → M B) :
  never_exits m → (∀ a, never_exits (f a)) → never_exits (bind m f).
Proof.
  intros Hm Hf s code. specialize (Hm s code). unfold result, bind in *.
  destruct (m s) as [[a|code'|exn] s1]; cbn in *; [apply Hf|congruence|done].
Qed.

Lemma never_exits_run_command cmd dry_run check :
  never_exits (_run_command cmd dry_run check).
Proof.
  intros s code. unfold result, _run_command, bind, print, emit, ask, spawn.
  destruct dry_run; [done|]. cbn [os files trace].
  destruct (subprocess_run _ _) as [[exn|returncode] w]; [done|].
  by destruct (check && _).
Qed.

Lemma never_exits_install_until_failure command packages dry_run :
  never_exits (install_until_failure command packages dry_run).
Proof.
  induction packages as [|pkg packages IH]; cbn [install_until_failure]; [done|].
  apply never_exits_bind; [apply never_exits_run_command|].
  intros r. by destruct (success r).
Qed.

Lemma never_exits_install_collect command packages dry_run :
  never_exits (install_collect command packages dry_run).
Proof.
  induction packages as [|pkg packages IH]; cbn [install_collect]; [done|].
  apply never_exits_bind; [apply never_exits_run_command|]. intros r.
  by apply never_exits_bind.
Qed.

Lemma never_exits_manager_update manager packages dry_run :
  never_exits (manager_update manager packages dry_run).
Proof.
  destruct manager; cbn [manager_update]; destruct (some_packages packages);
    repeat first [ apply never_exits_run_command
                 | apply never_exits_install_until_failure
                 | apply never_exits_install_collect
                 | apply never_exits_bind; [|intros ?]
                 | match goal with |- never_exits (if ?b then _ else _) => destruct b end
                 | done ].
Qed.

Lemma print_header_run action pkg_type packages s :
  ∃ text, _print_header action pkg_type packages s = (Ret tt, log s [Print text]).
Proof. unfold _print_header. destruct packages; by eexists. Qed.

(** The ways [update_with] ends: it returns, or [_get_manager] raised
    [SystemExit(1)], or a subprocess could not be started. *)
Lemma update_with_ends pkg_type packages dry_run s :
  ∃ s', (backend_available (os s) pkg_type = true
         ∧ (update_with pkg_type packages dry_run s = (Ret tt, s')
            ∨ ¬ launches
              ∧ ∃ exn, update_with pkg_type packages dry_run s = (Uncaught exn, s')))
        ∨ (backend_available (os s) pkg_type = false
           ∧ update_with pkg_type packages dry_run s = (SystemExit 1, s')).
Proof.
  unfold update_with.
  destruct (print_header_run "Updating" pkg_type (default [] packages) s) as [text Hhead].
  rewrite (bind_run _ _ _ _ _ Hhead).
  destruct (backend_available (os s) pkg_type) eqn:Hav.
  - unfold backend_available in Hav.
    destruct (dict_get pkg_type MANAGERS) as [manager|] eqn:Hreg; [|done].
    rewrite (bind_run _ _ _ _ _
               (get_manager_found pkg_type manager (log s [Print text]) Hreg Hav)).
    unfold bind.
    destruct (manager_update manager packages dry_run (log s [Print text]))
      as [[r|code|exn] s1] eqn:Hrun.
    + destruct (success r); eexists; left; (split; [done|]); left;
        unfold _print_success, _print_error; by rewrite print_run.
    + exfalso. apply (never_exits_manager_update manager packages dry_run
                        (log s [Print text]) code).
      unfold result. by rewrite Hrun.
    + eexists. left. split; [done|]. right. split; [|by eexists].
      intros Hlaunch.
      destruct (returns_manager_update manager packages dry_run Hlaunch
                  (log s [Print text])) as (r & w & evs & Hret).
      congruence.
  - eexists. right. split; [done|]. unfold bind at 1.
    by rewrite (get_manager_missing pkg_type (log s [Print text]) Hav).
Qed.

Lemma update_with_custom packages dry_run s :
  ∃ s', update_with "custom" packages dry_run s = (SystemExit 1, s').
Proof.
  destruct (update_with_ends "custom" packages dry_run s) as [s' [[Hav _]|[_ Hexit]]];
    [done|by eauto].
Qed.

(** The loop of [update] over a list that holds ["custom"]. *)
Lemma update_loop_custom dry_run all_types s :
  "custom" ∈ all_types →
  ∃ s', update_loop dry_run all_types s = (SystemExit 1, s')
        ∨ ¬ launches ∧ ∃ exn, update_loop dry_run all_types s = (Uncaught exn, s').
Proof.
  revert s. induction all_types as [|pkg_type all_types IH]; intros s Hin.
  { by apply elem_of_nil in Hin. }
  cbn [update_loop].
  destruct (decide (pkg_type = "custom")) as [->|Hne].
  - destruct (update_with_custom None dry_run s) as [s' Hexit].
    exists s'. left. unfold bind. by rewrite Hexit.
  - apply elem_of_cons in Hin as [?|Hin]; [done|].
    destruct (update_with_ends pkg_type None dry_run s)
      as [s' [[_ [Hret|[Hno [exn Hraise]]]]|[_ Hexit]]].
    + rewrite (bind_run _ _ _ _ _ Hret). by apply IH.
    + exists s'. right. split; [done|]. exists exn. unfold bind. by rewrite Hraise.
    + exists s'. left. unfold bind. by rewrite Hexit.
Qed.

Lemma dict_get_key {V} (k : string) (d : pydict V) :
  is_Some (dict_get k d) → k ∈ dict_keys d.
Proof.
  intros [v Hv]. apply dict_get_elem in Hv. unfold dict_keys.
  apply list_elem_of_fmap. by exists (k, v).
Qed.

Lemma banner_run dry_run s :
  ∃ evs, dry_run_banner dry_run s = (Ret tt, log s evs).
Proof.
  destruct dry_run; [by eexists [_]|]. exists []. by rewrite log_nil.
Qed.

(** X21. A failed update is reported, not raised: [update NAME --type
    TYPE] for a registered backend whose tool is present returns
    normally whatever the backend's update command returned, where
    [install] and [remove] raise [SystemExit(1)] on a failure. *)
Theorem update_failure_is_reported_not_raised
    (name pkg_type : string) (env : option string) (dry_run : bool)
    (s : machine) (document : option raw_manifest) :
  launches →
  files s !! manifest_path env = Some document →
  name ≠ "" →
  backend_available (os s) pkg_type = true →
  result (update (Some name) (Some pkg_type) env dry_run) s = Ret tt.
Proof.
  intros Hlaunch Hfile Hname Hav. unfold result, update.
  rewrite (bind_run _ _ _ _ _ (load_manifest_found env s document Hfile)).
  destruct (banner_run dry_run s) as [evs Hbanner].
  rewrite (bind_run _ _ _ _ _ Hbanner).
  cbn [truthy_opt]. unfold truthy. rewrite bool_decide_eq_false_2 by done. cbn [negb].
  rewrite (bind_run _ _ (log s evs) pkg_type (log s evs)) by done. cbn [default from_option id].
  destruct (update_with_ends pkg_type (Some [name]) dry_run (log s evs))
    as [s' [[_ [Hret|[Hno _]]]|[Hmiss _]]].
  - by rewrite Hret.
  - done.
  - cbn [os log] in Hmiss. congruence.
Qed.

(** X22. [update] without a name goes through the keys of the flattened
    manifest, the custom list among them, and asks [_get_manager] for
    each: a manifest with a custom package that survives on this
    platform makes it raise [SystemExit(1)] at ["custom"], which is no
    registered backend, if it did not stop before. Such a run never
    returns normally. *)
Theorem update_all_stops_at_custom_section
    (name pkg_type env : option string) (dry_run : bool)
    (s : machine) (document : option raw_manifest) :
  files s !! manifest_path env = Some document →
  truthy_opt name = false →
  dict_mem "custom" (flatten (default empty_manifest document)) = true →
  let run := update name pkg_type env dry_run in
  (∀ a, result run s ≠ Ret a)
  ∧ (launches → result run s = SystemExit 1).
Proof.
  intros Hfile Hname Hcustom. cbv zeta. unfold result, update.
  rewrite (bind_run _ _ _ _ _ (load_manifest_found env s document Hfile)).
  destruct (banner_run dry_run s) as [evs Hbanner].
  rewrite (bind_run _ _ _ _ _ Hbanner). rewrite Hname.
  rewrite (bind_run _ _ _ _ _ (print_run _ _)).
  apply bool_decide_eq_true, dict_get_key in Hcustom.
  apply (proj1 (reorder_types_spec _) "custom") in Hcustom.
  match goal with
  | |- context [update_loop dry_run ?ts ?s0] =>
      destruct (update_loop_custom dry_run ts s0 Hcustom)
        as [s' [Hexit|[Hno [exn Hraise]]]]
  end.
  - rewrite Hexit. done.
  - rewrite Hraise. done.
Qed.
End update_command_facts.

(** ** Installed names *)

Section installed_facts.
Context `{Host}.

Lemma elem_of_names (installed_packages : list PackageInfo) (p : string) :
  p ∈ (list_to_set (pi_name <$> installed_packages) : gset string)
  ↔ ∃ info, info ∈ installed_packages ∧ pi_name info = p.
Proof.
  rewrite elem_of_list_to_set, list_elem_of_fmap. split; intros (info & ? & ?); eauto.
Qed.

Lemma elem_of_display_names (installed_packages : list PackageInfo) (p : string) :
  p ∈ (list_to_set (pi_display_name <$>
         List.filter (λ p, truthy (pi_display_name p)) installed_packages) : gset string)
  ↔ ∃ info, info ∈ installed_packages ∧ truthy (pi_display_name info) = true
            ∧ pi_display_name info = p.
Proof.
  rewrite elem_of_list_to_set, list_elem_of_fmap. split.
  - intros (info & -> & [? ?]%filter_elem_of). eauto.
  - intros (info & ? & ? & <-). exists info. by rewrite filter_elem_of.
Qed.

Lemma elem_of_reported (installed_packages : list PackageInfo) (p : string) :
  p ∈ (list_to_set (pi_name <$> installed_packages) : gset string)
      ∪ list_to_set (pi_display_name <$>
          List.filter (λ p, truthy (pi_display_name p)) installed_packages)
  ↔ ∃ info, info ∈ installed_packages ∧ p ∈ reported_names info.
Proof.
  rewrite elem_of_union, elem_of_names, elem_of_display_names. unfold reported_names.
  split.
  - intros [(info & ? & <-)|(info & ? & Hd & <-)]; exists info; (split; [done|]).
    + by left.
    + rewrite Hd. right. by left.
  - intros (info & ? & [->|Hin]%elem_of_cons); [left; by eauto|].
    destruct (truthy (pi_display_name info)) eqn:Hd; [|by apply elem_of_nil in Hin].
    apply list_elem_of_singleton in Hin as ->. right. by eauto.
Qed.

(** X23. Which declared packages [init] finds missing. For winget a
    declared name is matched without regard to case against the
    identifier and the display name of every installed package; a name
    is missing only when neither it nor its lowercase form is such a
    name or the lowercase form of one. For every other backend the
    match is exact, on the package name. The declared order is kept. *)
Theorem missing_is_what_no_installed_name_matches
    (manager : PackageManager) (installed_packages : list PackageInfo)
    (packages : list string) (p : string) :
  let missing :=
    missing_packages manager (installed_names manager installed_packages) packages in
  sublist missing packages
  ∧ (p ∈ missing ↔
     p ∈ packages
     ∧ ∀ info, info ∈ installed_packages →
         if decide (manager = WingetManager) then
           ∀ n, n ∈ reported_names info →
                p ≠ n ∧ p ≠ str_lower n ∧ str_lower p ≠ n ∧ str_lower p ≠ str_lower n
         else pi_name info ≠ p).
Proof.
  cbv zeta. unfold missing_packages, installed_names.
  assert (∀ f (l : list string), sublist (List.filter f l) l) as Hsub.
  { intros f l. induction l as [|x l IH]; [done|]. cbn.
    destruct (f x); [by apply sublist_skip|by apply sublist_cons]. }
  destruct (decide (mgr_name manager = "winget")) as [Hw|Hw].
  - assert (manager = WingetManager) as -> by (by destruct manager).
    split; [apply Hsub|]. destruct (decide (WingetManager = WingetManager)); [|done].
    rewrite filter_elem_of, andb_true_iff, !negb_true_iff, !bool_decide_eq_false.
    set (reported := (list_to_set (pi_name <$> installed_packages) : gset string) ∪ _).
    rewrite !elem_of_union, !elem_of_map. subst reported.
    setoid_rewrite elem_of_reported.
    split.
    + intros (Hp & Hno & Hno'). split; [done|]. intros info Hinfo n Hn.
      split_and!; intros Heq.
      * apply Hno. left. subst. by eauto.
      * apply Hno. right. exists n. split; [done|]. by eauto.
      * apply Hno'. left. rewrite Heq. by eauto.
      * apply Hno'. right. exists n. split; [done|]. by eauto.
    + intros (Hp & Hall). split; [done|]. split.
      * intros [(info & Hinfo & Hn)|(n & -> & info & Hinfo & Hn)];
          by destruct (Hall info Hinfo _ Hn) as (? & ? & ? & ?).
      * intros [(info & Hinfo & Hn)|(n & Heq & info & Hinfo & Hn)];
          by destruct (Hall info Hinfo _ Hn) as (? & ? & ? & ?).
  - split; [apply Hsub|].
    destruct (decide (manager = WingetManager)) as [->|_]; [done|].
    rewrite filter_elem_of, negb_true_iff, bool_decide_eq_false, elem_of_names.
    split.
    + intros (Hp & Hno). split; [done|]. intros info Hinfo Heq. apply Hno. by eauto.
    + intros (Hp & Hall). split; [done|]. intros (info & Hinfo & Heq).
      by apply (Hall info).
Qed.
End installed_facts.

(** ** Runs read off the final machine *)

Section run_facts.
Context `{Host}.

Lemma run_emitted {A} (m : M A) s o w F evs :
  m s = (o, {| os := w; files := F; trace := trace s ++ evs |}) →
  result m s = o ∧ os (final m s) = w ∧ files (final m s) = F ∧ emitted m s = evs.
Proof.
  intros Hrun. unfold result, emitted, final. rewrite Hrun. cbn.
  by rewrite drop_app_length.
Qed.

Lemma manifest_type_scan_elem name data manifest_types manifest_type :
  manifest_type_scan name data manifest_types = Some manifest_type →
  manifest_type ∈ manifest_types.
Proof.
  induction manifest_types as [|t manifest_types IH]; [done|].
  cbn [manifest_type_scan]. destruct (_package_in_list _ _).
  - intros [= ->]. by left.
  - intros ?. right. auto.
Qed.

Lemma manifest_type_truthy name data manifest_type :
  _find_package_manifest_type name data = Some manifest_type →
  truthy manifest_type = true.
Proof.
  unfold _find_package_manifest_type. case_bool_decide; [by intros [= <-]|].
  intros Hin%manifest_type_scan_elem. cbn in Hin.
  repeat (apply elem_of_cons in Hin as [->|Hin]; [done|]). by apply elem_of_nil in Hin.
Qed.

(** X24. Removing a Mac App Store app runs nothing: mas has no uninstall,
    so the backend prints a warning and reports success. The command
    therefore returns normally with the world as it was and, in a real
    run, still takes the name out of the section that declares it. *)
Theorem mas_removal_only_edits_manifest
    (name : string) (env : option string) (dry_run keep_in_manifest : bool)
    (s : machine) (document : option raw_manifest) :
  files s !! manifest_path env = Some document →
  is_available MasManager (os s) = true →
  let run := remove name (Some "mas") env dry_run keep_in_manifest in
  let raw_data := default empty_manifest document in
  result run s = Ret tt
  ∧ os (final run s) = os s
  ∧ command_lines (emitted run s) = []
  ∧ Print "  [yellow]Warning:[/] mas cannot uninstall apps. Remove via Finder or Launchpad."
    ∈ emitted run s
  ∧ files (final run s)
    = (if dry_run then files s
       else match _find_package_manifest_type name (flatten raw_data) with
            | Some manifest_type =>
                <[manifest_path env :=
                    Some (_update_raw_manifest raw_data manifest_type name "remove")]>
                  (files s)
            | None => files s
            end).
Proof.
  intros Hfile Hav run raw_data.
  assert (∃ text, ∀ s0, _print_header "Removing" "mas" [name] s0
                        = (Ret tt, log s0 [Print text])) as [text Hhead].
  { eexists. intros s0. unfold _print_header. cbn [dict_get MANAGERS length].
    reflexivity. }
  set (warning := Print "  [yellow]Warning:[/] mas cannot uninstall apps. Remove via Finder or Launchpad.").
  assert (∃ evs F,
            run s = (Ret tt, {| os := os s; files := F; trace := trace s ++ evs |})
            ∧ command_lines evs = [] ∧ warning ∈ evs
            ∧ F = (if dry_run then files s
                   else match _find_package_manifest_type name (flatten raw_data) with
                        | Some manifest_type =>
                            <[manifest_path env :=
                                Some (_update_raw_manifest raw_data manifest_type
                                                           name "remove")]>
                              (files s)
                        | None => files s
                        end))
    as (evs & F & Hrun & Hlines & Hwarn & HF).
  { subst run. unfold remove.
    rewrite (bind_run _ _ _ _ _ (load_manifest_found env s document Hfile)).
    fold raw_data. rewrite (bind_run _ _ s "mas" s) by done.
    assert (∀ s0, os s0 = os s →
              remove_standard "mas" name dry_run (flatten raw_data) raw_data
                              (manifest_path env) s0
              = (if dry_run then ret tt
                 else match _find_package_manifest_type name (flatten raw_data) with
                      | Some manifest_type =>
                          _save_manifest
                            (_update_raw_manifest raw_data manifest_type name "remove")
                            (manifest_path env);;
                          print ("[dim]Removed from manifest:[/] " +:+ manifest_path env)
                      | None => ret tt
                      end)
                  (log s0 [Print text; warning; Print ("[green]✓[/] " +:+ "Done")]))
      as Hstd.
    { intros s0 Hs0. unfold remove_standard.
      rewrite (bind_run _ _ _ _ _ (Hhead s0)).
      rewrite (bind_run _ _ _ _ _
                 (get_manager_found "mas" MasManager (log s0 [Print text]) eq_refl
                    ltac:(by cbn [os log]; rewrite Hs0))).
      cbn [manager_remove]. unfold _print_success.
      rewrite (bind_run _ _ _ _ _ (bind_run _ _ _ _ _ (print_run _ _))).
      cbn [success]. rewrite (bind_run _ _ _ _ _ (print_run _ _)).
      rewrite !log_log. cbn [app]. destruct dry_run; [done|]. cbn [negb].
      destruct (_find_package_manifest_type name (flatten raw_data))
        as [manifest_type|] eqn:Hfound; [|done].
      by rewrite (manifest_type_truthy _ _ _ Hfound). }
    rewrite decide_False by done.
    destruct dry_run.
    - cbn [dry_run_banner]. rewrite (bind_run _ _ s tt
                 (log s [PrintPanel "[yellow]DRY RUN[/] - No changes will be made"
                                    "yellow"])) by done.
      rewrite Hstd by done. rewrite log_log. eexists _, _. split; [done|].
      split; [done|]. split; [|done]. cbn [app]. rewrite !elem_of_cons. auto.
    - cbn [dry_run_banner]. rewrite (bind_run _ _ s tt s) by done.
      rewrite Hstd by done.
      destruct (_find_package_manifest_type name (flatten raw_data)) as [manifest_type|].
      + unfold _save_manifest, write_file, bind, print, emit, log. cbn [os files trace].
        rewrite <- !app_assoc. cbn [app].
        eexists _, _. split; [reflexivity|].
        split; [done|]. split; [|done]. rewrite !elem_of_cons. auto.
      + eexists _, _. split; [done|]. split; [done|]. split; [|done].
        rewrite !elem_of_cons. auto. }
  destruct (run_emitted run s _ _ _ _ Hrun) as (-> & -> & -> & ->). by subst F.
Qed.
End run_facts.

(** ** Bootstrap *)

Section bootstrap_facts.
Context `{Host}.

Lemma bootstrap_all_available dry_run managers s :
  forallb (λ item, is_available item.2 (os s)) managers = true →
  ∃ evs, bootstrap_all dry_run managers s = (Ret tt, log s evs) ∧ Forall is_output evs.
Proof.
  revert s. induction managers as [|[mgr_name manager] managers IH]; intros s Hall.
  - exists []. by rewrite log_nil.
  - cbn [forallb snd] in Hall. apply andb_true_iff in Hall as [Hav Hall].
    cbn [bootstrap_all]. unfold bind at 1 2, ask at 1. rewrite Hav. rewrite print_run.
    destruct (IH (log s [Print ("[green]✓[/] " +:+ mgr_name +:+ " ("
                                +:+ mgr_tool manager +:+ ")")]) Hall)
      as (evs & -> & Hevs).
    rewrite log_log. eexists. split; [done|]. by constructor.
Qed.

Lemma bootable_available manager name s :
  forallb (λ item, is_available item.2 (os s)) bootable = true →
  dict_get name MANAGERS = Some manager →
  install_cmds manager ≠ [] →
  is_available manager (os s) = true.
Proof.
  intros Hall Hreg Hcmds. rewrite forallb_forall in Hall.
  apply (Hall (name, manager)). apply list_elem_of_In. unfold bootable.
  apply filter_elem_of. split; [by apply dict_get_elem|].
  cbn [snd]. by destruct (install_cmds manager).
Qed.

(** X25. [bootstrap] installs only what is absent: when the tool of every
    bootable manager (conda, python, rust, mas, bun) is on the PATH, it
    runs nothing, for one manager or for all and in a real run as in a
    dry one; it only prints, and without a name it returns normally. *)
Theorem bootstrap_leaves_available_managers_alone
    (name : option string) (dry_run : bool) (s : machine) :
  forallb (λ item, is_available item.2 (os s)) bootable = true →
  let run := bootstrap name dry_run in
  os (final run s) = os s
  ∧ files (final run s) = files s
  ∧ Forall is_output (emitted run s)
  ∧ (truthy_opt name = false → result run s = Ret tt).
Proof.
  intros Hall run.
  assert (∃ o evs, run s = (o, log s evs) ∧ Forall is_output evs
                   ∧ (truthy_opt name = false → o = Ret tt))
    as (o & evs & Hrun & Hevs & Ho).
  { subst run. unfold bootstrap.
    assert (∃ evs0, (if dry_run
                     then print ("[dim]Dry run mode - no changes will be made[/]" +:+ nl)
                     else ret tt) s = (Ret tt, log s evs0)
                    ∧ Forall is_output evs0) as (evs0 & Hfirst & Hevs0).
    { destruct dry_run; [by eexists [_]; repeat constructor|].
      exists []. by rewrite log_nil. }
    rewrite (bind_run _ _ _ _ _ Hfirst).
    destruct (truthy_opt name).
    - unfold bootstrap_one.
      destruct (dict_get (default "" name) MANAGERS) as [manager|] eqn:Hreg.
      + destruct (install_cmds manager) as [|cmd cmds] eqn:Hcmds.
        * eexists _, (evs0 ++ [_]). rewrite <- log_log. split; [done|].
          split; [|done]. apply Forall_app. split; [done|]. by repeat constructor.
        * unfold bind at 1, ask at 1. change (os (log s evs0)) with (os s).
          rewrite (bootable_available manager (default "" name) s Hall Hreg)
            by (by rewrite Hcmds).
          eexists _, (evs0 ++ [_]). rewrite <- log_log. split; [done|].
          split; [|done]. apply Forall_app. split; [done|]. by repeat constructor.
      + rewrite !(bind_run _ _ _ _ _ (print_run _ _)), !log_log.
        eexists _, _. split; [reflexivity|].
        split; [|done]. apply Forall_app. split; [done|]. by repeat constructor.
    - rewrite (bind_run _ _ _ _ _ (print_run _ _)). rewrite log_log.
      destruct (bootstrap_all_available dry_run bootable
                  (log s (evs0 ++ [Print ("[bold]Bootstrapping package managers...[/]"
                                          +:+ nl)])) Hall)
        as (evs & -> & Hevs).
      rewrite log_log. eexists _, _. split; [done|]. split; [|done].
      apply Forall_app. split; [|done]. apply Forall_app. split; [done|].
      by repeat constructor. }
  destruct (run_emitted run s o (os s) (files s) evs Hrun) as (-> & -> & -> & ->).
  done.
Qed.

(** *** The listing of custom packages *)




End bootstrap_facts.

(** ** Removing a custom package *)

Section custom_removal_facts.
Context `{Host}.



End custom_removal_facts.

(** ** Custom packages without a check command, in whole runs *)

Section custom_reinstall_facts.
Context `{Host}.

End custom_reinstall_facts.

(** ** The manifest file as text: loading and saving *)

Section document_facts.
Context `{Host}.

Lemma fold_raising_types (cat_data : gmap string (option (list entry)))
    flattened pkg_types :
  fold_raising (flatten_type_checked (Some cat_data)) flattened pkg_types
  = if existsb (λ pkg_type, bool_decide (cat_data !! pkg_type = Some None)) pkg_types
    then inl "TypeError"
    else inr (foldl (flatten_type
                       (omap (M := gmap string) (λ l : option (list entry), l) cat_data))
                    flattened pkg_types).
Proof.
  revert flattened.
  induction pkg_types as [|pkg_type pkg_types IH]; intros flattened; [done|].
  cbn [fold_raising existsb foldl]. unfold flatten_type_checked at 1.
  unfold flatten_type at 2. rewrite lookup_omap.
  destruct (cat_data !! pkg_type) as [[entries|]|] eqn:Hlist; cbn [mbind option_bind].
  - rewrite bool_decide_eq_false_2 by done. apply IH.
  - by rewrite bool_decide_eq_true_2.
  - rewrite bool_decide_eq_false_2 by done. apply IH.
Qed.

Lemma fold_raising_null_section flattened pkg_types :
  fold_raising (flatten_type_checked None) flattened pkg_types
  = match pkg_types with [] => inr flattened | _ => inl "TypeError" end.
Proof. by destruct pkg_types. Qed.

(** One category: the loop raises exactly on a null value in view, and
    otherwise does what it does on the manifest without the nulls. *)
Lemma flatten_category_checked_spec raw_data flattened cat_name :
  flatten_category_checked raw_data flattened cat_name
  = if null_in_category raw_data cat_name then inl "TypeError"
    else inr (flatten_category (manifest_of raw_data) flattened cat_name).
Proof.
  unfold flatten_category_checked, null_in_category, flatten_category.
  destruct (decide (cat_name = "custom")) as [->|Hne].
  - cbn [manifest_of custom]. by destruct (doc_custom raw_data) as [[entries|]|].
  - cbn [manifest_of categories]. rewrite lookup_omap.
    destruct (doc_categories raw_data !! cat_name) as [[cat_data|]|];
      cbn [from_option id mbind option_bind].
    + apply fold_raising_types.
    + rewrite fold_raising_null_section.
      by destruct (category_types cat_name).
    + rewrite fold_raising_types.
      match goal with |- context [existsb ?f ?l] =>
        assert (existsb f l = false) as -> end.
      { induction (category_types cat_name) as [|t ts IH]; [done|].
        cbn [existsb]. by rewrite lookup_empty, IH. }
      by rewrite omap_empty.
Qed.

Lemma flatten_categories_checked_spec raw_data flattened cats :
  fold_raising (flatten_category_checked raw_data) flattened cats
  = if existsb (null_in_category raw_data) cats then inl "TypeError"
    else inr (foldl (flatten_category (manifest_of raw_data)) flattened cats).
Proof.
  revert flattened. induction cats as [|cat_name cats IH]; intros flattened; [done|].
  cbn [fold_raising existsb foldl]. rewrite flatten_category_checked_spec.
  destruct (null_in_category raw_data cat_name); [done|]. apply IH.
Qed.

(** The flattening loop raises [TypeError] exactly when a value in view
    is null, and otherwise flattens as the machine does. *)
Lemma flatten_document_spec raw_data :
  flatten_document raw_data
  = if null_in_view raw_data then inl "TypeError"
    else inr (flatten (manifest_of raw_data)).
Proof. apply flatten_categories_checked_spec. Qed.

Lemma manifest_of_document_of raw_data : manifest_of (document_of raw_data) = raw_data.
Proof.
  destruct raw_data as [cats custom_list]. unfold manifest_of, document_of.
  cbn [doc_categories doc_custom categories custom]. f_equal.
  - apply map_eq. intros cat_name. rewrite lookup_omap, lookup_fmap.
    destruct (cats !! cat_name) as [cat_data|]; [|done]. cbn. f_equal.
    apply map_eq. intros pkg_type. rewrite lookup_omap, lookup_fmap.
    by destruct (cat_data !! pkg_type).
  - by destruct custom_list.
Qed.

Lemma document_of_no_null raw_data : null_in_view (document_of raw_data) = false.
Proof.
  unfold null_in_view.
  induction _get_active_categories as [|cat_name cats IH]; [done|].
  cbn [existsb]. rewrite IH, orb_false_r. unfold null_in_category.
  destruct (decide (cat_name = "custom")).
  - cbn. by destruct (custom raw_data).
  - cbn [document_of doc_categories]. rewrite lookup_fmap.
    destruct (categories raw_data !! cat_name) as [cat_data|]; [|done]. cbn.
    induction (category_types cat_name) as [|t ts IHt]; [done|].
    cbn [existsb]. rewrite IHt, orb_false_r, lookup_fmap.
    by destruct (cat_data !! t).
Qed.

(** On the documents of the machine, the loop is [flatten]. *)
Lemma flatten_document_of raw_data :
  flatten_document (document_of raw_data) = inr (flatten raw_data).
Proof.
  by rewrite flatten_document_spec, document_of_no_null, manifest_of_document_of.
Qed.

Section codec_facts.
Variable Text : Type.
Variable yaml_safe_load : Text → string + option document.
Variable yaml_dump : document → Text.

(** What is asked of the library: a document that is dumped and loaded
    again is the same document. *)
Hypothesis dump_then_load :
  ∀ raw_data, yaml_safe_load (yaml_dump raw_data) = inr (Some raw_data).

End codec_facts.
End document_facts.

(** ** More concrete runs *)

(** Removing tmux from a conda list that names it twice takes out the
    first entry, the one with the override. *)
Lemma remove_first_tmux_run :
  (unnamed "tmux" [EStr "ripgrep"; EStr "tmux:brew"; EStr "tmux"]
   ∧ _update_raw_manifest two_tmux_manifest "conda" "tmux" "remove" = two_tmux_manifest)
  ∨ ∃ before s after,
      [EStr "ripgrep"; EStr "tmux:brew"; EStr "tmux"] = before ++ EStr s :: after
      ∧ (_parse_package_entry s).1 = "tmux"
      ∧ unnamed "tmux" before
      ∧ raw_entries (_update_raw_manifest two_tmux_manifest "conda" "tmux" "remove")
                    "general" "conda"
        = Some (before ++ after).
Proof.
  apply (remove_takes_first_entry_of_that_name two_tmux_manifest "conda" "general" "tmux"
           [EStr "ripgrep"; EStr "tmux:brew"; EStr "tmux"]).
  - split; [reflexivity|discriminate].
  - vm_compute. reflexivity.
  - discriminate.
Defined.

(** black added to the python list and removed again. *)
Lemma add_then_remove_black_run :
  _update_raw_manifest (_update_raw_manifest sole_entry_manifest "python" "black" "add")
                       "python" "black" "remove"
  = sole_entry_manifest.
Proof.
  apply (add_then_remove_restores_manifest sole_entry_manifest "python" "general" "black"
           [EStr "ruff"]).
  - split; [reflexivity|discriminate].
  - vm_compute. reflexivity.
  - intros s Hs. apply list_elem_of_singleton in Hs. injection Hs as ->.
    vm_compute. discriminate.
  - discriminate.
  - reflexivity.
Defined.

(** Removing numpy from conda leaves the python list alone. *)
Lemma remove_numpy_keeps_python_run :
  raw_entries (_update_raw_manifest sole_entry_manifest "conda" "numpy" "remove")
              "general" "python"
  = raw_entries sole_entry_manifest "general" "python".
Proof.
  apply (update_touches_one_list sole_entry_manifest "conda" "general" "numpy" "remove"
           "general" "python").
  - split; [reflexivity|discriminate].
  - discriminate.
Defined.

(** htop added under conda is listed when the manifest is loaded on Linux. *)
Lemma added_htop_run :
  if bool_decide ("general" ∈ @_get_active_categories linux_host)
  then ∃ names,
         dict_get "conda"
           (@flatten linux_host (_update_raw_manifest override_manifest "conda" "htop" "add"))
         = Some names
         ∧ "htop" ∈ names
  else dict_get "conda"
         (@flatten linux_host (_update_raw_manifest override_manifest "conda" "htop" "add"))
       = None.
Proof.
  refine (proj2 (@added_name_shows_after_reload linux_host override_manifest "conda"
                   "general" "htop" _ _)).
  - split; [reflexivity|discriminate].
  - discriminate.
Defined.

(** On a Mac with Homebrew, tmux declared as ["tmux:brew"] under conda is
    detected as a brew package, and brew is where [init] installs it. *)
Lemma detected_tmux_run :
  "tmux" ∈ default [] (dict_get "brew"
                         (@_resolve_all_packages mac_host mac_world
                            [("conda", ["python"; "tmux:brew"])])).
Proof.
  apply (@detected_type_is_where_init_installs mac_host mac_world "tmux" "brew"
           [("conda", ["python"; "tmux:brew"])]).
  - vm_compute. reflexivity.
  - discriminate.
Defined.

(** No manifest on disk: [update] stops at once. *)
Lemma update_without_manifest_run :
  @update linux_host None None None false fresh_machine
  = (SystemExit 1,
     @log linux_host fresh_machine
          [Print ("[red]Error:[/] Manifest file not found: [dim]"
                  +:+ @manifest_path linux_host None +:+ "[/]")]).
Proof.
  refine (proj2 (proj2 (proj2 (proj2
            (@missing_manifest_ends_every_command linux_host None fresh_machine _))))
            None None false).
  vm_compute. reflexivity.
Defined.

Lemma demo_launches platform spec_table : @launches (demo_host platform spec_table).
Proof. intros argv w. by eexists. Defined.

(** uv installs ruff, fails on the second package and does not try the
    third. *)
Lemma uv_stops_run :
  ∃ result evs n,
    @install_until_failure linux_host uv_install ["ruff"; "broken-tool"; "black"] false
                           fresh_machine
    = (Ret result,
       @Build_machine linux_host
         (@host_runs linux_host
            ((λ pkg, str_join " " (uv_install pkg))
               <$> take n ["ruff"; "broken-tool"; "black"])
            (os fresh_machine)).2
         (files fresh_machine) (trace fresh_machine ++ evs))
    ∧ command_lines evs
      = (λ pkg, str_join " " (uv_install pkg)) <$> take n ["ruff"; "broken-tool"; "black"]
    ∧ n ≤ length ["ruff"; "broken-tool"; "black"]
    ∧ Forall (λ r, r = inr 0%Z)
        (removelast
           (@host_runs linux_host
              ((λ pkg, str_join " " (uv_install pkg))
                 <$> take n ["ruff"; "broken-tool"; "black"])
              (os fresh_machine)).1)
    ∧ if success result
      then n = length ["ruff"; "broken-tool"; "black"]
           ∧ Forall (λ r, r = inr 0%Z)
               (@host_runs linux_host
                  ((λ pkg, str_join " " (uv_install pkg))
                     <$> take n ["ruff"; "broken-tool"; "black"])
                  (os fresh_machine)).1
      else last (@host_runs linux_host
                   ((λ pkg, str_join " " (uv_install pkg))
                      <$> take n ["ruff"; "broken-tool"; "black"])
                   (os fresh_machine)).1
           ≠ Some (inr 0%Z)
           ∧ 0 < n.
Proof.
  apply (@per_package_loop_stops_at_first_failure linux_host uv_install
           ["ruff"; "broken-tool"; "black"] fresh_machine).
  apply demo_launches.
Defined.

(** winget goes on after a failure, and reports it at the end. *)
Lemma winget_goes_on_run :
  ∃ result evs,
    @manager_install linux_host WingetManager ["broken.App"; "Git.Git"] false fresh_machine
    = (Ret result,
       @Build_machine linux_host (os fresh_machine) (files fresh_machine)
                      (trace fresh_machine ++ evs))
    ∧ command_lines evs
      = ["winget.exe install broken.App --silent --accept-package-agreements --accept-source-agreements";
         "winget.exe install Git.Git --silent --accept-package-agreements --accept-source-agreements"]
    ∧ success result = false
    ∧ message result = "".
Proof.
  exact (@winget_attempts_every_package linux_host ["broken.App"; "Git.Git"]
           fresh_machine (demo_launches "linux" demo_specs)).
Defined.

(** The update of a package uv cannot upgrade ends with exit code 0. *)
Lemma failed_update_run :
  @result linux_host _ (update (Some "broken-tool") (Some "python") None false)
          no_conda_machine
  = Ret tt.
Proof.
  apply (@update_failure_is_reported_not_raised linux_host "broken-tool" "python" None
           false no_conda_machine (Some conda_python_manifest)).
  - apply demo_launches.
  - vm_compute. reflexivity.
  - discriminate.
  - vm_compute. reflexivity.
Defined.

(** [update] over a manifest with a custom package ends with exit code 1. *)
Lemma update_all_with_custom_run :
  @result linux_host _ (update None None None false) sole_entry_machine = SystemExit 1.
Proof.
  refine (proj2 (@update_all_stops_at_custom_section linux_host None None None false
                   sole_entry_machine (Some sole_entry_manifest) _ _ _) _).
  - vm_compute. reflexivity.
  - reflexivity.
  - vm_compute. reflexivity.
  - apply demo_launches.
Defined.

(** Removing an App Store app: nothing runs, the command succeeds. *)
Lemma mas_removal_run :
  @result mac_host _ (remove "497799835" (Some "mas") None false false) mas_machine
  = Ret tt
  ∧ command_lines
      (@emitted mac_host _ (remove "497799835" (Some "mas") None false false) mas_machine)
    = [].
Proof.
  destruct (@mas_removal_only_edits_manifest mac_host "497799835" None false false
              mas_machine (Some mas_manifest))
    as (Hresult & _ & Hlines & _).
  - vm_compute. reflexivity.
  - vm_compute. reflexivity.
  - split; [exact Hresult|exact Hlines].
Defined.

(** With all five tools present, [bootstrap] only prints. *)
Lemma bootstrap_nothing_run :
  os (@final linux_host _ (bootstrap None false) bootstrapped_machine)
  = os bootstrapped_machine
  ∧ files (@final linux_host _ (bootstrap None false) bootstrapped_machine)
    = files bootstrapped_machine
  ∧ Forall is_output (@emitted linux_host _ (bootstrap None false) bootstrapped_machine)
  ∧ (truthy_opt None = false →
     @result linux_host _ (bootstrap None false) bootstrapped_machine = Ret tt).
Proof.
  apply (@bootstrap_leaves_available_managers_alone linux_host None false
           bootstrapped_machine).
  vm_compute. reflexivity.
Defined.





